(** * Dengue dashboard for Goiás: the fetch / normalise / process / aggregate
      pipeline of [app.py], [app_simple.py] and [fetch_data.py].

    The three Python files share one data pipeline built on pandas data
    frames.  This development embeds the tabular operations the pipeline
    uses (column coercion, [fillna], [sort_values], [groupby(...).tail(1)],
    [value_counts], [concat]) and the functions of the three files written
    on top of them, and states the properties of the pipeline as theorems. *)

From Stdlib Require Import ZArith Sorted Permutation.
From stdpp Require Import base gmap sets list strings pretty sorting.

Local Open Scope Z_scope.

(** ** Cells

    A cell of a data frame holds a missing value ([None], [NaN] and [NaT]
    are one value for pandas' [isna]), a number, a text or a timestamp.
    Numbers are integers and timestamps are offsets from the epoch.  pandas
    holds a numeric column with a missing value as float64: an integer up
    to 2^53 in magnitude is the same number there, and what is stated
    below of the value of a number is stated within that bound; numbers
    with a fraction are not among the cells. *)

Inductive cell :=
| NaN
| Num (n : Z)
| Str (s : string)
| Date (t : Z).

Global Instance cell_eq_dec : EqDecision cell.
Proof. solve_decision. Defined.

Definition isna (v : cell) : bool :=
  match v with NaN => true | _ => false end.

(** The text parsers behind [pd.to_numeric] and [pd.to_datetime], and the
    texts Python prints for a number and for a timestamp, belong to the
    library: the pipeline is verified for every choice of them.
    [parse_number s] is the number read from the text [s], [None] when
    none is read; the texts of the tables described here read as whole
    numbers or not at all.  [format_number n] is the text an f-string
    prints for the number [n] of an index: [9] when the column is an
    integer column, [9.0] when it is a float column (as a column that had
    a missing value is); the cells do not record which. *)

Class Parsers := {
  parse_number : string → option Z;
  parse_datetime : string → option Z;
  format_number : Z → string;
  format_datetime : Z → string
}.

(** Python exceptions the pipeline can meet. *)

Inductive exn :=
| KeyError (column : string)
| TypeError
| RequestException.

Global Instance exn_eq_dec : EqDecision exn.
Proof. solve_decision. Defined.

Inductive result (A : Type) :=
| Ok (a : A)
| Raise (e : exn).
Arguments Ok {A} a.
Arguments Raise {A} e.

Global Instance result_ret : MRet result := fun A a => Ok a.

Global Instance result_bind : MBind result := fun A B f m =>
  match m with Ok a => f a | Raise e => Raise e end.

Global Instance result_fmap : FMap result := fun A B f m =>
  match m with Ok a => Ok (f a) | Raise e => Raise e end.

(** ** Data frames

    A row carries its index label and one cell per column; a missing entry
    reads as [NaN].  The column labels form a set: no function of the
    pipeline depends on the order of the columns. *)

Record Row := mkRow { label : nat; cells : gmap string cell }.

Record DataFrame := mkDF { columns : gset string; rows : list Row }.

Global Instance Row_eq_dec : EqDecision Row.
Proof. solve_decision. Defined.

Global Instance DataFrame_eq_dec : EqDecision DataFrame.
Proof. solve_decision. Defined.

Definition at_ (r : Row) (c : string) : cell := default NaN (cells r !! c).

Definition column (c : string) (df : DataFrame) : list cell :=
  (fun r => at_ r c) <$> rows df.

(** [c in df.columns] *)
Definition has_column (c : string) (df : DataFrame) : bool :=
  bool_decide (c ∈ columns df).

(** [df.empty]: no rows or no columns. *)
Definition empty (df : DataFrame) : bool :=
  bool_decide (rows df = []) || bool_decide (columns df = ∅).

(** [pd.DataFrame()] *)
Definition empty_frame : DataFrame := mkDF ∅ [].

(** [pd.DataFrame(records)] for a list of dicts: the columns are the union
    of the keys, the labels are 0, 1, ..., and a key a record lacks is
    [NaN] in its row. *)
Definition DataFrame_of_records (recs : list (gmap string cell)) : DataFrame :=
  let cols : gset string := ⋃ (dom <$> recs) in
  mkDF cols (imap (fun i r => mkRow i (r ∪ gset_to_gmap NaN cols)) recs).

(** pandas holds a column of numbers with a missing entry as float64:
    what is stated of a cell of such a table is stated of the cells float64
    holds as they are, every cell but a number beyond 2^53 in magnitude. *)
Definition float_exact (v : cell) : bool :=
  match v with Num n => bool_decide (- 2 ^ 53 ≤ n ≤ 2 ^ 53) | _ => true end.

(** A row with one cell replaced. *)
Definition set_cell (c : string) (v : cell) (r : Row) : Row :=
  mkRow (label r) (<[ c := v ]> (cells r)).

(** [df[c] = f(df[c])] for an elementwise [f]. *)
Definition assign_map (c : string) (f : cell → cell) (df : DataFrame) : DataFrame :=
  mkDF ({[ c ]} ∪ columns df) ((fun r => set_cell c (f (at_ r c)) r) <$> rows df).

(** [df[c] = v] for a scalar [v]. *)
Definition assign_const (c : string) (v : cell) (df : DataFrame) : DataFrame :=
  mkDF ({[ c ]} ∪ columns df) (set_cell c v <$> rows df).

Section coercions.
Context `{Parsers}.

(** [pd.to_numeric(..., errors='coerce')] on one cell: a number stays, a
    text is parsed, a timestamp is read as its offset, and what does not
    parse becomes missing. *)
Definition to_numeric (v : cell) : cell :=
  match v with
  | NaN => NaN
  | Num n => Num n
  | Str s => match parse_number s with Some n => Num n | None => NaN end
  | Date t => Num t
  end.

(** [pd.to_datetime(..., errors='coerce')] on one cell: a number is an
    offset from the epoch (so 0 is the epoch itself), a text is parsed,
    and what does not parse becomes missing.  pandas parses a column as a
    whole: it reads the texts in the format of the first one and does not
    read a number that stands beside a text.  On a column whose present
    cells are all numbers, or all timestamps ([plain_dates] below), it
    parses cell by cell as written here. *)
Definition to_datetime (v : cell) : cell :=
  match v with
  | NaN => NaN
  | Num n => Date n
  | Str s => match parse_datetime s with Some t => Date t | None => NaN end
  | Date t => Date t
  end.
End coercions.

(** [df.fillna(0)]: every missing cell of every column becomes the number 0,
    whatever the column held before. *)
Definition fill0 (v : cell) : cell :=
  match v with NaN => Num 0 | _ => v end.

Definition fill_row (cols : gset string) (r : Row) : Row :=
  mkRow (label r) ((fill0 <$> cells r) ∪ gset_to_gmap (Num 0) cols).

Definition fillna0 (df : DataFrame) : DataFrame :=
  mkDF (columns df) (fill_row (columns df) <$> rows df).

(** ** Ordering cells

    Python orders numbers, texts and timestamps among themselves and raises
    [TypeError] across these kinds; pandas puts missing values last. *)

Definition kind (v : cell) : nat :=
  match v with Num _ => 0%nat | Str _ => 1%nat | Date _ => 2%nat | NaN => 3%nat end.

Definition cell_le (a b : cell) : bool :=
  match a, b with
  | _, NaN => true
  | NaN, _ => false
  | Num x, Num y => bool_decide (x ≤ y)
  | Str s, Str t => String.leb s t
  | Date x, Date y => bool_decide (x ≤ y)
  | _, _ => bool_decide (kind a ≤ kind b)%nat
  end.

(** The cells that are present are all of one kind. *)
Definition homogeneous (l : list cell) : bool :=
  match filter (fun v => v ≠ NaN) l with
  | [] => true
  | v :: vs => forallb (fun w => bool_decide (kind w = kind v)) vs
  end.

Section stable_sort.
Context {A : Type} (key : A → cell).

Fixpoint insert_sorted (x : A) (l : list A) : list A :=
  match l with
  | [] => [x]
  | y :: l' =>
      if cell_le (key x) (key y) then x :: l else y :: insert_sorted x l'
  end.

(** A stable sort: rows with equal keys keep their order. *)
Definition stable_sort (l : list A) : list A := foldr insert_sorted [] l.

(** [x] comes no later than [y] in the order of the keys. *)
Definition key_le (x y : A) : Prop := cell_le (key x) (key y) = true.
End stable_sort.

(** [df.sort_values(c)]: [KeyError] without the column, [TypeError] when
    the column mixes kinds, else the rows in ascending order of the column,
    missing values last.  This sort keeps rows with equal keys in their
    previous order; pandas' default sort kind (quicksort) promises no
    order among them, so what is stated of the code is stated up to the
    order of rows with equal keys. *)
Definition sort_values (c : string) (df : DataFrame) : result DataFrame :=
  if has_column c df then
    if homogeneous (column c df) then
      Ok (mkDF (columns df) (stable_sort (fun r => at_ r c) (rows df)))
    else Raise TypeError
  else Raise (KeyError c).

(** [df.groupby(c).tail(1)]: the last row of every group, in the order of
    the frame; rows whose key is missing belong to no group. *)
Fixpoint last_of_each_group (key : Row → cell) (l : list Row) : list Row :=
  match l with
  | [] => []
  | r :: l' =>
      if bool_decide (key r = NaN) then last_of_each_group key l'
      else if bool_decide (key r ∈ key <$> l') then last_of_each_group key l'
      else r :: last_of_each_group key l'
  end.

Definition groupby_tail1 (c : string) (df : DataFrame) : result DataFrame :=
  if has_column c df then
    Ok (mkDF (columns df) (last_of_each_group (fun r => at_ r c) (rows df)))
  else Raise (KeyError c).

(** [df.drop_duplicates(subset=[c])]: the first row of every value of the
    column, a missing value being one value. *)
Fixpoint first_of_each_value (key : Row → cell) (seen : list cell) (l : list Row)
  : list Row :=
  match l with
  | [] => []
  | r :: l' =>
      if bool_decide (key r ∈ seen) then first_of_each_value key seen l'
      else r :: first_of_each_value key (key r :: seen) l'
  end.

Definition drop_duplicates (c : string) (df : DataFrame) : result DataFrame :=
  if has_column c df then
    Ok (mkDF (columns df) (first_of_each_value (fun r => at_ r c) [] (rows df)))
  else Raise (KeyError c).

(** [df.tail(n)] *)
Definition tail_rows (n : nat) (df : DataFrame) : DataFrame :=
  mkDF (columns df) (drop (length (rows df) - n) (rows df)).

(** [series.value_counts()]: one count per value that is present, missing
    values left out, the most frequent value first. *)
Definition value_counts (l : list cell) : list (cell * nat) :=
  let present := filter (fun v => v ≠ NaN) l in
  stable_sort (fun p => Num (- Z.of_nat p.2))
    ((fun v => (v, length (filter (fun w => w = v) present))) <$> remove_dups present).

(** [counts.sort_index()] *)
Definition sort_index (counts : list (cell * nat)) : result (list (cell * nat)) :=
  if homogeneous (fst <$> counts) then Ok (stable_sort fst counts)
  else Raise TypeError.

(** [df_latest['nivel'].value_counts().sort_index()] *)
Definition nivel_counts (df_latest : DataFrame) : result (list (cell * nat)) :=
  sort_index (value_counts (column "nivel" df_latest)).

(** [pd.concat(frames, ignore_index=True)]: the rows of the frames one
    after the other under the union of their columns, relabelled 0, 1, ... *)
Definition pd_concat (frames : list DataFrame) : DataFrame :=
  let cols : gset string := ⋃ (columns <$> frames) in
  mkDF cols
       (imap (fun i r => mkRow i (cells r ∪ gset_to_gmap NaN cols))
             (mjoin (rows <$> frames))).

(** [pd.DataFrame([v])] for a value that is no dict: one row and one
    column, whose integer label 0 is written here as the text 0 (no column
    the pipeline names has that text). *)
Definition DataFrame_of_scalar (v : cell) : DataFrame :=
  mkDF {[ "0" ]} [mkRow 0 {[ "0" := v ]}].

(** ** The HTTP collaborators

    A request times out, cannot connect, or is answered; [raise_for_status]
    turns an error status into an exception.  All three are
    [requests.exceptions.RequestException]s.  The bulk endpoint answers with
    an envelope [{items: [...], pagination: {total_pages: n}}], any part of
    which may be absent; the single-municipality endpoint answers with a
    list of records, one record, or some other JSON value. *)

Inductive failure :=
| Timeout
| ConnectionError
| HttpStatus (code : Z).

Inductive reply (B : Type) :=
| Failed (f : failure)
| Success (body : B).
Arguments Failed {B} f.
Arguments Success {B} body.

Record pagination_info := mkPagination { total_pages : option Z }.

Record envelope := mkEnvelope {
  items : option (list (gmap string cell));
  pagination : option pagination_info
}.

Inductive payload :=
| PList (l : list (gmap string cell))
| PDict (r : gmap string cell)
| POther (v : cell).

(** What a fetch does besides returning: the requests it issues,
    [logger.error] and [st.warning].  The [logger.info] lines of the
    fetches are not among the events. *)
Inductive event :=
| RequestedPage (page : Z)
| RequestedCity (geocode : string)
| LoggedError
| Warned.

Definition io (A : Type) : Type := list event → list event * result A.

Global Instance io_ret : MRet io := fun A a tr => (tr, Ok a).

Global Instance io_bind : MBind io := fun A B f m tr =>
  match m tr with
  | (tr', Ok a) => f a tr'
  | (tr', Raise e) => (tr', Raise e)
  end.

Definition emit (e : event) : io unit := fun tr => (tr ++ [e], Ok ()).

Definition lift {A} (r : result A) : io A := fun tr => (tr, r).

(** [try: body except <catches>: handler] *)
Definition try_except {A} (body : io A) (catches : exn → bool) (handler : io A)
  : io A := fun tr =>
  match body tr with
  | (tr', Raise e) => if catches e then handler tr' else (tr', Raise e)
  | done => done
  end.

(** [requests.get(...)], [raise_for_status()] and [response.json()]. *)
Definition http_get {K B} (srv : K → reply B) (k : K) (ev : event) : io B :=
  _ ← emit ev;
  lift (match srv k with
        | Success body => Ok body
        | Failed _ => Raise RequestException
        end).

(** [data.get("items", [])] *)
Definition get_items (data : envelope) : list (gmap string cell) :=
  default [] (items data).

(** [data.get("pagination", {}).get("total_pages", 1)] *)
Definition get_total_pages (data : envelope) : Z :=
  default 1 (pagination data ≫= total_pages).

(** [range(a, b)] *)
Definition range (a b : Z) : list Z := seqZ a (b - a).

(** The body of [for page in range(...)]: request the page and extend
    [all_items] with its items. *)
Fixpoint extend_pages (srv : Z → reply envelope)
    (all_items : list (gmap string cell)) (pages : list Z)
  : io (list (gmap string cell)) :=
  match pages with
  | [] => mret all_items
  | page :: pages' =>
      data ← http_get srv page (RequestedPage page);
      extend_pages srv (all_items ++ get_items data) pages'
  end.


(** The first column of [names] the frame has, as [if c1 in df.columns: ...
    elif c2 in df.columns: ...] picks it. *)
Definition first_present (names : list string) (df : DataFrame) : option string :=
  find (fun c => has_column c df) names.

(** [for col in cols: if col in df.columns: df[col] = f(df[col])] *)
Definition coerce_columns (f : cell → cell) (cols : list string) (df : DataFrame)
  : DataFrame :=
  foldl (fun d col => if has_column col d then assign_map col f d else d) df cols.

(** ** fetch_data.py *)

Module FetchData.
Section with_parsers.
Context `{Parsers}.

Definition numeric_cols : list string :=
  [ "casos_est"; "casos_est_min"; "casos_est_max"; "casos";
    "p_rt1"; "p_inc100k"; "Rt"; "pop"; "receptivo"; "transmissao";
    "umidmax"; "umidmed"; "umidmin"; "tempmax"; "tempmed"; "tempmin" ].

Definition process_dengue_data (df : DataFrame) : result DataFrame :=
  if empty df then Ok df
  else
    let df := coerce_columns to_numeric numeric_cols df in
    let df := if has_column "data_iniSE" df
              then assign_map "data_iniSE" to_datetime df else df in
    let df := fillna0 df in
    if has_column "data_iniSE" df then sort_values "data_iniSE" df
    else Ok df.

(** The bulk fetch without a page cap.  [collect_items] is lines 74-95:
    page 1, then [for page in range(2, total_pages + 1)]; only a
    [RequestException] is caught. *)
Definition collect_items (srv : Z → reply envelope)
  : io (list (gmap string cell)) :=
  data ← http_get srv 1 (RequestedPage 1);
  let items := get_items data in
  let total_pages := get_total_pages data in
  extend_pages srv items (range 2 (total_pages + 1)).

Definition fetch_infodengue_data (srv : Z → reply envelope) : io DataFrame :=
  try_except
    (all_items ← collect_items srv;
     mret (DataFrame_of_records all_items))
    (fun e => bool_decide (e = RequestException))
    (_ ← emit LoggedError; mret empty_frame).

Definition get_alert_level_name (level : Z) : string :=
  if bool_decide (level = 1) then "Verde"
  else if bool_decide (level = 2) then "Amarelo"
  else if bool_decide (level = 3) then "Laranja"
  else if bool_decide (level = 4) then "Vermelho"
  else "Desconhecido".

Definition get_alert_level_color (level : Z) : string :=
  if bool_decide (level = 1) then "#2ecc71"
  else if bool_decide (level = 2) then "#f39c12"
  else if bool_decide (level = 3) then "#e67e22"
  else if bool_decide (level = 4) then "#e74c3c"
  else "#95a5a6".

End with_parsers.
End FetchData.

(** ** The alert-level tables shared by the views

    [nivel_names] and [nivel_colors] are the same dict literals wherever
    they appear ([app.py] lines 449-450, [app_simple.py] lines 212-213 and
    454-455); only the numbers 1 to 4 are keys. *)

Definition nivel_names_get (i : cell) (default : string) : string :=
  match i with
  | Num 1 => "Verde"
  | Num 2 => "Amarelo"
  | Num 3 => "Laranja"
  | Num 4 => "Vermelho"
  | _ => default
  end.

Definition nivel_colors_get (i : cell) (default : string) : string :=
  match i with
  | Num 1 => "#2ecc71"
  | Num 2 => "#f39c12"
  | Num 3 => "#e67e22"
  | Num 4 => "#e74c3c"
  | _ => default
  end.

(** One bar of the alert-distribution chart. *)
Record bar := mkBar { bar_label : string; bar_value : nat; bar_color : string }.

Section bars.
Context `{Parsers}.

(** [str(i)] as an f-string prints it. *)
Definition cell_text (i : cell) : string :=
  match i with
  | NaN => "nan"
  | Num n => format_number n
  | Str s => s
  | Date t => format_datetime t
  end.

(** [labels], [nivel_counts.values] and [colors] of the bar chart. *)
Definition bars_of_counts (nivel_counts : list (cell * nat)) : list bar :=
  (fun p => mkBar (nivel_names_get p.1 ("Nível " +:+ cell_text p.1))
                  p.2
                  (nivel_colors_get p.1 "#95a5a6")) <$> nivel_counts.
End bars.

(** ** app.py *)

Module App.
Section with_parsers.
Context `{Parsers}.

Definition numeric_cols : list string :=
  [ "casos_est"; "casos_est_min"; "casos_est_max"; "casos";
    "p_rt1"; "p_inc100k"; "Rt"; "pop"; "receptivo"; "transmissao";
    "umidmax"; "umidmed"; "umidmin"; "tempmax"; "tempmed"; "tempmin";
    "casprov"; "casprov_est"; "casprov_est_min"; "casprov_est_max"; "casconf" ].

Definition process_dengue_data (df : DataFrame) : result DataFrame :=
  if empty df then Ok df
  else
    let df := coerce_columns to_numeric numeric_cols df in
    let df := coerce_columns to_datetime ["data_iniSE"; "data_ini_SE"] df in
    let df := fillna0 df in
    if has_column "data_iniSE" df then sort_values "data_iniSE" df
    else if has_column "data_ini_SE" df then sort_values "data_ini_SE" df
    else Ok df.

(** The bulk fetch capped at five pages.  [collect_items] is lines 131-148:
    page 1, then [for page in range(2, min(total_pages + 1, 6))];
    [except Exception] catches everything, logs and warns.  This and
    [fetch_municipality_data] are the functions under their
    [@st.cache_data] decorator, what a call runs when the cache has no
    live entry for it; [CachedApp] below has the decorated functions. *)
Definition collect_items (srv : Z → reply envelope)
  : io (list (gmap string cell)) :=
  data ← http_get srv 1 (RequestedPage 1);
  let items := get_items data in
  let total_pages := get_total_pages data in
  extend_pages srv items (range 2 (Z.min (total_pages + 1) 6)).

Definition fetch_infodengue_state_data (srv : Z → reply envelope) : io DataFrame :=
  try_except
    (all_items ← collect_items srv;
     let df := DataFrame_of_records all_items in
     if negb (empty df) then lift (process_dengue_data df) else mret df)
    (fun _ => true)
    (_ ← emit LoggedError; _ ← emit Warned; mret empty_frame).

(** Lines 197-200: a list becomes [pd.DataFrame(data)], anything else
    [pd.DataFrame([data])]. *)
Definition normalize (data : payload) : DataFrame :=
  match data with
  | PList l => DataFrame_of_records l
  | PDict r => DataFrame_of_records [r]
  | POther v => DataFrame_of_scalar v
  end.

Definition fetch_municipality_data (srv : string → reply payload) (geocode : string)
  : io DataFrame :=
  try_except
    (data ← http_get srv geocode (RequestedCity geocode);
     let df := normalize data in
     if negb (empty df) then lift (process_dengue_data df) else mret df)
    (fun _ => true)
    (_ ← emit LoggedError; mret empty_frame).

Definition get_alert_level_info (level : Z) : string * string :=
  if bool_decide (level = 1) then ("Verde", "#2ecc71")
  else if bool_decide (level = 2) then ("Amarelo", "#f39c12")
  else if bool_decide (level = 3) then ("Laranja", "#e67e22")
  else if bool_decide (level = 4) then ("Vermelho", "#e74c3c")
  else ("Desconhecido", "#95a5a6").

(** [df.sort_values('data_iniSE').groupby('municipio_geocodigo').tail(1)]
    (lines 367, 446 and 495). *)
Definition latest_per_municipality (df : DataFrame) : result DataFrame :=
  sorted ← sort_values "data_iniSE" df;
  groupby_tail1 "municipio_geocodigo" sorted.

(** The data of the bar chart of [create_alert_level_distribution]; [None]
    is the function's [return None]. *)
Definition create_alert_level_distribution (df : DataFrame)
  : result (option (list bar)) :=
  if empty df || negb (has_column "nivel" df) then Ok None
  else
    df_latest ← latest_per_municipality df;
    nivel_counts ← nivel_counts df_latest;
    Ok (Some (bars_of_counts nivel_counts)).

End with_parsers.
End App.

(** ** app_simple.py *)

Module AppSimple.
Section with_parsers.
Context `{Parsers}.

Definition GOIAS_MUNICIPALITIES : list (Z * string) :=
  [ (5103403, "Goiânia"); (5104402, "Anápolis");
    (5103809, "Aparecida de Goiânia"); (5104304, "Abadia de Goiás");
    (5104700, "Aragarças"); (5105002, "Arenópolis");
    (5105101, "Argolândia"); (5105408, "Aurilândia");
    (5105507, "Avelinópolis"); (5105606, "Baliza");
    (5105705, "Bom Jardim de Goiás"); (5105804, "Britânia");
    (5106001, "Buriti Alegre"); (5106100, "Cachoeira de Goiás");
    (5106209, "Caçu"); (5106308, "Caiapônia");
    (5106407, "Caldas Novas"); (5106506, "Caldazinha");
    (5106605, "Campestre de Goiás"); (5106704, "Campinaçu") ].

(** Lines 92-97: a list, a dict, or [return pd.DataFrame()] ([None] here,
    the early return). *)
Definition normalize (data : payload) : option DataFrame :=
  match data with
  | PList l => Some (DataFrame_of_records l)
  | PDict r => Some (DataFrame_of_records [r])
  | POther _ => None
  end.

(** [try: df[col] = pd.to_datetime(df[col]) except: pass]: without
    [errors='coerce'] one cell that does not parse raises, and the column
    stays as it was.  pandas decides on the column as a whole (see
    [to_datetime]); here the column is converted when every present cell
    parses on its own.  Either way the columns, the rows and every cell
    outside the date columns are kept, which is all that is stated of the
    fetched table below.  [fetch_infodengue_data] and
    [fetch_all_municipalities_data] are the functions under their
    [@st.cache_data] decorator; [CachedAppSimple] below has the decorated
    functions. *)
Definition try_to_datetime (col : string) (df : DataFrame) : DataFrame :=
  if forallb (fun v => isna v || negb (isna (to_datetime v))) (column col df)
  then assign_map col to_datetime df
  else df.

Definition fetch_infodengue_data (srv : string → reply payload) (geocode : string)
  : io DataFrame :=
  try_except
    (data ← http_get srv geocode (RequestedCity geocode);
     match normalize data with
     | None => mret empty_frame
     | Some df =>
         mret (foldl (fun d col => if has_column col d then try_to_datetime col d else d)
                     df ["data_iniSE"; "data_ini_SE"; "data"])
     end)
    (fun _ => true)
    (_ ← emit LoggedError; mret empty_frame).

(** The loop of [fetch_all_municipalities_data] over the items of the
    static table, [all_data] being the list it appends to. *)
Fixpoint collect_municipalities (srv : string → reply payload)
    (table : list (Z * string)) (all_data : list DataFrame) : io (list DataFrame) :=
  match table with
  | [] => mret all_data
  | (geocode, municipality_name) :: table' =>
      df ← fetch_infodengue_data srv (pretty geocode);
      if negb (empty df) then
        let df := assign_const "municipio_nome" (Str municipality_name) df in
        let df := assign_const "municipio_geocodigo" (Num geocode) df in
        collect_municipalities srv table' (all_data ++ [df])
      else collect_municipalities srv table' all_data
  end.

Definition fetch_all_municipalities_data (srv : string → reply payload)
  : io DataFrame :=
  all_data ← collect_municipalities srv GOIAS_MUNICIPALITIES [];
  if bool_decide (all_data = []) then mret empty_frame
  else mret (pd_concat all_data).

(** The table [fetch_infodengue_data] returns for a municipality of the
    static table (it never raises), apart from what it logs. *)
Definition fetched (srv : string → reply payload) (geocode : Z) : DataFrame :=
  match (fetch_infodengue_data srv (pretty geocode) []).2 with
  | Ok df => df
  | Raise _ => empty_frame
  end.

(** The frames [collect_municipalities] appends for a table: that of every
    municipality whose fetch is not empty, with its name and geocode. *)
Definition tagged_frames (srv : string → reply payload) (table : list (Z * string))
  : list DataFrame :=
  table ≫= fun entry =>
    if negb (empty (fetched srv entry.1)) then
      [assign_const "municipio_geocodigo" (Num entry.1)
         (assign_const "municipio_nome" (Str entry.2) (fetched srv entry.1))]
    else [].

(** Lines 202-208 (and 250-256, 327-334): the latest record of every
    municipality, with the fallback when the frame has no geocode column. *)
Definition date_col (df : DataFrame) : string :=
  if has_column "data_iniSE" df then "data_iniSE" else "data_ini_SE".

Definition geocode_col (df : DataFrame) : string :=
  if has_column "municipio_geocodigo" df then "municipio_geocodigo" else "geocode".

Definition latest_per_municipality (df : DataFrame) : result DataFrame :=
  let date_col := date_col df in
  let geocode_col := geocode_col df in
  if has_column geocode_col df then
    sorted ← sort_values date_col df;
    groupby_tail1 geocode_col sorted
  else
    sorted ← sort_values date_col df;
    deduplicated ← drop_duplicates "municipio_nome" df;
    Ok (tail_rows (length (rows deduplicated)) sorted).

(** The data of the bar chart of [create_alert_distribution]; [None] is
    [return None], also from the [except] clause. *)
Definition create_alert_distribution (df : DataFrame) : option (list bar) :=
  if empty df || negb (has_column "nivel" df) then None
  else
    match
      df_latest ← latest_per_municipality df;
      nivel_counts ← nivel_counts df_latest;
      Ok (bars_of_counts nivel_counts)
    with
    | Ok chart => Some chart
    | Raise _ => None
    end.

(** The badge of the single-municipality view (lines 453-458):
    [nivel_names.get(nivel, "Desconhecido")] and
    [nivel_colors.get(nivel, "#95a5a6")] for [nivel = int(...)]. *)
Definition nivel_badge (nivel : Z) : string * string :=
  (nivel_names_get (Num nivel) "Desconhecido",
   nivel_colors_get (Num nivel) "#95a5a6").

End with_parsers.
End AppSimple.

(** ** The two variants of the bulk pipeline

    [app.py] and [fetch_data.py] each have a [process_dengue_data] and a
    bulk fetch; the properties they share are stated once, over the
    variant. *)

Inductive variant := AppPy | FetchDataPy.

Section variants.
Context `{Parsers}.

Definition numeric_cols_of (v : variant) : list string :=
  match v with
  | AppPy => App.numeric_cols
  | FetchDataPy => FetchData.numeric_cols
  end.

(** The date columns a variant parses, in the order it looks for a sort
    key. *)
Definition date_cols_of (v : variant) : list string :=
  match v with
  | AppPy => ["data_iniSE"; "data_ini_SE"]
  | FetchDataPy => ["data_iniSE"]
  end.

Definition process_of (v : variant) : DataFrame → result DataFrame :=
  match v with
  | AppPy => App.process_dengue_data
  | FetchDataPy => FetchData.process_dengue_data
  end.

(** The last page a variant requests when the envelope announces
    [total_pages]. *)
Definition last_page_of (v : variant) (total_pages : Z) : Z :=
  match v with
  | AppPy => Z.min total_pages 5
  | FetchDataPy => total_pages
  end.

Definition collect_items_of (v : variant)
  : (Z → reply envelope) → io (list (gmap string cell)) :=
  match v with
  | AppPy => App.collect_items
  | FetchDataPy => FetchData.collect_items
  end.

Definition bulk_fetch_of (v : variant) : (Z → reply envelope) → io DataFrame :=
  match v with
  | AppPy => App.fetch_infodengue_state_data
  | FetchDataPy => FetchData.fetch_infodengue_data
  end.

End variants.

(** ** The shape of [process_dengue_data]

    Both variants coerce their numeric columns, parse their date columns,
    fill the missing cells and sort by the first date column the frame has;
    [process_with] is that shape, and [coerce_row] what the coercion loop
    does to one row. *)

Section process_shape.
Context `{Parsers}.

Definition sort_by_first (keys : list string) (df : DataFrame) : result DataFrame :=
  match first_present keys df with
  | Some k => sort_values k df
  | None => Ok df
  end.

Definition process_with (ncols dcols : list string) (df : DataFrame)
  : result DataFrame :=
  if empty df then Ok df
  else sort_by_first dcols
         (fillna0 (coerce_columns to_datetime dcols
                     (coerce_columns to_numeric ncols df))).

Definition coerce_row (f : cell → cell) (cs : list string) (cols : gset string)
    (r : Row) : Row :=
  foldl (fun r c => if bool_decide (c ∈ cols) then set_cell c (f (at_ r c)) r else r)
        r cs.

(** What [process_dengue_data] makes of one row, before sorting. *)
Definition clean_row (ncols dcols : list string) (cols : gset string) (r : Row) : Row :=
  fill_row cols (coerce_row to_datetime dcols cols (coerce_row to_numeric ncols cols r)).

End process_shape.

(** ** The alert distribution read off a snapshot

    [distribution_of] relates the bars of the chart to the snapshot they are
    counted from: one bar per level present in the snapshot, in ascending
    order of the levels, each as high as the number of snapshot rows of its
    level; together the bars count the rows whose level is present. *)

Section distribution.
Context `{Parsers}.

Definition distribution_of (snapshot : result DataFrame) (chart : list bar) : Prop :=
  ∃ snap counts,
    snapshot = Ok snap ∧
    nivel_counts snap = Ok counts ∧
    chart = bars_of_counts counts ∧
    NoDup (fst <$> counts) ∧
    StronglySorted (key_le fst) counts ∧
    (∀ v, v ∈ fst <$> counts ↔ v ≠ NaN ∧ v ∈ column "nivel" snap) ∧
    (∀ v n, (v, n) ∈ counts →
            n = length (filter (fun r => at_ r "nivel" = v) (rows snap))) ∧
    sum_list_with bar_value chart
      = length (filter (fun r => at_ r "nivel" ≠ NaN) (rows snap)) ∧
    ((∀ r, r ∈ rows snap → at_ r "nivel" ≠ NaN) →
     sum_list_with bar_value chart = length (rows snap)).

End distribution.

(** ** The alert table as the specification words it

    The display names of the specification are English; this is its fixed
    table, to compare the tables of the code with. *)

Definition spec_alert_level_info (level : Z) : string * string :=
  if bool_decide (level = 1) then ("Green", "#2ecc71")
  else if bool_decide (level = 2) then ("Yellow", "#f39c12")
  else if bool_decide (level = 3) then ("Orange", "#e67e22")
  else if bool_decide (level = 4) then ("Red", "#e74c3c")
  else ("Unknown", "#95a5a6").

(** ** A sample of the library's parsers

    Decimal integers for numbers and ISO dates [YYYY-MM-DD] for timestamps,
    counted in days from the epoch, and numbers printed as an integer
    column prints them; used to run the pipeline on concrete tables. *)

Module Sample.

Definition digit (a : Ascii.ascii) : option Z :=
  let n := Z.of_N (Ascii.N_of_ascii a) in
  if bool_decide (48 ≤ n ≤ 57) then Some (n - 48) else None.

Fixpoint digits (acc : Z) (s : string) : option Z :=
  match s with
  | EmptyString => Some acc
  | String a s' => d ← digit a; digits (10 * acc + d) s'
  end.

Definition unsigned (s : string) : option Z :=
  match s with
  | EmptyString => None
  | _ => digits 0 s
  end.

Definition decimal (s : string) : option Z :=
  match s with
  | String a s' =>
      if bool_decide (Ascii.N_of_ascii a = 45%N) then Z.opp <$> unsigned s' else unsigned s
  | EmptyString => None
  end.

(** Days from 1970-01-01 to the civil date [y]-[m]-[d]. *)
Definition days_from_civil (y m d : Z) : Z :=
  let y' := if bool_decide (m ≤ 2) then y - 1 else y in
  let era := y' `div` 400 in
  let yoe := y' - era * 400 in
  let mp := if bool_decide (m ≤ 2) then m + 9 else m - 3 in
  let doy := (153 * mp + 2) `div` 5 + d - 1 in
  let doe := yoe * 365 + yoe `div` 4 - yoe `div` 100 + doy in
  era * 146097 + doe - 719468.

Definition iso_date (s : string) : option Z :=
  if bool_decide (String.length s = 10%nat ∧ String.substring 4 1 s = "-" ∧ String.substring 7 1 s = "-")
  then
    y ← unsigned (String.substring 0 4 s);
    m ← unsigned (String.substring 5 2 s);
    d ← unsigned (String.substring 8 2 s);
    if bool_decide (1 ≤ m ≤ 12 ∧ 1 ≤ d ≤ 31) then Some (days_from_civil y m d)
    else None
  else None.

(** Numbers are printed as an integer column prints them. *)
Definition parsers : Parsers :=
  {| parse_number := decimal;
     parse_datetime := iso_date;
     format_number := pretty;
     format_datetime := fun t => "day " +:+ pretty t |}.

(** The same parsers, numbers printed as a float column prints them. *)
Definition float_parsers : Parsers :=
  {| parse_number := decimal;
     parse_datetime := iso_date;
     format_number := fun n => pretty n +:+ ".0";
     format_datetime := fun t => "day " +:+ pretty t |}.

(** A record given as a list of its fields. *)
Definition record (fields : list (string * cell)) : gmap string cell :=
  list_to_map fields.

End Sample.

(** ** The selectors, summaries and tables of the dashboards

    What the [main] functions and the table view of app_simple.py do with
    the tables above. *)

(** A dict filled by assigning the pairs one after the other: a later pair
    replaces an earlier one with the same key. *)
Definition dict_of_pairs {K V} `{Countable K} (pairs : list (K * V)) : gmap K V :=
  foldl (fun d p => <[ p.1 := p.2 ]> d) ∅ pairs.

(** [{v: k for k, v in d.items()}] *)
Definition inverted {K V} `{Countable V} (items : list (K * V)) : gmap V K :=
  dict_of_pairs ((fun p => (p.2, p.1)) <$> items).

(** [df.iloc[-1]], [None] standing for the [IndexError] of a frame without
    rows. *)
Definition iloc_last (df : DataFrame) : option Row := last (rows df).

(** [(df_latest['nivel'] == level).sum()]: an elementwise comparison with
    the integer, which a text or a missing cell does not equal. *)
Definition count_level (level : Z) (df_latest : DataFrame) : nat :=
  length (filter (fun v => v = Num level) (column "nivel" df_latest)).

(** [df[cs]] for columns that the frame has, in the order of [cs]. *)
Definition select_columns (cs : list string) (df : DataFrame) : DataFrame :=
  mkDF (list_to_set cs)
       ((fun r => mkRow (label r) (list_to_map ((fun c => (c, at_ r c)) <$> cs)))
          <$> rows df).

(** [df.columns = names] on a frame whose columns are [cs] in that order:
    the i-th column takes the i-th name, and a list of another length
    raises ([None]). *)
Definition set_columns (cs names : list string) (df : DataFrame) : option DataFrame :=
  if bool_decide (length names = length cs) then
    Some (mkDF (list_to_set names)
               ((fun r => mkRow (label r)
                            (list_to_map (zip names ((fun c => at_ r c) <$> cs))))
                  <$> rows df))
  else None.

(** *** app.py, [main] *)

Module AppMain.
Section with_parsers.
Context `{Parsers}.

Definition GOIAS_MUNICIPALITIES : list (string * string) :=
  [ ("3301500", "Goiânia"); ("3302502", "Aparecida de Goiânia");
    ("3302155", "Anápolis"); ("3303302", "Jataí"); ("3304159", "Luziânia");
    ("3305109", "Itumbiara"); ("3305208", "Jaraguá"); ("3305505", "Mineiros");
    ("3305703", "Morrinhos"); ("3306039", "Pirenópolis");
    ("3306500", "Rio Verde"); ("3307209", "Senador Canedo");
    ("3307500", "Trindade") ].

(** Line 640. *)
Definition municipality_options : gmap string string :=
  inverted GOIAS_MUNICIPALITIES.

(** Lines 649-655: the record shown for the selected municipality,
    [None] when the view shows the warning instead. *)
Definition latest_record (srv : string → reply payload) (geocode : string)
  : io (option Row) :=
  df_muni ← App.fetch_municipality_data srv geocode;
  if empty df_muni then mret None else mret (iloc_last df_muni).

End with_parsers.
End AppMain.

(** *** app_simple.py, [create_municipalities_table] and [main] *)

Module AppSimpleMain.
Section with_parsers.
Context `{Parsers}.

Definition cols_to_show : list string :=
  [ "municipio_nome"; "casos_est"; "casos"; "p_inc100k"; "Rt"; "nivel" ].

Definition display_names : list string :=
  [ "Município"; "Casos Estimados"; "Casos Notificados";
    "Taxa de Incidência"; "Rt"; "Nível" ].

(** [None] is [return None], also from the [except] clause. *)
Definition create_municipalities_table (df : DataFrame) : option DataFrame :=
  if empty df then None
  else
    match AppSimple.latest_per_municipality df with
    | Raise _ => None
    | Ok df_latest =>
        let shown := filter (fun col => has_column col df_latest) cols_to_show in
        let df_display := select_columns shown df_latest in
        set_columns shown display_names df_display
    end.

(** Lines 382-388: the summary beside the distribution chart, as
    (verde, amarelo, laranja, vermelho). *)
Definition level_summary (df_latest : DataFrame) : nat * nat * nat * nat :=
  if has_column "nivel" df_latest then
    (count_level 1 df_latest, count_level 2 df_latest,
     count_level 3 df_latest, count_level 4 df_latest)
  else (0, 0, 0, 0)%nat.

(** Line 420. *)
Definition municipality_options : gmap string Z :=
  inverted AppSimple.GOIAS_MUNICIPALITIES.

(** Lines 435-436: [df_muni.sort_values(date_col).iloc[-1] if not
    df_muni.empty else {}], [None] standing for the empty dict. *)
Definition latest_record (df_muni : DataFrame) : result (option Row) :=
  if negb (empty df_muni) then
    sorted ← sort_values (AppSimple.date_col df_muni) df_muni;
    Ok (iloc_last sorted)
  else Ok None.

End with_parsers.
End AppSimpleMain.

(** ** Date columns of one kind

    The InfoDengue API delivers the week-start date as a number (an offset
    from the epoch), and a processed table holds it as a timestamp.  On a
    column whose present cells are all such numbers, or all timestamps,
    pandas parses cell by cell as [to_datetime] does.  The numbers are
    taken within 2^53 in magnitude, where a float64 column (as a numeric
    column with a missing value is) holds them exactly; they are well
    within the range of timestamps. *)

Definition is_offset (v : cell) : bool :=
  match v with Num n => bool_decide (- 2 ^ 53 ≤ n ≤ 2 ^ 53) | _ => false end.

Definition is_timestamp (v : cell) : bool :=
  match v with Date _ => true | _ => false end.

(** The present cells are all offsets, or all timestamps. *)
Definition plain_dates (l : list cell) : bool :=
  forallb (fun v => isna v || is_offset v) l
  || forallb (fun v => isna v || is_timestamp v) l.


(** ** Streamlit's data cache

    [@st.cache_data(ttl=...)]: a call whose arguments have a live entry in
    the cache returns the stored table without running the function, so
    without a request or a log line, and Streamlit shows again the warning
    the function showed when the entry was made; any other call runs the
    function.  [hit] is the live entry of the call's arguments, if there
    is one. *)

Record cache_entry := mkEntry { stored : DataFrame; warned : bool }.

Definition st_cache_data (hit : option cache_entry) (body : io DataFrame)
  : io DataFrame :=
  match hit with
  | Some entry =>
      _ ← (if warned entry then emit Warned else mret ());
      mret (stored entry)
  | None => body
  end.

(** *** app.py, the decorated fetches (lines 101-102 and 166-167) *)

Module CachedApp.
Section with_parsers.
Context `{Parsers}.

Definition fetch_infodengue_state_data (hit : option cache_entry)
    (srv : Z → reply envelope) : io DataFrame :=
  st_cache_data hit (App.fetch_infodengue_state_data srv).

Definition fetch_municipality_data (hit : option cache_entry)
    (srv : string → reply payload) (geocode : string) : io DataFrame :=
  st_cache_data hit (App.fetch_municipality_data srv geocode).

End with_parsers.
End CachedApp.

(** *** app_simple.py, the decorated fetches (lines 67-68 and 114-115)

    [cache] gives the live entry of [fetch_infodengue_data] for a geocode
    at the time it is called; [fetch_all_municipalities_data] calls the
    decorated [fetch_infodengue_data], once per geocode of the table.  The
    geocodes of the table are distinct, so no entry made during the loop
    is read in it. *)

Module CachedAppSimple.
Section with_parsers.
Context `{Parsers}.

Definition fetch_infodengue_data (cache : string → option cache_entry)
    (srv : string → reply payload) (geocode : string) : io DataFrame :=
  st_cache_data (cache geocode) (AppSimple.fetch_infodengue_data srv geocode).

Fixpoint collect_municipalities (cache : string → option cache_entry)
    (srv : string → reply payload)
    (table : list (Z * string)) (all_data : list DataFrame) : io (list DataFrame) :=
  match table with
  | [] => mret all_data
  | (geocode, municipality_name) :: table' =>
      df ← fetch_infodengue_data cache srv (pretty geocode);
      if negb (empty df) then
        let df := assign_const "municipio_nome" (Str municipality_name) df in
        let df := assign_const "municipio_geocodigo" (Num geocode) df in
        collect_municipalities cache srv table' (all_data ++ [df])
      else collect_municipalities cache srv table' all_data
  end.

Definition fetch_all_municipalities_data (hit : option cache_entry)
    (cache : string → option cache_entry) (srv : string → reply payload)
  : io DataFrame :=
  st_cache_data hit
    (all_data ← collect_municipalities cache srv AppSimple.GOIAS_MUNICIPALITIES [];
     if bool_decide (all_data = []) then mret empty_frame
     else mret (pd_concat all_data)).

End with_parsers.
End CachedAppSimple.

(** * Properties of the pipeline *)

(** ** The order on cells is a total preorder, antisymmetric on cells *)

Lemma cell_le_refl (a : cell) : cell_le a a = true.
Proof.
  destruct a; simpl; try done.
  - apply bool_decide_eq_true; lia.
  - apply Is_true_true. change (String.le s s). done.
  - apply bool_decide_eq_true; lia.
Qed.

Lemma cell_le_total (a b : cell) : cell_le a b = true ∨ cell_le b a = true.
Proof.
  destruct a, b; simpl; auto; rewrite ?bool_decide_eq_true; try lia.
  destruct (total String.le s s0) as [Hle | Hle]; apply Is_true_true in Hle; auto.
Qed.

Lemma cell_le_trans (a b c : cell) :
  cell_le a b = true → cell_le b c = true → cell_le a c = true.
Proof.
  destruct a, b, c; simpl; try done;
    rewrite ?bool_decide_eq_true; try lia.
  intros H1%Is_true_true H2%Is_true_true. apply Is_true_true.
  change (String.le s s1). by trans s0.
Qed.

Lemma cell_le_antisym (a b : cell) :
  cell_le a b = true → cell_le b a = true → a = b.
Proof.
  destruct a, b; simpl; try done;
    rewrite ?bool_decide_eq_true; try lia.
  - intros; f_equal; lia.
  - intros H1%Is_true_true H2%Is_true_true. f_equal.
    by apply (anti_symm String.le).
  - intros; f_equal; lia.
Qed.

(** ** The stable sort *)

Section stable_sort_facts.
Context {A : Type} (key : A → cell).

Lemma insert_sorted_perm (x : A) (l : list A) : insert_sorted key x l ≡ₚ x :: l.
Proof.
  induction l as [|y l IH]; simpl; [done|].
  destruct (cell_le (key x) (key y)); [done|].
  rewrite IH. apply Permutation_swap.
Qed.

Lemma stable_sort_perm (l : list A) : stable_sort key l ≡ₚ l.
Proof.
  induction l as [|x l IH]; simpl; [done|].
  unfold stable_sort in *; simpl. by rewrite insert_sorted_perm, IH.
Qed.

Lemma insert_sorted_sorted (x : A) (l : list A) :
  StronglySorted (key_le key) l → StronglySorted (key_le key) (insert_sorted key x l).
Proof.
  induction l as [|y l IH]; simpl; intros Hs.
  - repeat constructor.
  - apply StronglySorted_cons in Hs as [Hy Hl].
    destruct (cell_le (key x) (key y)) eqn:Hxy.
    + apply StronglySorted_cons; split.
      * constructor; [exact Hxy|].
        eapply Forall_impl; [exact Hy|].
        intros z Hz. unfold key_le in *. by eapply cell_le_trans.
      * by apply StronglySorted_cons.
    + apply StronglySorted_cons; split; [|by apply IH].
      rewrite insert_sorted_perm. constructor; [|done].
      destruct (cell_le_total (key x) (key y)); [congruence|done].
Qed.

Lemma stable_sort_sorted (l : list A) : StronglySorted (key_le key) (stable_sort key l).
Proof.
  induction l as [|x l IH]; [constructor|].
  unfold stable_sort in *; simpl. by apply insert_sorted_sorted.
Qed.

(** Sorting a sorted list changes nothing. *)
Lemma stable_sort_fixed (l : list A) : Sorted (key_le key) l → stable_sort key l = l.
Proof.
  induction l as [|x l IH]; [done|].
  intros Hs. apply Sorted_inv in Hs as [Hl Hx].
  unfold stable_sort in *; simpl. rewrite (IH Hl).
  destruct Hx as [|y l' Hxy]; simpl; [done|].
  unfold key_le in Hxy. by rewrite Hxy.
Qed.


End stable_sort_facts.

(** ** Rows under coercion and filling *)

Lemma at_set_cell (c c' : string) (v : cell) (r : Row) :
  at_ (set_cell c v r) c' = if decide (c = c') then v else at_ r c'.
Proof.
  unfold at_, set_cell; simpl. rewrite lookup_insert. by case_decide.
Qed.

Lemma label_set_cell (c : string) (v : cell) (r : Row) : label (set_cell c v r) = label r.
Proof. done. Qed.

Section rows.
Context `{Parsers}.

Lemma to_numeric_idem (v : cell) : to_numeric (to_numeric v) = to_numeric v.
Proof. destruct v; simpl; try done. by destruct (parse_number s). Qed.

Lemma to_datetime_idem (v : cell) : to_datetime (to_datetime v) = to_datetime v.
Proof. destruct v; simpl; try done. by destruct (parse_datetime s). Qed.

Lemma label_coerce_row f cs cols r : label (coerce_row f cs cols r) = label r.
Proof.
  revert r. induction cs as [|c cs IH]; intros r; simpl; [done|].
  unfold coerce_row in *; simpl. rewrite IH. by case_bool_decide.
Qed.

Lemma at_coerce_row (f : cell → cell) cs (cols : gset string) r c :
  (∀ v, f (f v) = f v) →
  at_ (coerce_row f cs cols r) c =
    if bool_decide (c ∈ cs ∧ c ∈ cols) then f (at_ r c) else at_ r c.
Proof.
  intros Hf. revert r. induction cs as [|c' cs IH]; intros r.
  - unfold coerce_row; cbn [foldl]. rewrite bool_decide_eq_false_2; [done|].
    intros [Hc _]. by apply elem_of_nil in Hc.
  - unfold coerce_row in *; cbn [foldl]. rewrite IH.
    destruct (decide (c' = c)) as [->|Hne].
    + destruct (decide (c ∈ cols)) as [Hc|Hc].
      * rewrite (bool_decide_eq_true_2 (c ∈ cols)) by done.
        rewrite at_set_cell, decide_True by done. rewrite Hf.
        rewrite (bool_decide_eq_true_2 (c ∈ c :: cs ∧ c ∈ cols))
          by (split; [left|done]).
        by case_bool_decide.
      * rewrite (bool_decide_eq_false_2 (c ∈ cols)) by done.
        rewrite !bool_decide_eq_false_2 by tauto. done.
    + assert (at_ (if bool_decide (c' ∈ cols) then set_cell c' (f (at_ r c')) r else r) c
              = at_ r c) as ->.
      { destruct (bool_decide (c' ∈ cols)); [|done]. by rewrite at_set_cell, decide_False. }
      destruct (decide (c ∈ cs ∧ c ∈ cols)) as [Hc|Hc].
      * rewrite !bool_decide_eq_true_2; [done| |done].
        destruct Hc. split; [by right|done].
      * rewrite !bool_decide_eq_false_2; [done| |done].
        intros [[?|?]%elem_of_cons ?]; [congruence|tauto].
Qed.

Lemma coerce_columns_spec (f : cell → cell) cs df :
  coerce_columns f cs df = mkDF (columns df) (coerce_row f cs (columns df) <$> rows df).
Proof.
  revert df. induction cs as [|c cs IH]; intros [cols rs]; simpl.
  - unfold coerce_row; simpl. by rewrite list_fmap_id.
  - unfold coerce_columns in *; simpl. rewrite IH. unfold has_column; simpl.
    case_bool_decide as Hc; simpl.
    + assert ({[c]} ∪ cols = cols) as ->
        by (by apply subseteq_union_1_L, singleton_subseteq_l).
      f_equal. rewrite <- list_fmap_compose. apply list_fmap_ext.
      intros i r _; simpl. unfold coerce_row; simpl.
      by rewrite bool_decide_eq_true_2.
    + f_equal. apply list_fmap_ext. intros i r _. unfold coerce_row; simpl.
      by rewrite bool_decide_eq_false_2.
Qed.

Lemma cells_fill_row cols r c :
  cells (fill_row cols r) !! c =
    if bool_decide (c ∈ cols) then Some (fill0 (at_ r c)) else fill0 <$> (cells r !! c).
Proof.
  unfold fill_row, at_; simpl.
  rewrite lookup_union, lookup_fmap, lookup_gset_to_gmap.
  case_bool_decide as Hc.
  - rewrite option_guard_True by done. by destruct (cells r !! c).
  - rewrite option_guard_False by done. by destruct (cells r !! c).
Qed.

Lemma at_fill_row cols r c : c ∈ cols → at_ (fill_row cols r) c = fill0 (at_ r c).
Proof.
  intros Hc. unfold at_ at 1. by rewrite cells_fill_row, bool_decide_eq_true_2.
Qed.


End rows.

(** ** The shape of [process_dengue_data] *)

Lemma first_present_columns (keys : list string) (df df' : DataFrame) :
  columns df' = columns df → first_present keys df' = first_present keys df.
Proof.
  intros Hc. unfold first_present, has_column. rewrite Hc. done.
Qed.

Lemma first_present_Some (keys : list string) (df : DataFrame) (k : string) :
  first_present keys df = Some k → k ∈ keys ∧ k ∈ columns df.
Proof.
  unfold first_present. induction keys as [|c keys IH]; simpl; [done|].
  unfold has_column at 1. case_bool_decide as Hc.
  - intros [= ->]. split; [left|done].
  - intros Hk. destruct (IH Hk). split; [by right|done].
Qed.

Lemma first_present_None (keys : list string) (df : DataFrame) (c : string) :
  first_present keys df = None → c ∈ keys → c ∉ columns df.
Proof.
  unfold first_present. induction keys as [|c' keys IH]; simpl.
  - intros _ Hc. by apply elem_of_nil in Hc.
  - unfold has_column at 1. case_bool_decide as Hc'; [done|].
    intros Hk [->|Hc]%elem_of_cons; [done|]. by apply IH.
Qed.

Lemma homogeneous_all_kind (n : nat) (l : list cell) :
  (∀ v, v ∈ l → v ≠ NaN → kind v = n) → homogeneous l = true.
Proof.
  intros Hl. unfold homogeneous.
  destruct (filter (λ v, v ≠ NaN) l) as [|v vs] eqn:Hf; [done|].
  assert (∀ w, w ∈ v :: vs → kind w = n) as Hk.
  { intros w Hw. rewrite <- Hf in Hw. apply list_elem_of_filter in Hw as [Hw1 Hw2]. auto. }
  apply forallb_forall. intros w Hw%list_elem_of_In.
  apply bool_decide_eq_true.
  rewrite (Hk w), (Hk v); [done|left|by right].
Qed.

Section shape.
Context `{Parsers}.

Lemma sort_by_first_two (a b : string) (X : DataFrame) :
  sort_by_first [a; b] X =
    if has_column a X then sort_values a X
    else if has_column b X then sort_values b X else Ok X.
Proof.
  unfold sort_by_first, first_present. cbn [find].
  by destruct (has_column a X), (has_column b X).
Qed.

Lemma sort_by_first_one (a : string) (X : DataFrame) :
  sort_by_first [a] X = if has_column a X then sort_values a X else Ok X.
Proof.
  unfold sort_by_first, first_present. cbn [find].
  by destruct (has_column a X).
Qed.

Lemma coerce_columns_one (f : cell → cell) (c : string) (Y : DataFrame) :
  coerce_columns f [c] Y = if has_column c Y then assign_map c f Y else Y.
Proof. reflexivity. Qed.

Lemma process_of_shape (v : variant) (df : DataFrame) :
  process_of v df = process_with (numeric_cols_of v) (date_cols_of v) df.
Proof.
  destruct v.
  - change (App.process_dengue_data df
            = process_with App.numeric_cols ["data_iniSE"; "data_ini_SE"] df).
    unfold App.process_dengue_data, process_with.
    destruct (empty df); [reflexivity|].
    cbv zeta. rewrite sort_by_first_two. reflexivity.
  - change (FetchData.process_dengue_data df
            = process_with FetchData.numeric_cols ["data_iniSE"] df).
    unfold FetchData.process_dengue_data, process_with.
    destruct (empty df); [reflexivity|].
    cbv zeta. rewrite sort_by_first_one, coerce_columns_one. reflexivity.
Qed.

Lemma pre_sort_spec (ncols dcols : list string) (df : DataFrame) :
  fillna0 (coerce_columns to_datetime dcols (coerce_columns to_numeric ncols df))
  = mkDF (columns df) (clean_row ncols dcols (columns df) <$> rows df).
Proof.
  rewrite !coerce_columns_spec. unfold fillna0. cbn [columns rows].
  f_equal. rewrite <- !list_fmap_compose. reflexivity.
Qed.

Lemma process_with_unfold (ncols dcols : list string) (df : DataFrame) :
  process_with ncols dcols df =
    if empty df then Ok df
    else
      let pre := clean_row ncols dcols (columns df) <$> rows df in
      match first_present dcols df with
      | Some k =>
          if homogeneous ((fun r => at_ r k) <$> pre)
          then Ok (mkDF (columns df) (stable_sort (fun r => at_ r k) pre))
          else Raise TypeError
      | None => Ok (mkDF (columns df) pre)
      end.
Proof.
  unfold process_with. destruct (empty df); [done|].
  rewrite pre_sort_spec. unfold sort_by_first.
  rewrite (first_present_columns dcols df
             (mkDF (columns df) (clean_row ncols dcols (columns df) <$> rows df)))
    by reflexivity.
  cbv zeta.
  destruct (first_present dcols df) as [k|] eqn:Hk; [|reflexivity].
  apply first_present_Some in Hk as [_ Hk].
  unfold sort_values, has_column, column. cbn [columns rows].
  rewrite bool_decide_eq_true_2 by done. reflexivity.
Qed.

End shape.

(** ** What the cleaning does to one row *)

Lemma numeric_not_date `{Parsers} (v : variant) (c : string) :
  c ∈ numeric_cols_of v → c ∉ date_cols_of v.
Proof.
  intros Hn Hd.
  assert (Forall (λ c, c ∉ date_cols_of v) (numeric_cols_of v)) as Hall.
  { destruct v; apply (bool_decide_unpack _); vm_compute; exact I. }
  rewrite Forall_forall in Hall. by apply (Hall c).
Qed.

Section clean.
Context `{Parsers}.

Lemma label_clean_row ncols dcols cols r : label (clean_row ncols dcols cols r) = label r.
Proof. unfold clean_row, fill_row; simpl. by rewrite !label_coerce_row. Qed.

Lemma cells_clean_row ncols dcols cols r c :
  c ∈ cols →
  cells (clean_row ncols dcols cols r) !! c =
    Some (fill0 (if bool_decide (c ∈ dcols)
                 then to_datetime (if bool_decide (c ∈ ncols)
                                   then to_numeric (at_ r c) else at_ r c)
                 else if bool_decide (c ∈ ncols) then to_numeric (at_ r c) else at_ r c)).
Proof.
  intros Hc. unfold clean_row. rewrite cells_fill_row, bool_decide_eq_true_2 by done.
  rewrite !at_coerce_row by (apply to_datetime_idem || apply to_numeric_idem).
  do 2 f_equal.
  destruct (decide (c ∈ dcols)), (decide (c ∈ ncols)).
  - rewrite !bool_decide_eq_true_2; done.
  - rewrite (bool_decide_eq_true_2 (c ∈ dcols ∧ _)), (bool_decide_eq_true_2 (c ∈ dcols)) by done.
    rewrite !bool_decide_eq_false_2; [done|done|tauto].
  - rewrite (bool_decide_eq_false_2 (c ∈ dcols ∧ _)), (bool_decide_eq_false_2 (c ∈ dcols)) by tauto.
    rewrite !bool_decide_eq_true_2; done.
  - rewrite (bool_decide_eq_false_2 (c ∈ dcols ∧ _)), (bool_decide_eq_false_2 (c ∈ dcols)) by tauto.
    rewrite !bool_decide_eq_false_2; [done|done|tauto].
Qed.






End clean.

(** ** [process_dengue_data] as a whole *)


Lemma empty_true_columns (df : DataFrame) (c : string) :
  empty df = true → c ∈ columns df → rows df = [].
Proof.
  unfold empty. intros [H1|H2]%orb_true_elim Hc.
  - by apply bool_decide_eq_true in H1.
  - apply bool_decide_eq_true in H2. rewrite H2 in Hc. set_solver.
Qed.

Section process_facts.
Context `{Parsers}.

Lemma to_datetime_parsed (v : cell) : to_datetime v ≠ NaN → ∃ t, to_datetime v = Date t.
Proof.
  destruct v; simpl; try done; eauto. destruct (parse_datetime s); [eauto|done].
Qed.

Lemma to_numeric_cases (v : cell) : to_numeric v = NaN ∨ ∃ n, to_numeric v = Num n.
Proof.
  destruct v; simpl; eauto. destruct (parse_number s); eauto.
Qed.

(** The rows [process_dengue_data] returns are the cleaned rows of its
    input, in some order. *)
Lemma process_with_rows (ncols dcols : list string) (df out : DataFrame) :
  process_with ncols dcols df = Ok out → empty df = false →
  columns out = columns df ∧
  rows out ≡ₚ clean_row ncols dcols (columns df) <$> rows df.
Proof.
  rewrite process_with_unfold. intros Hp He. rewrite He in Hp. cbv zeta in Hp.
  destruct (first_present dcols df) as [k|].
  - destruct (homogeneous _); [|done]. injection Hp as <-. split; [done|].
    apply stable_sort_perm.
  - injection Hp as <-. done.
Qed.




End process_facts.

(** ** Rows in another order *)

Lemma Permutation_fmap_inv {A B} (f : A → B) (l : list B) (k : list A) :
  l ≡ₚ f <$> k → ∃ k', l = f <$> k' ∧ k' ≡ₚ k.
Proof.
  intros Hp. destruct (Permutation_map_inv f k Hp) as (k' & -> & Hk').
  exists k'. split; [done|by symmetry].
Qed.

(** ** The order of the processed rows *)

(** Whenever [process_dengue_data] returns a table and the input has one
    of the date columns the variant knows, the output is in non-decreasing
    order of the first such column. *)
Lemma process_output_sorted `{Parsers} (v : variant) (df out : DataFrame) (k : string) :
  process_of v df = Ok out →
  first_present (date_cols_of v) df = Some k →
  StronglySorted (key_le (λ r, at_ r k)) (rows out).
Proof.
  rewrite process_of_shape, process_with_unfold. intros Hout Hk.
  destruct (empty df) eqn:He.
  - injection Hout as <-. destruct (first_present_Some _ _ _ Hk) as [_ Hc].
    rewrite (empty_true_columns df k He Hc). constructor.
  - cbv zeta in Hout. rewrite Hk in Hout.
    destruct (homogeneous _); [|done]. injection Hout as <-.
    apply stable_sort_sorted.
Qed.


(** ** [process_dengue_data] row by row *)

Lemma homogeneous_spec (l : list cell) :
  homogeneous l = true ↔
  ∀ a b, a ∈ l → b ∈ l → a ≠ NaN → b ≠ NaN → kind a = kind b.
Proof.
  unfold homogeneous. split.
  - intros Hh a b Ha Hb Hna Hnb.
    assert (Ha' : a ∈ filter (λ v, v ≠ NaN) l) by (apply list_elem_of_filter; done).
    assert (Hb' : b ∈ filter (λ v, v ≠ NaN) l) by (apply list_elem_of_filter; done).
    destruct (filter (λ v, v ≠ NaN) l) as [|v vs]; [by apply elem_of_nil in Ha'|].
    assert (Hall : ∀ w, w ∈ v :: vs → kind w = kind v).
    { intros w Hw. apply elem_of_cons in Hw as [->|Hw]; [done|].
      rewrite forallb_forall in Hh. apply list_elem_of_In in Hw.
      apply Hh in Hw. by apply bool_decide_eq_true in Hw. }
    rewrite (Hall a Ha'), (Hall b Hb'). done.
  - intros Hall.
    destruct (filter (λ v, v ≠ NaN) l) as [|v vs] eqn:E; [done|].
    apply forallb_forall. intros w Hw. apply bool_decide_eq_true.
    apply list_elem_of_In in Hw.
    assert (Hv : v ∈ filter (λ v, v ≠ NaN) l) by (rewrite E; left).
    assert (Hw' : w ∈ filter (λ v, v ≠ NaN) l) by (rewrite E; by right).
    apply list_elem_of_filter in Hv as [? ?]. apply list_elem_of_filter in Hw' as [? ?].
    by apply Hall.
Qed.

Lemma fill0_present (v : cell) : fill0 v ≠ NaN.
Proof. by destruct v. Qed.

Section process_more.
Context `{Parsers}.

Lemma date_not_numeric (v : variant) (c : string) :
  c ∈ date_cols_of v → c ∉ numeric_cols_of v.
Proof. intros Hd Hn. by apply (numeric_not_date v c Hn). Qed.

Lemma at_clean_row (v : variant) (cols : gset string) (r : Row) (c : string) :
  c ∈ cols →
  at_ (clean_row (numeric_cols_of v) (date_cols_of v) cols r) c
  = fill0 (if bool_decide (c ∈ numeric_cols_of v) then to_numeric (at_ r c)
           else if bool_decide (c ∈ date_cols_of v) then to_datetime (at_ r c)
           else at_ r c).
Proof.
  intros Hc. unfold at_ at 1. rewrite cells_clean_row by done. cbn [default].
  destruct (decide (c ∈ date_cols_of v)) as [Hd|Hd].
  - rewrite (bool_decide_eq_true_2 _ Hd).
    rewrite (bool_decide_eq_false_2 _ (date_not_numeric v c Hd)). done.
  - rewrite (bool_decide_eq_false_2 _ Hd). done.
Qed.

Lemma at_clean_row_key (v : variant) (df : DataFrame) (r : Row) (k : string) :
  first_present (date_cols_of v) df = Some k →
  at_ (clean_row (numeric_cols_of v) (date_cols_of v) (columns df) r) k
  = fill0 (to_datetime (at_ r k)).
Proof.
  intros Hk. apply first_present_Some in Hk as [Hd Hc].
  rewrite at_clean_row by done.
  rewrite (bool_decide_eq_false_2 _ (date_not_numeric v k Hd)).
  rewrite (bool_decide_eq_true_2 _ Hd). done.
Qed.

Lemma process_rows (v : variant) (df out : DataFrame) :
  process_of v df = Ok out → empty df = false →
  columns out = columns df ∧
  ∃ raw, raw ≡ₚ rows df ∧
         rows out = clean_row (numeric_cols_of v) (date_cols_of v) (columns df) <$> raw.
Proof.
  intros Hp He. rewrite process_of_shape in Hp.
  destruct (process_with_rows _ _ _ _ Hp He) as [Hc Hperm].
  split; [done|]. apply Permutation_fmap_inv in Hperm as (raw & -> & Hraw).
  by exists raw.
Qed.

Lemma process_empty (v : variant) (df : DataFrame) :
  empty df = true → process_of v df = Ok df.
Proof.
  intros He. rewrite process_of_shape, process_with_unfold, He. done.
Qed.

Lemma process_no_missing (v : variant) (df out : DataFrame)
    (r : Row) (c : string) :
  process_of v df = Ok out → r ∈ rows out → c ∈ columns out → at_ r c ≠ NaN.
Proof.
  intros Hp Hr Hc. destruct (empty df) eqn:He.
  - rewrite process_empty in Hp by done. injection Hp as <-.
    rewrite (empty_true_columns df c He Hc) in Hr. by apply elem_of_nil in Hr.
  - destruct (process_rows v df out Hp He) as (Hcols & raw & Hperm & Hrows).
    rewrite Hrows in Hr. apply list_elem_of_fmap in Hr as (r0 & -> & _).
    rewrite Hcols in Hc. rewrite at_clean_row by done. apply fill0_present.
Qed.

Lemma process_fails_on_gappy_dates (v : variant) (df : DataFrame) (k : string) :
  empty df = false →
  first_present (date_cols_of v) df = Some k →
  (∃ r, r ∈ rows df ∧ to_datetime (at_ r k) ≠ NaN) →
  (∃ r, r ∈ rows df ∧ to_datetime (at_ r k) = NaN) →
  process_of v df = Raise TypeError.
Proof.
  intros He Hk (r1 & Hr1 & Hp1) (r2 & Hr2 & Hp2).
  rewrite process_of_shape, process_with_unfold, He. cbv zeta. rewrite Hk.
  rewrite <- list_fmap_compose.
  destruct (homogeneous _) eqn:Hh; [exfalso|done].
  rewrite homogeneous_spec in Hh.
  specialize (Hh (fill0 (to_datetime (at_ r1 k))) (fill0 (to_datetime (at_ r2 k)))).
  apply to_datetime_parsed in Hp1 as [t Ht]. rewrite Ht, Hp2 in Hh. cbn in Hh.
  assert (Hgoal : 2%nat = 0%nat); [|discriminate Hgoal].
  apply Hh; try done.
  - apply list_elem_of_fmap. exists r1. split; [|done].
    unfold compose. rewrite (at_clean_row_key v df r1 k Hk), Ht. done.
  - apply list_elem_of_fmap. exists r2. split; [|done].
    unfold compose. rewrite (at_clean_row_key v df r2 k Hk), Hp2. done.
Qed.

End process_more.

(** ** Date columns of one kind *)



Lemma plain_dates_cell (l : list cell) (v : cell) :
  plain_dates l = true → v ∈ l → v = NaN ∨ (∃ n, v = Num n) ∨ (∃ t, v = Date t).
Proof.
  unfold plain_dates. intros Hd Hv. apply list_elem_of_In in Hv.
  apply orb_true_iff in Hd as [Hd|Hd]; rewrite forallb_forall in Hd;
    apply Hd in Hv; destruct v; try done; eauto.
Qed.

Section plain.
Context `{Parsers}.

Lemma plain_to_datetime (l : list cell) (v : cell) :
  plain_dates l = true → v ∈ l → (to_datetime v = NaN ↔ v = NaN).
Proof.
  intros Hp Hv.
  destruct (plain_dates_cell l v Hp Hv) as [->|[[n ->]|[t ->]]]; done.
Qed.


End plain.

Section dated_tables.
Context `{Parsers}.



End dated_tables.

(** What [process_dengue_data] makes of every cell of every row. *)
Lemma process_cells `{Parsers} (v : variant) (df out : DataFrame) :
  process_of v df = Ok out →
  columns out = columns df ∧
  ∃ raw, raw ≡ₚ rows df ∧
    Forall2 (λ r r',
               label r' = label r ∧
               ∀ c, c ∈ columns df →
                 (at_ r c = NaN → at_ r' c = Num 0) ∧
                 (c ∉ numeric_cols_of v → c ∉ date_cols_of v →
                  at_ r' c = fill0 (at_ r c)) ∧
                 (c ∈ numeric_cols_of v →
                  (∃ n, at_ r' c = Num n) ∧
                  (∀ n, at_ r c = Num n → - 2 ^ 53 ≤ n ≤ 2 ^ 53 → at_ r' c = Num n)) ∧
                 (c ∈ date_cols_of v →
                  (at_ r' c = Num 0 ∨ ∃ t, at_ r' c = Date t) ∧
                  (plain_dates (column c df) = true →
                   at_ r' c = match at_ r c with
                              | Num n => Date n
                              | Date t => Date t
                              | _ => Num 0
                              end)))
            raw (rows out).
Proof.
  intros Hp. destruct (empty df) eqn:He.
  - rewrite process_empty in Hp by done. injection Hp as <-.
    split; [done|]. exists (rows df). split; [done|].
    apply Forall_Forall2_diag, Forall_forall. intros r Hr. split; [done|].
    intros c Hc. pose proof (empty_true_columns df c He Hc) as Hnil.
    rewrite Hnil in Hr. by apply elem_of_nil in Hr.
  - destruct (process_rows v df out Hp He) as (Hc & raw & Hperm & ->).
    split; [done|]. exists raw. split; [done|].
    apply Forall2_fmap_r, Forall_Forall2_diag, Forall_forall. intros r Hr.
    split; [apply label_clean_row|]. intros c Hin. rewrite at_clean_row by done.
    split; [|split; [|split]].
    + intros ->. repeat case_bool_decide; done.
    + intros Hn Hd. by rewrite !bool_decide_eq_false_2.
    + intros Hn. rewrite bool_decide_eq_true_2 by done. split.
      * destruct (to_numeric_cases (at_ r c)) as [-> | [n ->]]; cbn; eauto.
      * intros n -> _. done.
    + intros Hd. rewrite bool_decide_eq_false_2 by (by apply date_not_numeric).
      rewrite bool_decide_eq_true_2 by done. split.
      * destruct (at_ r c) as [|n|s|t]; cbn; eauto.
        destruct (parse_datetime s); cbn; eauto.
      * intros Hplain.
        assert (Hcell : at_ r c ∈ column c df).
        { apply list_elem_of_fmap. exists r. split; [done|]. by rewrite <- Hperm. }
        destruct (plain_dates_cell _ _ Hplain Hcell) as [->|[[n ->]|[t ->]]]; done.
Qed.

(** ** Numeric coercion (C5) *)



(** ** Idempotence (C2) *)




(** ** Sorting by date (C6) *)

(** C6, where the code departs from it.  (1) [fetch_data.py] knows the
    week-start date under the name [data_iniSE] only: a table that carries
    it as [data_ini_SE] comes back in its input order, dates descending and
    still texts, while [app.py] sorts the same table.  (2) In both variants
    a table in which one date is missing and another is present makes
    [sort_values] compare the filled-in number 0 with a timestamp:
    [process_dengue_data] raises [TypeError] and returns no table. *)
Theorem C6_process_leaves_dates_unsorted :
  let renamed := DataFrame_of_records
                   [ Sample.record [("data_ini_SE", Str "2024-02-01")];
                     Sample.record [("data_ini_SE", Str "2024-01-01")] ] in
  let gappy := DataFrame_of_records
                 [ Sample.record [("data_iniSE", Str "2024-01-01")];
                   Sample.record [("data_iniSE", NaN)] ] in
  (λ d, (λ r, (label r, at_ r "data_ini_SE")) <$> rows d)
     <$> @FetchData.process_dengue_data Sample.parsers renamed
    = Ok [(0%nat, Str "2024-02-01"); (1%nat, Str "2024-01-01")] ∧
  (λ d, (λ r, (label r, at_ r "data_ini_SE")) <$> rows d)
     <$> @App.process_dengue_data Sample.parsers renamed
    = Ok [(1%nat, Date 19723); (0%nat, Date 19754)] ∧
  @App.process_dengue_data Sample.parsers gappy = Raise TypeError ∧
  @FetchData.process_dengue_data Sample.parsers gappy = Raise TypeError.
Proof.
  cbv zeta. split; [vm_compute; reflexivity|].
  split; [vm_compute; reflexivity|].
  split; vm_compute; reflexivity.
Qed.

(** ** Groups and duplicates *)

Lemma filter_none {A} (P : A → Prop) `{∀ x, Decision (P x)} (l : list A) :
  (∀ x, x ∈ l → ¬ P x) → filter P l = [].
Proof.
  induction l as [|x l IH]; intros Hl; [done|].
  rewrite filter_cons, decide_False by (apply Hl; left).
  apply IH. intros y Hy. apply Hl. by right.
Qed.

Lemma filter_all {A} (P : A → Prop) `{∀ x, Decision (P x)} (l : list A) :
  (∀ x, x ∈ l → P x) → filter P l = l.
Proof.
  induction l as [|x l IH]; intros Hl; [done|].
  rewrite filter_cons, decide_True by (apply Hl; left).
  f_equal. apply IH. intros y Hy. apply Hl. by right.
Qed.

Lemma StronglySorted_last {A} (R : relation A) (l : list A) (o x : A) :
  (∀ y, R y y) → StronglySorted R l → last l = Some o → x ∈ l → R x o.
Proof.
  intros Hrefl Hs Hlast Hx. apply last_Some in Hlast as [l' ->].
  apply elem_of_app in Hx as [Hx|Hx].
  - apply (StronglySorted_app_1_elem_of R l' [o] x o Hs Hx). left.
  - apply list_elem_of_singleton in Hx as ->. apply Hrefl.
Qed.

Lemma StronglySorted_filter_keep {A} (R : relation A) (P : A → Prop)
    `{∀ x, Decision (P x)} (l : list A) :
  StronglySorted R l → StronglySorted R (filter P l).
Proof.
  induction 1 as [|x l Hl IH Hx]; [constructor|].
  rewrite filter_cons. case_decide; [|done].
  constructor; [done|]. apply Forall_forall. intros y [_ Hy]%list_elem_of_filter.
  rewrite Forall_forall in Hx. by apply Hx.
Qed.

Section groups.
Context (key : Row → cell).

Lemma last_of_each_group_elem (l : list Row) (r : Row) :
  r ∈ last_of_each_group key l → r ∈ l ∧ key r ≠ NaN.
Proof.
  induction l as [|x l IH]; simpl; [by intros ?%elem_of_nil|].
  case_bool_decide as Hna; [intros Hr; destruct (IH Hr); split; [by right|done]|].
  case_bool_decide as Hin; [intros Hr; destruct (IH Hr); split; [by right|done]|].
  intros [->|Hr]%elem_of_cons; [split; [by left|done]|].
  destruct (IH Hr); split; [by right|done].
Qed.

(** Of the rows of one group, exactly the last one is kept. *)
Lemma last_of_each_group_filter (l : list Row) (k : cell) :
  k ≠ NaN →
  filter (λ x, key x = k) (last_of_each_group key l)
  = option_list (last (filter (λ x, key x = k) l)).
Proof.
  intros Hk. induction l as [|x l IH]; [done|].
  cbn [last_of_each_group]. rewrite (filter_cons _ x l).
  case_bool_decide as Hna.
  { rewrite decide_False by congruence. done. }
  case_bool_decide as Hin.
  - rewrite IH. destruct (decide (key x = k)) as [Hx|Hx]; [|done].
    rewrite last_cons.
    destruct (last (filter (λ x0, key x0 = k) l)) as [y|] eqn:Hl; [done|].
    apply last_None in Hl.
    apply list_elem_of_fmap in Hin as (y & Hy & Hyl).
    exfalso. eapply (filter_nil_not_elem_of _ _ _ Hl); [|exact Hyl]. congruence.
  - rewrite (filter_cons _ x), IH.
    destruct (decide (key x = k)) as [Hx|Hx]; [|done].
    rewrite (filter_none (λ x0, key x0 = k) l); [done|].
    intros y Hy Hyk. apply Hin. apply list_elem_of_fmap. exists y.
    split; [congruence|done].
Qed.

(** [drop_duplicates] keeps one row of every value of the column. *)
Lemma first_of_each_value_spec (seen : list cell) (l : list Row) :
  NoDup (key <$> first_of_each_value key seen l) ∧
  ∀ v, v ∈ key <$> first_of_each_value key seen l ↔ v ∈ key <$> l ∧ v ∉ seen.
Proof.
  revert seen. induction l as [|x l IH]; intros seen; simpl.
  - split; [constructor|]. intros v. split; [by intros ?%elem_of_nil|].
    by intros [?%elem_of_nil _].
  - case_bool_decide as Hs.
    + destruct (IH seen) as [Hnd Hel]. split; [done|].
      intros v. rewrite Hel. split; [intros []; split; [by right|done]|].
      intros [[->|Hv]%elem_of_cons Hns]; [done|by split].
    + destruct (IH (key x :: seen)) as [Hnd Hel]. split.
      * rewrite fmap_cons. constructor; [|done]. rewrite Hel.
        intros [_ Hn]. apply Hn. left.
      * intros v. rewrite fmap_cons. split.
        -- intros [->|Hv]%elem_of_cons; [split; [left|done]|].
           apply Hel in Hv as [Hv Hns]. split; [by right|].
           intros Hin. apply Hns. by right.
        -- intros [[->|Hv]%elem_of_cons Hns]; [left|].
           destruct (decide (v = key x)) as [->|Hne]; [left|right].
           apply Hel. split; [done|]. by intros [?|?]%elem_of_cons.
Qed.

Lemma first_of_each_value_length (l : list Row) :
  length (first_of_each_value key [] l) = length (remove_dups (key <$> l)).
Proof.
  destruct (first_of_each_value_spec [] l) as [Hnd Hel].
  rewrite <- (length_fmap key (first_of_each_value key [] l)).
  apply Permutation_length, NoDup_Permutation; [done|apply NoDup_remove_dups|].
  intros v. rewrite Hel, elem_of_remove_dups. split; [by intros []|].
  intros Hv. split; [done|]. by intros ?%elem_of_nil.
Qed.

End groups.

(** ** Latest record per municipality (C1) *)

(** The latest row of every group of a list sorted by date: it is the only
    row kept for its group, and no row of the group comes after it in date
    order, a missing date coming after every date. *)
Lemma latest_of_group (dkey gkey : Row → cell) (l : list Row) (r : Row) :
  r ∈ l → gkey r ≠ NaN →
  ∃ o,
    filter (λ x, gkey x = gkey r)
           (last_of_each_group gkey (stable_sort dkey l)) = [o] ∧
    o ∈ l ∧
    cell_le (dkey r) (dkey o) = true.
Proof.
  intros Hr Hg. set (S := stable_sort dkey l). set (k := gkey r).
  assert (r ∈ filter (λ x, gkey x = k) S) as HrF.
  { apply list_elem_of_filter. split; [done|]. unfold S. by rewrite stable_sort_perm. }
  destruct (last (filter (λ x, gkey x = k) S)) as [o|] eqn:Hlast.
  2:{ apply last_None in Hlast. rewrite Hlast in HrF. by apply elem_of_nil in HrF. }
  exists o. rewrite last_of_each_group_filter, Hlast by done.
  split; [done|].
  pose proof (last_Some_elem_of _ _ Hlast) as [Hok HoS]%list_elem_of_filter.
  split; [unfold S in HoS; by rewrite stable_sort_perm in HoS|].
  apply (StronglySorted_last (key_le dkey) (filter (λ x, gkey x = k) S) o r);
    try done.
  - intros y. apply cell_le_refl.
  - apply StronglySorted_filter_keep, stable_sort_sorted.
Qed.

(** The snapshot when the table has an identifier column. *)
Lemma latest_with_geocode (df : DataFrame) :
  has_column (AppSimple.date_col df) df = true →
  homogeneous (column (AppSimple.date_col df) df) = true →
  has_column (AppSimple.geocode_col df) df = true →
  ∃ snap,
    AppSimple.latest_per_municipality df = Ok snap ∧
    (has_column "data_iniSE" df = true →
     has_column "municipio_geocodigo" df = true →
     App.latest_per_municipality df = Ok snap) ∧
    columns snap = columns df ∧
    rows snap = last_of_each_group (λ r, at_ r (AppSimple.geocode_col df))
                  (stable_sort (λ r, at_ r (AppSimple.date_col df)) (rows df)).
Proof.
  intros Hd Hh Hg.
  set (d := AppSimple.date_col df) in *. set (g := AppSimple.geocode_col df) in *.
  assert (sort_values d df
          = Ok (mkDF (columns df) (stable_sort (λ r, at_ r d) (rows df)))) as Hsort.
  { unfold sort_values. by rewrite Hd, Hh. }
  assert (AppSimple.latest_per_municipality df
          = Ok (mkDF (columns df)
                  (last_of_each_group (λ r, at_ r g)
                     (stable_sort (λ r, at_ r d) (rows df))))) as Hsnap.
  { unfold AppSimple.latest_per_municipality. cbv zeta. fold d g.
    rewrite Hg, Hsort. cbn [mbind result_bind].
    unfold groupby_tail1, has_column in *. cbn [columns rows]. by rewrite Hg. }
  eexists. split; [exact Hsnap|]. split; [|done].
  intros H1 H2. rewrite <- Hsnap.
  unfold AppSimple.latest_per_municipality, App.latest_per_municipality.
  cbv zeta. unfold AppSimple.date_col, AppSimple.geocode_col.
  by rewrite H1, H2, H2.
Qed.

Lemma cell_le_NaN (v : cell) : cell_le NaN v = true → v = NaN.
Proof. by destruct v. Qed.

(** C1: the code at a table in which a municipality has a record without
    date.  [sort_values] puts the missing date last, so the row that
    [groupby(...).tail(1)] keeps for that municipality is a record without
    date, whatever dated records the municipality has: not its record with
    the maximum date, and not the most recent record, which the comment
    above the two lines announces.  Both apps compute this snapshot. *)
Theorem C1_snapshot_keeps_undated_record (df : DataFrame) (r : Row) :
  let d := AppSimple.date_col df in
  let g := AppSimple.geocode_col df in
  has_column d df = true →
  has_column g df = true →
  homogeneous (column d df) = true →
  r ∈ rows df →
  at_ r g ≠ NaN →
  at_ r d = NaN →
  ∃ snap o,
    AppSimple.latest_per_municipality df = Ok snap ∧
    (has_column "data_iniSE" df = true →
     has_column "municipio_geocodigo" df = true →
     App.latest_per_municipality df = Ok snap) ∧
    filter (λ x, at_ x g = at_ r g) (rows snap) = [o] ∧
    o ∈ rows df ∧
    at_ o d = NaN.
Proof.
  intros d g Hd Hg Hh Hr Hid Hdate.
  destruct (latest_with_geocode df Hd Hh Hg) as (snap & Hsnap & Happ & _ & Hrows).
  destruct (latest_of_group (λ r, at_ r d) (λ r, at_ r g) (rows df) r Hr Hid)
    as (o & Hfilter & Ho & Hle).
  exists snap, o. split; [done|]. split; [done|].
  rewrite Hrows. fold d g. split; [done|]. split; [done|].
  rewrite Hdate in Hle. by apply cell_le_NaN.
Qed.

(** Two records of one municipality, the later one in the table lacking its
    date: the snapshot of both apps is the undated record, not the one of
    day 19723. *)
Lemma C1_snapshot_keeps_undated_record_witness :
  let df := DataFrame_of_records
              [ Sample.record [("municipio_geocodigo", Num 5103403);
                               ("data_iniSE", Date 19723); ("casos", Num 10)];
                Sample.record [("municipio_geocodigo", Num 5103403);
                               ("data_iniSE", NaN); ("casos", Num 3)] ] in
  let shown := λ d : DataFrame,
    (λ r, (label r, at_ r "data_iniSE", at_ r "casos")) <$> rows d in
  shown df = [(0%nat, Date 19723, Num 10); (1%nat, NaN, Num 3)] ∧
  shown <$> AppSimple.latest_per_municipality df = Ok [(1%nat, NaN, Num 3)] ∧
  shown <$> App.latest_per_municipality df = Ok [(1%nat, NaN, Num 3)] ∧
  ∃ snap o,
    AppSimple.latest_per_municipality df = Ok snap ∧
    App.latest_per_municipality df = Ok snap ∧
    rows snap = [o] ∧
    at_ o "data_iniSE" = NaN.
Proof.
  intros df shown.
  split; [vm_compute; reflexivity|]. split; [vm_compute; reflexivity|].
  split; [vm_compute; reflexivity|].
  destruct (rows df) as [|r0 [|r [|]]] eqn:Hrows; try (vm_compute in Hrows; discriminate Hrows).
  assert (Hr : (label r, at_ r "municipio_geocodigo", at_ r "data_iniSE")
               = (1%nat, Num 5103403, NaN)).
  { assert (E : (λ r, (label r, at_ r "municipio_geocodigo", at_ r "data_iniSE"))
                  <$> rows df
                = [(0%nat, Num 5103403, Date 19723); (1%nat, Num 5103403, NaN)])
      by (vm_compute; reflexivity).
    rewrite Hrows in E. cbn in E. congruence. }
  injection Hr as Hlabel Hgeo Hdate.
  destruct (C1_snapshot_keeps_undated_record df r) as (snap & o & Hs & Happ & Hf & _ & Ho).
  - vm_compute. reflexivity.
  - vm_compute. reflexivity.
  - vm_compute. reflexivity.
  - rewrite Hrows. right. left.
  - change (AppSimple.geocode_col df) with "municipio_geocodigo". rewrite Hgeo. discriminate.
  - exact Hdate.
  - exists snap, o. split; [exact Hs|].
    split; [apply Happ; vm_compute; reflexivity|].
    split; [|exact Ho].
    assert (Hall : filter (λ x, at_ x (AppSimple.geocode_col df) = at_ r (AppSimple.geocode_col df))
                     (rows snap) = rows snap).
    { apply filter_all. intros x Hx.
      change (AppSimple.geocode_col df) with "municipio_geocodigo". rewrite Hgeo.
      assert (E : (λ s, (λ x, at_ x "municipio_geocodigo") <$> rows s)
                    <$> AppSimple.latest_per_municipality df = Ok [Num 5103403])
        by (vm_compute; reflexivity).
      rewrite Hs in E. injection E as E.
      apply (list_elem_of_fmap_2 (λ x, at_ x "municipio_geocodigo")) in Hx.
      rewrite E in Hx. by apply list_elem_of_singleton in Hx. }
    rewrite <- Hall. exact Hf.
Defined.

(** ** Counting values *)

Lemma sum_indicator (x : cell) (D : list cell) :
  NoDup D → x ∈ D →
  sum_list_with (λ v, if decide (x = v) then 1%nat else 0%nat) D = 1%nat.
Proof.
  induction 1 as [|v D Hv HD IH]; [by intros ?%elem_of_nil|].
  intros Hx. cbn [sum_list_with]. destruct (decide (x = v)) as [->|Hne].
  - assert (sum_list_with (λ v0, if decide (v = v0) then 1%nat else 0%nat) D = 0%nat)
      as ->; [|done].
    clear IH Hx HD. induction D as [|w D IH]; [done|]. cbn [sum_list_with].
    rewrite decide_False by (intros ->; apply Hv; left).
    apply IH. intros HvD. apply Hv. by right.
  - apply elem_of_cons in Hx as [?|Hx]; [done|]. by rewrite IH.
Qed.

(** The counts of the distinct values of a list add up to its length. *)
Lemma sum_counts (D p : list cell) :
  NoDup D → (∀ x, x ∈ p → x ∈ D) →
  sum_list_with (λ v, length (filter (λ w, w = v) p)) D = length p.
Proof.
  intros HD. induction p as [|x p IH]; intros Hp.
  - clear HD Hp. induction D as [|v D IH]; [done|]. cbn [sum_list_with].
    rewrite IH. reflexivity.
  - transitivity (sum_list_with (λ v, if decide (x = v) then 1%nat else 0%nat) D
                  + sum_list_with (λ v, length (filter (λ w, w = v) p)) D)%nat.
    + clear. induction D as [|v D IH]; [done|]. cbn [sum_list_with].
      rewrite IH, filter_cons. destruct (decide (x = v)); simpl; lia.
    + rewrite sum_indicator, IH; [done| |done|].
      * intros y Hy. apply Hp. by right.
      * apply Hp. left.
Qed.

Lemma value_counts_perm (l : list cell) :
  value_counts l ≡ₚ
    (λ v, (v, length (filter (λ w, w = v) (filter (λ v, v ≠ NaN) l))))
      <$> remove_dups (filter (λ v, v ≠ NaN) l).
Proof. unfold value_counts. apply stable_sort_perm. Qed.

Lemma value_counts_keys (l : list cell) :
  fst <$> value_counts l ≡ₚ remove_dups (filter (λ v, v ≠ NaN) l).
Proof.
  rewrite value_counts_perm, <- list_fmap_compose.
  generalize (remove_dups (filter (λ v, v ≠ NaN) l)). intros D.
  induction D as [|v D IH]; [done|]. cbn [fmap list_fmap]. by rewrite IH.
Qed.

Lemma value_counts_NoDup (l : list cell) : NoDup (fst <$> value_counts l).
Proof. rewrite value_counts_keys. apply NoDup_remove_dups. Qed.

Lemma value_counts_key (l : list cell) (v : cell) :
  v ∈ fst <$> value_counts l ↔ v ≠ NaN ∧ v ∈ l.
Proof.
  rewrite value_counts_keys, elem_of_remove_dups, list_elem_of_filter. done.
Qed.

Lemma value_counts_entry (l : list cell) (v : cell) (n : nat) :
  (v, n) ∈ value_counts l → n = length (filter (λ w, w = v) l).
Proof.
  rewrite value_counts_perm. intros (w & [= -> ->] & Hw)%list_elem_of_fmap.
  apply elem_of_remove_dups, list_elem_of_filter in Hw as [Hna _].
  rewrite list_filter_filter_l; [done|]. by intros x ->.
Qed.

Lemma value_counts_sum (l : list cell) :
  sum_list_with snd (value_counts l) = length (filter (λ v, v ≠ NaN) l).
Proof.
  rewrite value_counts_perm.
  set (p := filter (λ v, v ≠ NaN) l).
  transitivity (sum_list_with (λ v, length (filter (λ w, w = v) p)) (remove_dups p)).
  - generalize (remove_dups p). intros D.
    induction D as [|v D IH]; [done|]. cbn [fmap list_fmap sum_list_with]. by rewrite <- IH.
  - apply sum_counts; [apply NoDup_remove_dups|].
    intros x Hx. by apply elem_of_remove_dups.
Qed.

(** ** Alert-level distribution (C9) *)

Lemma length_filter_fmap {A B} (f : A → B) (P : B → Prop) (Q : A → Prop)
    `{∀ y, Decision (P y)} `{∀ x, Decision (Q x)} (l : list A) :
  (∀ x, Q x ↔ P (f x)) →
  length (filter P (f <$> l)) = length (filter Q l).
Proof.
  intros HPQ. induction l as [|x l IH]; [done|].
  rewrite fmap_cons, !filter_cons.
  destruct (decide (P (f x))) as [HP|HP], (decide (Q x)) as [HQ|HQ]; simpl;
    rewrite ?IH; try done; exfalso.
  - by apply HQ, HPQ.
  - by apply HP, HPQ.
Qed.

Section distribution_facts.
Context `{Parsers}.

Lemma bars_of_counts_sum (counts : list (cell * nat)) :
  sum_list_with bar_value (bars_of_counts counts) = sum_list_with snd counts.
Proof.
  induction counts as [|p counts IH]; [done|].
  unfold bars_of_counts in *. cbn [fmap list_fmap sum_list_with bar_value].
  by rewrite IH.
Qed.

Lemma nivel_counts_spec (snap : DataFrame) (counts : list (cell * nat)) :
  nivel_counts snap = Ok counts →
  distribution_of (Ok snap) (bars_of_counts counts).
Proof.
  intros Hcounts. exists snap, counts. split; [done|]. split; [done|].
  split; [done|].
  unfold nivel_counts, sort_index in Hcounts.
  destruct (homogeneous _); [|done]. injection Hcounts as <-.
  set (vc := value_counts (column "nivel" snap)).
  assert (stable_sort fst vc ≡ₚ vc) as Hperm by apply stable_sort_perm.
  assert (sum_list_with bar_value (bars_of_counts (stable_sort fst vc))
          = length (filter (λ r, at_ r "nivel" ≠ NaN) (rows snap))) as Hsum.
  { rewrite bars_of_counts_sum, Hperm. unfold vc. rewrite value_counts_sum.
    unfold column. by apply length_filter_fmap. }
  split; [rewrite Hperm; apply value_counts_NoDup|].
  split; [apply stable_sort_sorted|].
  split; [intros v; rewrite Hperm; apply value_counts_key|].
  split.
  { intros v n Hvn. rewrite Hperm in Hvn.
    rewrite (value_counts_entry _ _ _ Hvn). unfold column.
    by apply length_filter_fmap. }
  split; [done|].
  intros Hall. rewrite Hsum. by rewrite filter_all.
Qed.

End distribution_facts.

(** C9 as stated fails.  Two municipalities, the latest record of one of
    them without alert level: [value_counts] leaves the missing level out,
    so the bars count one municipality while the snapshot has two rows. *)
Lemma C9_counterexample :
  let df := DataFrame_of_records
              [ Sample.record [("municipio_geocodigo", Num 5103403);
                               ("data_iniSE", Date 19723); ("nivel", Num 2)];
                Sample.record [("municipio_geocodigo", Num 5104402);
                               ("data_iniSE", Date 19723); ("nivel", NaN)] ] in
  let height (chart : list bar) : nat := sum_list_with bar_value chart in
  let size (snap : DataFrame) : nat := length (rows snap) in
  (height <$> @AppSimple.create_alert_distribution Sample.parsers df : option nat)
    = Some 1%nat ∧
  (size <$> AppSimple.latest_per_municipality df : result nat) = Ok 2%nat ∧
  (fmap (M:=option) height
     <$> @App.create_alert_level_distribution Sample.parsers df
     : result (option nat)) = Ok (Some 1%nat) ∧
  (size <$> App.latest_per_municipality df : result nat) = Ok 2%nat.
Proof.
  cbv zeta. split; [vm_compute; reflexivity|].
  split; [vm_compute; reflexivity|].
  split; vm_compute; reflexivity.
Qed.

(** C9, amended.  Whenever a chart is produced, its bars are one per level
    present in the latest-per-municipality snapshot, in ascending order of
    the levels, each as high as the number of snapshot rows of its level;
    together they count the snapshot rows whose level is present, hence all
    rows of the snapshot when no level is missing.  [app_simple.py] does
    produce a chart for a non-empty table with the level, date and
    identifier columns, dates of one kind and levels that are numbers or
    missing, and [app.py] produces the same chart under its column names. *)
Theorem C9_alert_counts_sum `{Parsers} (df : DataFrame) :
  (∀ chart, AppSimple.create_alert_distribution df = Some chart →
            distribution_of (AppSimple.latest_per_municipality df) chart) ∧
  (∀ chart, App.create_alert_level_distribution df = Ok (Some chart) →
            distribution_of (App.latest_per_municipality df) chart) ∧
  (empty df = false →
   has_column "nivel" df = true →
   has_column (AppSimple.date_col df) df = true →
   has_column (AppSimple.geocode_col df) df = true →
   homogeneous (column (AppSimple.date_col df) df) = true →
   (∀ r, r ∈ rows df → at_ r "nivel" = NaN ∨ ∃ n, at_ r "nivel" = Num n) →
   ∃ chart,
     AppSimple.create_alert_distribution df = Some chart ∧
     (has_column "data_iniSE" df = true →
      has_column "municipio_geocodigo" df = true →
      App.create_alert_level_distribution df = Ok (Some chart))).
Proof.
  split; [|split].
  - intros chart. unfold AppSimple.create_alert_distribution.
    destruct (empty df || negb (has_column "nivel" df)); [done|].
    destruct (AppSimple.latest_per_municipality df) as [snap|]; [|done].
    cbn [mbind result_bind].
    destruct (nivel_counts snap) as [counts|] eqn:Hc; [|done].
    intros [= <-]. by apply nivel_counts_spec.
  - intros chart. unfold App.create_alert_level_distribution.
    destruct (empty df || negb (has_column "nivel" df)); [done|].
    destruct (App.latest_per_municipality df) as [snap|]; [|done].
    cbn [mbind result_bind].
    destruct (nivel_counts snap) as [counts|] eqn:Hc; [|done].
    intros [= <-]. by apply nivel_counts_spec.
  - intros He Hn Hd Hg Hh Hlev.
    destruct (latest_with_geocode df Hd Hh Hg) as (snap & Hsnap & Happ & _ & Hsrows).
    assert (∀ r, r ∈ rows snap → r ∈ rows df) as Hrows.
    { intros r Hr. rewrite Hsrows in Hr.
      apply last_of_each_group_elem in Hr as [Hr _].
      by rewrite stable_sort_perm in Hr. }
    assert (∃ counts, nivel_counts snap = Ok counts) as [counts Hc].
    { unfold nivel_counts, sort_index.
      rewrite (homogeneous_all_kind 0); [eauto|].
      intros v Hv Hna. apply value_counts_key in Hv as [_ Hv].
      apply list_elem_of_fmap in Hv as (r & -> & Hr).
      destruct (Hlev r (Hrows r Hr)) as [?|[n Hn']]; [done|by rewrite Hn']. }
    exists (bars_of_counts counts). split.
    + unfold AppSimple.create_alert_distribution.
      rewrite He, Hn, Hsnap. cbn [orb negb mbind result_bind]. by rewrite Hc.
    + intros H1 H2. unfold App.create_alert_level_distribution.
      rewrite He, Hn, (Happ H1 H2). cbn [orb negb mbind result_bind]. by rewrite Hc.
Qed.

(** Three municipalities, two on level 2 and one on level 4. *)
Lemma C9_alert_counts_sum_witness :
  let df := DataFrame_of_records
              [ Sample.record [("municipio_geocodigo", Num 5103403);
                               ("data_iniSE", Date 19723); ("nivel", Num 2)];
                Sample.record [("municipio_geocodigo", Num 5104402);
                               ("data_iniSE", Date 19723); ("nivel", Num 4)];
                Sample.record [("municipio_geocodigo", Num 5103809);
                               ("data_iniSE", Date 19723); ("nivel", Num 2)] ] in
  ∃ chart,
    @AppSimple.create_alert_distribution Sample.parsers df = Some chart ∧
    @distribution_of Sample.parsers (AppSimple.latest_per_municipality df) chart ∧
    (λ b, (bar_label b, bar_value b)) <$> chart
      = [("Amarelo", 2%nat); ("Vermelho", 1%nat)] ∧
    sum_list_with bar_value chart = 3%nat.
Proof.
  intros df.
  destruct (@C9_alert_counts_sum Sample.parsers df) as (Hdist & _ & Hchart).
  destruct Hchart as (chart & Hc & _); try (vm_compute; reflexivity).
  { intros r Hr. revert r Hr. apply Forall_forall.
    repeat (apply List.Forall_cons; [right; eexists; vm_compute; reflexivity|]).
    apply List.Forall_nil. }
  exists chart. split; [exact Hc|]. split; [by apply Hdist|].
  vm_compute in Hc. injection Hc as <-. split; vm_compute; reflexivity.
Defined.

(** ** Alert levels, names and colours (C8) *)

Lemma nivel_names_get_other (level : Z) (default : string) :
  ¬ (1 ≤ level ≤ 4) → nivel_names_get (Num level) default = default.
Proof.
  intros Hl. destruct level as [|p|p]; try done.
  destruct p as [[[]|[]|]|[[]|[]|]|]; try done; lia.
Qed.

Lemma nivel_colors_get_other (level : Z) (default : string) :
  ¬ (1 ≤ level ≤ 4) → nivel_colors_get (Num level) default = default.
Proof.
  intros Hl. destruct level as [|p|p]; try done.
  destruct p as [[[]|[]|]|[[]|[]|]|]; try done; lia.
Qed.

Lemma get_alert_level_info_other (level : Z) :
  ¬ (1 ≤ level ≤ 4) → App.get_alert_level_info level = ("Desconhecido", "#95a5a6").
Proof.
  intros Hl. unfold App.get_alert_level_info.
  repeat (case_bool_decide; [lia|]). done.
Qed.

Lemma level_cases (level : Z) :
  level = 1 ∨ level = 2 ∨ level = 3 ∨ level = 4 ∨ ¬ (1 ≤ level ≤ 4).
Proof. lia. Qed.

(** C8 as stated fails: the code's display names are Portuguese, and the
    bar of an out-of-range level in the distribution chart is labelled with
    the level itself, not with a name for unknown levels. *)
Lemma C8_counterexample :
  App.get_alert_level_info 1 = ("Verde", "#2ecc71") ∧
  App.get_alert_level_info 1 ≠ spec_alert_level_info 1 ∧
  App.get_alert_level_info 9 = ("Desconhecido", "#95a5a6") ∧
  App.get_alert_level_info 9 ≠ spec_alert_level_info 9 ∧
  bar_color <$> @bars_of_counts Sample.parsers [(Num 9, 1%nat)] = ["#95a5a6"] ∧
  bar_label <$> @bars_of_counts Sample.parsers [(Num 9, 1%nat)]
    ≠ [(spec_alert_level_info 9).1].
Proof.
  repeat split; try (vm_compute; reflexivity); vm_compute; discriminate.
Qed.

(** C8, amended.  The single-record views of [app.py], [app_simple.py] and
    [fetch_data.py] map 1 to ("Verde", "#2ecc71"), 2 to ("Amarelo",
    "#f39c12"), 3 to ("Laranja", "#e67e22"), 4 to ("Vermelho", "#e74c3c")
    and every other integer to ("Desconhecido", "#95a5a6"); the colours are
    those of the specification.  The distribution chart uses the same names
    and colours for 1 to 4 and, for any other integer [i], the colour
    "#95a5a6" and the label "Nível " followed by [i] as Python prints it:
    9 when the level column is an integer column, 9.0 when it is a float
    column. *)
Theorem C8_alert_level_mapping `{Parsers} (level : Z) (n : nat) :
  App.get_alert_level_info 1 = ("Verde", "#2ecc71") ∧
  App.get_alert_level_info 2 = ("Amarelo", "#f39c12") ∧
  App.get_alert_level_info 3 = ("Laranja", "#e67e22") ∧
  App.get_alert_level_info 4 = ("Vermelho", "#e74c3c") ∧
  (¬ (1 ≤ level ≤ 4) →
   App.get_alert_level_info level = ("Desconhecido", "#95a5a6")) ∧
  AppSimple.nivel_badge level = App.get_alert_level_info level ∧
  (FetchData.get_alert_level_name level, FetchData.get_alert_level_color level)
    = App.get_alert_level_info level ∧
  (App.get_alert_level_info level).2 = (spec_alert_level_info level).2 ∧
  bars_of_counts [(Num level, n)]
    = [mkBar (if bool_decide (1 ≤ level ≤ 4)
              then (App.get_alert_level_info level).1
              else "Nível " +:+ format_number level)
             n
             (App.get_alert_level_info level).2].
Proof.
  do 4 (split; [reflexivity|]).
  split; [apply get_alert_level_info_other|].
  destruct (level_cases level) as [->|[->|[->|[->|Hl]]]];
    try (repeat split; reflexivity).
  unfold AppSimple.nivel_badge, bars_of_counts.
  cbn [fmap list_fmap fst snd cell_text].
  rewrite get_alert_level_info_other by done.
  rewrite !nivel_names_get_other, !nivel_colors_get_other by done.
  rewrite bool_decide_eq_false_2 by done.
  unfold FetchData.get_alert_level_name, FetchData.get_alert_level_color,
    spec_alert_level_info.
  repeat (rewrite bool_decide_eq_false_2 by lia). done.
Qed.

(** Level 9 in the three views, its bar labelled as an integer column
    prints it; and the bar of level 0 of a float column, as a level column
    that had a missing value is after [fillna(0)]. *)
Lemma C8_alert_level_mapping_witness :
  App.get_alert_level_info 9 = ("Desconhecido", "#95a5a6") ∧
  AppSimple.nivel_badge 9 = ("Desconhecido", "#95a5a6") ∧
  @bars_of_counts Sample.parsers [(Num 9, 3%nat)] = [mkBar "Nível 9" 3 "#95a5a6"] ∧
  @bars_of_counts Sample.float_parsers [(Num 0, 1%nat)]
    = [mkBar "Nível 0.0" 1 "#95a5a6"].
Proof.
  destruct (@C8_alert_level_mapping Sample.parsers 9 3)
    as (_ & _ & _ & _ & Hother & Hbadge & _ & _ & Hbars).
  destruct (@C8_alert_level_mapping Sample.float_parsers 0 1)
    as (_ & _ & _ & _ & Hother0 & _ & _ & _ & Hbars0).
  assert (App.get_alert_level_info 9 = ("Desconhecido", "#95a5a6")) as Hinfo
    by (apply Hother; lia).
  assert (App.get_alert_level_info 0 = ("Desconhecido", "#95a5a6")) as Hinfo0
    by (apply Hother0; lia).
  split; [exact Hinfo|]. split; [by rewrite Hbadge|].
  split; [rewrite Hbars, Hinfo; reflexivity|].
  rewrite Hbars0, Hinfo0. reflexivity.
Defined.

(** ** Running a fetch *)

Lemma io_bind_run {A B} (m : io A) (f : A → io B) (tr : list event) :
  (m ≫= f) tr =
    match m tr with
    | (tr', Ok a) => f a tr'
    | (tr', Raise e) => (tr', Raise e)
    end.
Proof. reflexivity. Qed.

Lemma io_ret_run {A} (a : A) (tr : list event) : (mret a : io A) tr = (tr, Ok a).
Proof. reflexivity. Qed.

Lemma http_get_success {K B} (srv : K → reply B) (k : K) (ev : event)
    (body : B) (tr : list event) :
  srv k = Success body → http_get srv k ev tr = (tr ++ [ev], Ok body).
Proof. intros Hs. unfold http_get, emit, lift. rewrite io_bind_run, Hs. done. Qed.

Lemma http_get_failed {K B} (srv : K → reply B) (k : K) (ev : event)
    (f : failure) (tr : list event) :
  srv k = Failed f → http_get srv k ev tr = (tr ++ [ev], Raise RequestException).
Proof. intros Hs. unfold http_get, emit, lift. rewrite io_bind_run, Hs. done. Qed.

Lemma DataFrame_of_records_length (recs : list (gmap string cell)) :
  length (rows (DataFrame_of_records recs)) = length recs.
Proof. unfold DataFrame_of_records. cbn [rows]. apply length_imap. Qed.

Lemma at_concat_row (cols : gset string) (r : Row) (i : nat) (c : string) :
  at_ (mkRow i (cells r ∪ gset_to_gmap NaN cols)) c = at_ r c.
Proof.
  unfold at_; cbn [cells]. rewrite lookup_union, lookup_gset_to_gmap.
  destruct (cells r !! c); simpl; [by destruct (guard _)|].
  by destruct (guard (c ∈ cols)).
Qed.

Lemma at_record_row (rec : gmap string cell) (cols : gset string) (i : nat) (c : string) :
  at_ (mkRow i (rec ∪ gset_to_gmap NaN cols)) c = default NaN (rec !! c).
Proof. exact (at_concat_row cols (mkRow 0 rec) i c). Qed.

Lemma DataFrame_of_records_lookup (recs : list (gmap string cell)) (i : nat) :
  rows (DataFrame_of_records recs) !! i
  = (λ rec, mkRow i (rec ∪ gset_to_gmap NaN (⋃ (dom <$> recs)))) <$> recs !! i.
Proof. unfold DataFrame_of_records. cbn [rows]. apply list_lookup_imap. Qed.


Lemma DataFrame_of_records_labels (recs : list (gmap string cell)) :
  label <$> rows (DataFrame_of_records recs) = seq 0 (length recs).
Proof.
  apply list_eq. intros i. rewrite list_lookup_fmap, DataFrame_of_records_lookup.
  destruct (recs !! i) as [rec|] eqn:Hi; cbn.
  - symmetry. apply lookup_seq. split; [done|]. by apply lookup_lt_Some in Hi.
  - symmetry. apply lookup_seq_ge. by apply lookup_ge_None in Hi.
Qed.

Lemma DataFrame_of_records_row (recs : list (gmap string cell)) (r : Row) :
  r ∈ rows (DataFrame_of_records recs) →
  ∃ rec, recs !! label r = Some rec ∧ ∀ c, at_ r c = default NaN (rec !! c).
Proof.
  intros Hr. apply list_elem_of_lookup in Hr as [i Hi].
  rewrite DataFrame_of_records_lookup in Hi.
  destruct (recs !! i) as [rec|] eqn:Hrec; [|done]. injection Hi as <-.
  exists rec. split; [done|]. intros c. apply at_record_row.
Qed.

(** [app_simple.py] normalises the three shapes as C7 says. *)
Lemma AppSimple_normalize_shapes :
  (∀ l, ∃ df, AppSimple.normalize (PList l) = Some df ∧
              length (rows df) = length l) ∧
  (∀ r, ∃ df, AppSimple.normalize (PDict r) = Some df ∧
              length (rows df) = 1%nat) ∧
  (∀ v, AppSimple.normalize (POther v) = None).
Proof.
  split; [|split].
  - intros l. eexists. split; [done|]. apply DataFrame_of_records_length.
  - intros r. eexists. split; [done|]. apply DataFrame_of_records_length.
  - done.
Qed.

(** C7, where the code departs from it.  When the single-municipality
    endpoint answers with a JSON value that is neither a list nor an object
    (a [null], a number, a text), [app_simple.py] returns the empty table,
    but [app.py] wraps the value into [pd.DataFrame([data])] and returns a
    table of one row and one column. *)
Theorem C7_app_wraps_unrecognized_shape `{Parsers}
    (srv : string → reply payload) (geocode : string) (v : cell) (tr : list event) :
  srv geocode = Success (POther v) →
  AppSimple.fetch_infodengue_data srv geocode tr
    = (tr ++ [RequestedCity geocode], Ok empty_frame) ∧
  App.fetch_municipality_data srv geocode tr
    = (tr ++ [RequestedCity geocode],
       Ok (mkDF {[ "0" ]} [mkRow 0 {[ "0" := fill0 v ]}])) ∧
  empty (mkDF {[ "0" ]} [mkRow 0 {[ "0" := fill0 v ]}]) = false.
Proof.
  intros Hsrv. split; [|split].
  - unfold AppSimple.fetch_infodengue_data, try_except.
    rewrite io_bind_run, (http_get_success _ _ _ _ _ Hsrv). reflexivity.
  - unfold App.fetch_municipality_data, try_except.
    rewrite io_bind_run, (http_get_success _ _ _ _ _ Hsrv). cbv zeta.
    cbn [App.normalize].
    assert (App.process_dengue_data (DataFrame_of_scalar v)
            = Ok (mkDF {[ "0" ]} [mkRow 0 {[ "0" := fill0 v ]}])) as Hp.
    { vm_compute. reflexivity. }
    assert (empty (DataFrame_of_scalar v) = false) as He by (vm_compute; reflexivity).
    rewrite He. cbn [negb]. unfold lift. rewrite Hp. reflexivity.
  - vm_compute. reflexivity.
Qed.

(** The endpoint answers [null]. *)
Lemma C7_app_wraps_unrecognized_shape_witness :
  let srv : string → reply payload := λ _, Success (POther NaN) in
  (@AppSimple.fetch_infodengue_data Sample.parsers srv "5208707" []).2
    = Ok empty_frame ∧
  (λ d, (λ r, map_to_list (cells r)) <$> rows d)
     <$> (@App.fetch_municipality_data Sample.parsers srv "5208707" []).2
    = Ok [[("0", Num 0)]].
Proof.
  intros srv.
  destruct (@C7_app_wraps_unrecognized_shape Sample.parsers srv "5208707" NaN []
              eq_refl) as (Hsimple & Happ & _).
  rewrite Hsimple, Happ. split; [reflexivity|]. vm_compute. reflexivity.
Defined.

(** ** The bulk fetch (C3, C4) *)



Lemma extend_pages_failure (srv : Z → reply envelope)
    (pages : list Z) (all_items : list (gmap string cell)) (tr : list event) :
  (∃ p f, p ∈ pages ∧ srv p = Failed f) →
  ∃ requested,
    requested `prefix_of` pages ∧
    (∃ p f, last requested = Some p ∧ srv p = Failed f) ∧
    extend_pages srv all_items pages tr
    = (tr ++ (RequestedPage <$> requested), Raise RequestException).
Proof.
  revert all_items tr. induction pages as [|p ps IH]; intros all_items tr Hfail.
  - destruct Hfail as (p & f & Hp%elem_of_nil & _). done.
  - cbn [extend_pages]. rewrite io_bind_run.
    destruct (srv p) as [f|body] eqn:Hp.
    + exists [p]. split; [by exists ps|]. split; [by exists p, f|].
      by rewrite (http_get_failed _ _ _ _ _ Hp).
    + rewrite (http_get_success _ _ _ _ _ Hp).
      destruct (IH (all_items ++ get_items body) (tr ++ [RequestedPage p]))
        as (requested & Hpre & (q & f & Hq & Hf) & Hrun).
      { destruct Hfail as (q & f & [->|Hq]%elem_of_cons & Hf); [congruence|eauto]. }
      exists (p :: requested). split; [by apply prefix_cons|]. split.
      * exists q, f. split; [|done]. by rewrite last_cons, Hq.
      * rewrite Hrun, fmap_cons, <- app_assoc. done.
Qed.

Lemma range_pages (v : variant) (tp : Z) :
  match v with
  | AppPy => range 2 (Z.min (tp + 1) 6)
  | FetchDataPy => range 2 (tp + 1)
  end = seqZ 2 (last_page_of v tp - 1).
Proof. destruct v; unfold range, last_page_of; f_equal; lia. Qed.

Lemma collect_items_of_unfold (v : variant) (srv : Z → reply envelope) (tr : list event) :
  collect_items_of v srv tr
  = match http_get srv 1 (RequestedPage 1) tr with
    | (tr', Ok data) =>
        extend_pages srv (get_items data)
          (seqZ 2 (last_page_of v (get_total_pages data) - 1)) tr'
    | (tr', Raise e) => (tr', Raise e)
    end.
Proof.
  destruct v; unfold collect_items_of, App.collect_items, FetchData.collect_items;
    rewrite io_bind_run; destruct (http_get _ _ _ _) as [tr' [data|e]]; try done;
    cbv zeta.
  - by rewrite (range_pages AppPy).
  - by rewrite (range_pages FetchDataPy).
Qed.




(** C4 as stated fails in one point: the caller cannot tell a failed fetch
    from a fetch that succeeded and found nothing.  A server that times out
    and a server that answers with an empty page make both variants return
    the same empty table. *)
Lemma C4_counterexample :
  let down : Z → reply envelope := λ _, Failed Timeout in
  let quiet : Z → reply envelope := λ _, Success (mkEnvelope (Some []) None) in
  (@bulk_fetch_of Sample.parsers AppPy down []).2 = Ok empty_frame ∧
  (@bulk_fetch_of Sample.parsers AppPy quiet []).2 = Ok empty_frame ∧
  (@bulk_fetch_of Sample.parsers FetchDataPy down []).2 = Ok empty_frame ∧
  (@bulk_fetch_of Sample.parsers FetchDataPy quiet []).2 = Ok empty_frame.
Proof. cbv zeta. repeat split; vm_compute; reflexivity. Qed.

(** C4, amended.  If a request of a bulk fetch fails (the first page, or a
    later page the variant asks for), the fetch stops there, logs the error
    ([app.py] also warns on the page), and returns the empty table: the
    pages already fetched are discarded and no exception reaches the caller.
    The returned value is the empty table a fetch without data returns
    too. *)
Theorem C4_failed_request_yields_empty `{Parsers} (v : variant)
    (srv : Z → reply envelope) (tr : list event) :
  ((∃ f, srv 1 = Failed f) ∨
   (∃ first p f, srv 1 = Success first ∧
                 2 ≤ p ≤ last_page_of v (get_total_pages first) ∧
                 srv p = Failed f)) →
  ∃ requested,
    (∀ first, srv 1 = Success first →
       requested `prefix_of` 1 :: seqZ 2 (last_page_of v (get_total_pages first) - 1)) ∧
    (∃ p f, last requested = Some p ∧ srv p = Failed f) ∧
    bulk_fetch_of v srv tr
    = (tr ++ (RequestedPage <$> requested)
          ++ match v with
             | AppPy => [LoggedError; Warned]
             | FetchDataPy => [LoggedError]
             end,
       Ok empty_frame).
Proof.
  intros Hfail.
  assert (∃ requested,
            (∀ first, srv 1 = Success first →
               requested `prefix_of`
                 1 :: seqZ 2 (last_page_of v (get_total_pages first) - 1)) ∧
            (∃ p f, last requested = Some p ∧ srv p = Failed f) ∧
            collect_items_of v srv tr
            = (tr ++ (RequestedPage <$> requested), Raise RequestException))
    as (requested & Hpre & Hlast & Hrun).
  { rewrite collect_items_of_unfold. destruct (srv 1) as [f|first] eqn:H1.
    - exists [1]. split; [intros ? [=]|]. split; [by exists 1, f|].
      by rewrite (http_get_failed _ _ _ _ _ H1).
    - destruct Hfail as [[f [=]]|(first' & p & f & [= <-] & Hp & Hf)].
      rewrite (http_get_success _ _ _ _ _ H1).
      destruct (extend_pages_failure srv
                  (seqZ 2 (last_page_of v (get_total_pages first) - 1))
                  (get_items first) (tr ++ [RequestedPage 1]))
        as (requested & Hpre & (q & g & Hq & Hg) & Hrun).
      { exists p, f. split; [|done]. apply elem_of_seqZ. lia. }
      exists (1 :: requested). split; [|split].
      + intros first' [= <-]. by apply prefix_cons.
      + exists q, g. split; [|done]. by rewrite last_cons, Hq.
      + rewrite Hrun, fmap_cons, <- app_assoc. done. }
  exists requested. split; [done|]. split; [done|].
  destruct v; cbn [bulk_fetch_of collect_items_of] in *.
  - unfold App.fetch_infodengue_state_data, try_except.
    rewrite io_bind_run, Hrun. unfold emit.
    rewrite !io_bind_run, io_ret_run, <- !app_assoc. done.
  - unfold FetchData.fetch_infodengue_data, try_except.
    rewrite io_bind_run, Hrun. rewrite bool_decide_eq_true_2 by done.
    unfold emit. rewrite !io_bind_run, io_ret_run, <- !app_assoc. done.
Qed.

(** The third page of four times out: the first two pages are dropped. *)
Lemma C4_failed_request_yields_empty_witness :
  let srv : Z → reply envelope := λ page,
    if bool_decide (page = 3) then Failed Timeout
    else Success (mkEnvelope (Some [Sample.record [("page", Num page)]])
                             (Some (mkPagination (Some 4)))) in
  (∃ requested,
     (∃ p f, last requested = Some p ∧ srv p = Failed f) ∧
     @bulk_fetch_of Sample.parsers AppPy srv []
     = ((RequestedPage <$> requested) ++ [LoggedError; Warned], Ok empty_frame)) ∧
  @bulk_fetch_of Sample.parsers AppPy srv []
    = ((RequestedPage <$> [1; 2; 3]) ++ [LoggedError; Warned], Ok empty_frame) ∧
  @bulk_fetch_of Sample.parsers FetchDataPy srv []
    = ((RequestedPage <$> [1; 2; 3]) ++ [LoggedError], Ok empty_frame).
Proof.
  intros srv. split.
  - destruct (@C4_failed_request_yields_empty Sample.parsers AppPy srv [])
      as (requested & _ & Hlast & Hrun).
    { right. eexists _, 3, Timeout. split; [reflexivity|].
      split; [vm_compute; split; discriminate|reflexivity]. }
    exists requested. split; [exact Hlast|exact Hrun].
  - split; vm_compute; reflexivity.
Defined.

(** ** The consolidated state-wide table (C10) *)

Section fetch_all.
Context `{Parsers}.

(** [fetch_infodengue_data] catches every exception. *)
Lemma fetch_infodengue_data_total (srv : string → reply payload) (geocode : Z)
    (tr : list event) :
  ∃ tr', AppSimple.fetch_infodengue_data srv (pretty geocode) tr
         = (tr', Ok (AppSimple.fetched srv geocode)).
Proof.
  unfold AppSimple.fetched, AppSimple.fetch_infodengue_data, try_except.
  rewrite !io_bind_run.
  destruct (srv (pretty geocode)) as [f|data] eqn:Hs.
  - rewrite !(http_get_failed _ _ _ _ _ Hs). unfold emit.
    rewrite !io_bind_run, !io_ret_run. eauto.
  - rewrite !(http_get_success _ _ _ _ _ Hs).
    destruct (AppSimple.normalize data); rewrite !io_ret_run; eauto.
Qed.

Lemma tagged_frames_cons (srv : string → reply payload) (entry : Z * string)
    (table : list (Z * string)) :
  AppSimple.tagged_frames srv (entry :: table)
  = (if negb (empty (AppSimple.fetched srv entry.1)) then
       [assign_const "municipio_geocodigo" (Num entry.1)
          (assign_const "municipio_nome" (Str entry.2)
             (AppSimple.fetched srv entry.1))]
     else [])
    ++ AppSimple.tagged_frames srv table.
Proof. reflexivity. Qed.

Lemma collect_municipalities_run (srv : string → reply payload)
    (table : list (Z * string)) (all_data : list DataFrame) (tr : list event) :
  ∃ tr', AppSimple.collect_municipalities srv table all_data tr
         = (tr', Ok (all_data ++ AppSimple.tagged_frames srv table)).
Proof.
  revert all_data tr. induction table as [|[geocode name] table IH];
    intros all_data tr.
  - exists tr. cbn [AppSimple.collect_municipalities]. rewrite io_ret_run.
    unfold AppSimple.tagged_frames. cbn. by rewrite app_nil_r.
  - cbn [AppSimple.collect_municipalities]. rewrite io_bind_run.
    destruct (fetch_infodengue_data_total srv geocode tr) as [tr1 ->].
    rewrite tagged_frames_cons. cbn [fst snd].
    destruct (empty (AppSimple.fetched srv geocode)); cbn [negb].
    + apply IH.
    + cbv zeta. destruct (IH (all_data ++
         [assign_const "municipio_geocodigo" (Num geocode)
            (assign_const "municipio_nome" (Str name)
               (AppSimple.fetched srv geocode))]) tr1) as [tr' ->].
      exists tr'. by rewrite <- app_assoc.
Qed.

End fetch_all.

Lemma pd_concat_rows (frames : list DataFrame) (r' : Row) :
  r' ∈ rows (pd_concat frames) →
  ∃ df r, df ∈ frames ∧ r ∈ rows df ∧ ∀ c, at_ r' c = at_ r c.
Proof.
  unfold pd_concat. cbn [rows].
  intros (i & r & -> & Hr)%elem_of_lookup_imap.
  apply list_elem_of_lookup_2, list_elem_of_join in Hr as (l & Hr & Hl).
  apply list_elem_of_fmap in Hl as (df & -> & Hdf).
  exists df, r. split; [done|]. split; [done|]. intros c. apply at_concat_row.
Qed.

Lemma pd_concat_columns (frames : list DataFrame) (df : DataFrame) (c : string) :
  df ∈ frames → c ∈ columns df → c ∈ columns (pd_concat frames).
Proof.
  intros Hdf Hc. unfold pd_concat. cbn [columns].
  apply elem_of_union_list. exists (columns df). split; [|done].
  apply list_elem_of_fmap. by exists df.
Qed.

Lemma tagged_frames_elem `{Parsers} (srv : string → reply payload)
    (table : list (Z * string)) (df : DataFrame) :
  df ∈ AppSimple.tagged_frames srv table →
  ∃ geocode name,
    (geocode, name) ∈ table ∧
    empty (AppSimple.fetched srv geocode) = false ∧
    df = assign_const "municipio_geocodigo" (Num geocode)
           (assign_const "municipio_nome" (Str name) (AppSimple.fetched srv geocode)).
Proof.
  unfold AppSimple.tagged_frames.
  intros ([geocode name] & Hdf & Hentry)%list_elem_of_bind. cbn [fst snd] in Hdf.
  destruct (empty (AppSimple.fetched srv geocode)) eqn:He; cbn [negb] in Hdf.
  - by apply elem_of_nil in Hdf.
  - apply list_elem_of_singleton in Hdf. by exists geocode, name.
Qed.

Lemma GOIAS_keys_NoDup : NoDup (AppSimple.GOIAS_MUNICIPALITIES.*1).
Proof. apply (bool_decide_unpack _). vm_compute. exact I. Qed.

Lemma GOIAS_MUNICIPALITIES_lookup (geocode : Z) (name : string) :
  (geocode, name) ∈ AppSimple.GOIAS_MUNICIPALITIES →
  (list_to_map AppSimple.GOIAS_MUNICIPALITIES : gmap Z string) !! geocode = Some name.
Proof.
  intros Hin.
  exact (elem_of_list_to_map_1 (M:=gmap Z) AppSimple.GOIAS_MUNICIPALITIES
           geocode name GOIAS_keys_NoDup Hin).
Qed.

(** The consolidated table of any static table of municipalities. *)
Lemma consolidated_spec `{Parsers} (srv : string → reply payload)
    (table : list (Z * string)) (tr : list event) :
  ∃ tr' df,
    (AppSimple.collect_municipalities srv table []
       ≫= λ all_data, if bool_decide (all_data = []) then mret empty_frame
                       else mret (pd_concat all_data)) tr = (tr', Ok df) ∧
    (∀ r, r ∈ rows df →
       "municipio_nome" ∈ columns df ∧
       "municipio_geocodigo" ∈ columns df ∧
       ∃ geocode name,
         (geocode, name) ∈ table ∧
         at_ r "municipio_geocodigo" = Num geocode ∧
         at_ r "municipio_nome" = Str name ∧
         empty (AppSimple.fetched srv geocode) = false) ∧
    ((∀ geocode name, (geocode, name) ∈ table →
                      empty (AppSimple.fetched srv geocode) = true) →
     df = empty_frame).
Proof.
  destruct (collect_municipalities_run srv table [] tr) as [tr' Hrun].
  cbn [app] in Hrun.
  remember (AppSimple.tagged_frames srv table) as frames eqn:Hframes.
  exists tr', (if bool_decide (frames = []) then empty_frame else pd_concat frames).
  split.
  { rewrite io_bind_run, Hrun. by destruct (bool_decide (frames = [])). }
  split.
  - intros r Hr. destruct (decide (frames = [])) as [Hnil|Hnil].
    { rewrite bool_decide_eq_true_2 in Hr by done. by apply elem_of_nil in Hr. }
    rewrite bool_decide_eq_false_2 in Hr |- * by done.
    apply pd_concat_rows in Hr as (df & r1 & Hdf & Hr1 & Hat).
    pose proof Hdf as Hdf'. rewrite Hframes in Hdf.
    apply tagged_frames_elem in Hdf as (geocode & name & Hentry & He & ->).
    cbn [assign_const rows] in Hr1.
    apply list_elem_of_fmap in Hr1 as (r2 & -> & Hr2).
    apply list_elem_of_fmap in Hr2 as (r0 & -> & Hr0).
    split; [|split].
    + apply (pd_concat_columns frames _ _ Hdf'). cbn [assign_const columns].
      apply elem_of_union_r, elem_of_union_l, elem_of_singleton. reflexivity.
    + apply (pd_concat_columns frames _ _ Hdf'). cbn [assign_const columns].
      apply elem_of_union_l, elem_of_singleton. reflexivity.
    + exists geocode, name. rewrite !Hat, !at_set_cell.
      split; [exact Hentry|]. split; [reflexivity|]. split; [reflexivity|exact He].
  - intros Hall. rewrite bool_decide_eq_true_2; [reflexivity|].
    destruct frames as [|df frames']; [reflexivity|].
    assert (df ∈ AppSimple.tagged_frames srv table) as Hdf.
    { rewrite <- Hframes. left. }
    apply tagged_frames_elem in Hdf as (geocode & name & Hentry & He & _).
    rewrite (Hall geocode name Hentry) in He. discriminate.
Qed.

(** C10: every row of the consolidated table carries a municipality name
    and a geocode, the name being the one the static table gives for the
    geocode; a municipality whose fetch came back empty has no row in it;
    and when every fetch came back empty the result is the empty table.
    The fetch of all municipalities never raises. *)
Theorem C10_consolidated_rows_tagged `{Parsers}
    (srv : string → reply payload) (tr : list event) :
  ∃ tr' df,
    AppSimple.fetch_all_municipalities_data srv tr = (tr', Ok df) ∧
    (∀ r, r ∈ rows df →
       "municipio_nome" ∈ columns df ∧
       "municipio_geocodigo" ∈ columns df ∧
       ∃ geocode name,
         (list_to_map AppSimple.GOIAS_MUNICIPALITIES : gmap Z string) !! geocode
           = Some name ∧
         at_ r "municipio_geocodigo" = Num geocode ∧
         at_ r "municipio_nome" = Str name ∧
         empty (AppSimple.fetched srv geocode) = false) ∧
    (∀ geocode name r,
       (geocode, name) ∈ AppSimple.GOIAS_MUNICIPALITIES →
       empty (AppSimple.fetched srv geocode) = true →
       r ∈ rows df →
       at_ r "municipio_geocodigo" ≠ Num geocode) ∧
    ((∀ geocode name,
        (geocode, name) ∈ AppSimple.GOIAS_MUNICIPALITIES →
        empty (AppSimple.fetched srv geocode) = true) →
     df = empty_frame).
Proof.
  destruct (consolidated_spec srv AppSimple.GOIAS_MUNICIPALITIES tr)
    as (tr' & df & Hrun & Hrows & Hall).
  exists tr', df. split; [exact Hrun|]. split; [|split; [|exact Hall]].
  - intros r Hr.
    destruct (Hrows r Hr) as (Hc1 & Hc2 & geocode & name & Hentry & Hg & Hn & He).
    split; [exact Hc1|]. split; [exact Hc2|]. exists geocode, name.
    split; [exact (GOIAS_MUNICIPALITIES_lookup geocode name Hentry)|].
    split; [exact Hg|]. split; [exact Hn|exact He].
  - intros geocode name r Hentry He Hr Hat.
    destruct (Hrows r Hr) as (_ & _ & g' & n' & _ & Hg & _ & He').
    rewrite Hat in Hg. injection Hg as <-. congruence.
Qed.

(** Only Goiânia and Anápolis answer, each with one weekly record. *)
Lemma C10_consolidated_rows_tagged_witness :
  let srv : string → reply payload := λ geocode,
    if bool_decide (geocode = "5103403") then
      Success (PList [Sample.record [("data_iniSE", Num 1704067200000); ("casos", Num 10)]])
    else if bool_decide (geocode = "5104402") then
      Success (PDict (Sample.record [("data_iniSE", Num 1704067200000); ("casos", Num 4)]))
    else Failed (HttpStatus 500) in
  ∃ df,
    (@AppSimple.fetch_all_municipalities_data Sample.parsers srv []).2 = Ok df ∧
    (λ r, (label r, at_ r "municipio_geocodigo", at_ r "municipio_nome", at_ r "casos"))
      <$> rows df
      = [ (0%nat, Num 5103403, Str "Goiânia", Num 10);
          (1%nat, Num 5104402, Str "Anápolis", Num 4) ] ∧
    ∀ r, r ∈ rows df → at_ r "municipio_geocodigo" ≠ Num 5103809.
Proof.
  intros srv.
  destruct (@C10_consolidated_rows_tagged Sample.parsers srv [])
    as (tr' & df & Hrun & _ & Hempty & _).
  exists df. rewrite Hrun. split; [done|]. split.
  - vm_compute in Hrun. injection Hrun as _ <-. vm_compute. reflexivity.
  - intros r Hr. apply (Hempty 5103809 "Aparecida de Goiânia" r); [|vm_compute; reflexivity|done].
    apply (bool_decide_unpack _). vm_compute. exact I.
Defined.

(** * Further properties of the code *)

(** ** More on [process_dengue_data] *)

(** X1: [process_dengue_data] works row by row.  The table it returns has
    the columns of the table it is given, and its rows are the rows given,
    each under its own label and possibly in another order.  In every row a
    missing cell becomes 0; a column that is neither numeric nor a date
    column keeps every other cell; a numeric column holds a number, the
    cell's own when that is a number within 2^53 in magnitude; a date
    column holds a timestamp or the number 0 and, when its present cells
    are offsets only or timestamps only, the timestamp of the cell, 0 for a
    missing one.  No row is dropped, added or mixed with another. *)
Theorem process_acts_row_by_row `{Parsers} (v : variant) (df out : DataFrame) :
  process_of v df = Ok out →
  columns out = columns df ∧
  ∃ raw, raw ≡ₚ rows df ∧
    Forall2 (λ r r',
               label r' = label r ∧
               ∀ c, c ∈ columns df →
                 (at_ r c = NaN → at_ r' c = Num 0) ∧
                 (c ∉ numeric_cols_of v → c ∉ date_cols_of v →
                  at_ r' c = fill0 (at_ r c)) ∧
                 (c ∈ numeric_cols_of v →
                  (∃ n, at_ r' c = Num n) ∧
                  (∀ n, at_ r c = Num n → - 2 ^ 53 ≤ n ≤ 2 ^ 53 → at_ r' c = Num n)) ∧
                 (c ∈ date_cols_of v →
                  (at_ r' c = Num 0 ∨ ∃ t, at_ r' c = Date t) ∧
                  (plain_dates (column c df) = true →
                   at_ r' c = match at_ r c with
                              | Num n => Date n
                              | Date t => Date t
                              | _ => Num 0
                              end)))
            raw (rows out).
Proof. apply process_cells. Qed.

(** Two records out of order, the second with a missing count and name,
    processed by [app.py]. *)
Lemma process_acts_row_by_row_witness :
  let df := DataFrame_of_records
              [ Sample.record [("data_iniSE", Num 1704672000000); ("casos", Num 12);
                               ("municipio_nome", Str "Goiânia")];
                Sample.record [("data_iniSE", Num 1704067200000); ("casos", NaN);
                               ("municipio_nome", NaN)] ] in
  ∃ out,
    @process_of Sample.parsers AppPy df = Ok out ∧
    (λ r, (label r, at_ r "data_iniSE", at_ r "casos", at_ r "municipio_nome"))
      <$> rows out
      = [ (1%nat, Date 1704067200000, Num 0, Num 0);
          (0%nat, Date 1704672000000, Num 12, Str "Goiânia") ] ∧
    columns out = columns df.
Proof.
  intros df.
  destruct (@process_of Sample.parsers AppPy df) as [out|e] eqn:E;
    [|vm_compute in E; discriminate E].
  exists out. split; [reflexivity|]. split.
  { assert (E' : (λ d, (λ r, (label r, at_ r "data_iniSE", at_ r "casos",
                               at_ r "municipio_nome")) <$> rows d)
                   <$> @process_of Sample.parsers AppPy df
                 = Ok [ (1%nat, Date 1704067200000, Num 0, Num 0);
                        (0%nat, Date 1704672000000, Num 12, Str "Goiânia") ])
      by (vm_compute; reflexivity).
    rewrite E in E'. by injection E'. }
  exact (proj1 (process_acts_row_by_row (H:=Sample.parsers) AppPy df out E)).
Defined.

(** X2: no cell of a column of the table [process_dengue_data] returns is
    missing, in either variant: [fillna(0)] reaches every column, the
    names and identifiers as well as the numbers and dates. *)
Theorem process_leaves_no_missing_cell `{Parsers} (v : variant) (df out : DataFrame)
    (r : Row) (c : string) :
  process_of v df = Ok out → r ∈ rows out → c ∈ columns out → at_ r c ≠ NaN.
Proof. apply process_no_missing. Qed.

(** One record with a missing date, a count that is no number and a missing
    name, processed by [fetch_data.py]: the name reads 0. *)
Lemma process_leaves_no_missing_cell_witness :
  let df := DataFrame_of_records
              [ Sample.record [("data_iniSE", NaN); ("casos", Str "n/d");
                               ("municipio_nome", NaN)] ] in
  ∃ out r,
    @process_of Sample.parsers FetchDataPy df = Ok out ∧
    rows out = [r] ∧
    at_ r "municipio_nome" ≠ NaN.
Proof.
  intros df.
  destruct (@process_of Sample.parsers FetchDataPy df) as [out|e] eqn:E;
    [|vm_compute in E; discriminate E].
  assert (Hlen : length (rows out) = 1%nat).
  { assert (E' : (λ d, length (rows d)) <$> @process_of Sample.parsers FetchDataPy df
                 = Ok 1%nat) by (vm_compute; reflexivity).
    rewrite E in E'. by injection E'. }
  assert (Hcol : bool_decide ("municipio_nome" ∈ columns out) = true).
  { assert (E' : (λ d, bool_decide ("municipio_nome" ∈ columns d))
                   <$> @process_of Sample.parsers FetchDataPy df
                 = Ok true) by (vm_compute; reflexivity).
    rewrite E in E'. by injection E'. }
  destruct (rows out) as [|r [|? ?]] eqn:Er; try discriminate Hlen.
  exists out, r. split; [reflexivity|]. split; [exact Er|].
  apply (process_leaves_no_missing_cell (H:=Sample.parsers) FetchDataPy df out r
           "municipio_nome" E).
  - rewrite Er. left.
  - by apply bool_decide_eq_true in Hcol.
Defined.

(** X3: on a table whose sort column holds, besides missing cells, offsets
    only or timestamps only, the only exception [process_dengue_data]
    raises is the [TypeError] of the final sort, and it raises it exactly
    when the table is not empty and the date column it sorts by has both a
    present and a missing cell: the latter is filled with the number 0,
    which does not compare with a timestamp. *)
Theorem process_fails_exactly_on_gappy_dates `{Parsers} (v : variant)
    (df : DataFrame) (e : exn) :
  (∀ k, first_present (date_cols_of v) df = Some k →
        plain_dates (column k df) = true) →
  process_of v df = Raise e ↔
  e = TypeError ∧
  empty df = false ∧
  ∃ k, first_present (date_cols_of v) df = Some k ∧
       (∃ r, r ∈ rows df ∧ at_ r k ≠ NaN) ∧
       (∃ r, r ∈ rows df ∧ at_ r k = NaN).
Proof.
  intros Hplain.
  assert (Hiff : ∀ k r, first_present (date_cols_of v) df = Some k → r ∈ rows df →
                        (to_datetime (at_ r k) = NaN ↔ at_ r k = NaN)).
  { intros k r Hk Hr. apply (plain_to_datetime (column k df)); [by apply Hplain|].
    apply list_elem_of_fmap. by exists r. }
  split.
  - intros Hraise. rewrite process_of_shape, process_with_unfold in Hraise.
    destruct (empty df) eqn:He; [done|]. cbv zeta in Hraise.
    destruct (first_present (date_cols_of v) df) as [k|] eqn:Hk; [|done].
    rewrite <- list_fmap_compose in Hraise.
    destruct (homogeneous _) eqn:Hh; [done|]. injection Hraise as <-.
    split; [done|]. split; [done|]. exists k. split; [done|].
    destruct (decide (Exists (λ r, at_ r k ≠ NaN) (rows df))) as [Hex|Hno].
    + destruct (decide (Exists (λ r, at_ r k = NaN) (rows df))) as [Hex'|Hno'].
      { apply Exists_exists in Hex, Hex'. done. }
      exfalso. rewrite <- not_true_iff_false in Hh. apply Hh.
      apply (homogeneous_all_kind 2). intros x Hx _.
      apply list_elem_of_fmap in Hx as (r & -> & Hr). unfold compose.
      rewrite (at_clean_row_key v df r k Hk).
      destruct (decide (to_datetime (at_ r k) = NaN)) as [Hn|Hn].
      { exfalso. apply Hno'. apply Exists_exists. exists r. split; [done|].
        by apply (Hiff k r). }
      apply to_datetime_parsed in Hn as [t ->]. done.
    + exfalso. rewrite <- not_true_iff_false in Hh. apply Hh.
      apply (homogeneous_all_kind 0). intros x Hx _.
      apply list_elem_of_fmap in Hx as (r & -> & Hr). unfold compose.
      rewrite (at_clean_row_key v df r k Hk).
      destruct (decide (to_datetime (at_ r k) = NaN)) as [Hn|Hn].
      { rewrite Hn. done. }
      exfalso. apply Hno. apply Exists_exists. exists r. split; [done|].
      intros Hna. apply Hn. by apply (Hiff k r).
  - intros (-> & He & k & Hk & (r1 & Hr1 & H1) & (r2 & Hr2 & H2)).
    apply (process_fails_on_gappy_dates v df k He Hk).
    + exists r1. split; [done|]. intros Hn. apply H1. by apply (Hiff k r1).
    + exists r2. split; [done|]. by apply (Hiff k r2).
Qed.

(** A dated record and an undated one: both variants raise. *)
Lemma process_fails_exactly_on_gappy_dates_witness :
  let df := DataFrame_of_records
              [ Sample.record [("data_iniSE", Num 1704067200000); ("casos", Num 5)];
                Sample.record [("data_iniSE", NaN); ("casos", Num 7)] ] in
  @process_of Sample.parsers AppPy df = Raise TypeError ∧
  @process_of Sample.parsers FetchDataPy df = Raise TypeError.
Proof.
  intros df.
  assert (Hrows : ∃ r1 r2, rows df = [r1; r2] ∧ at_ r1 "data_iniSE" ≠ NaN
                           ∧ at_ r2 "data_iniSE" = NaN).
  { eexists _, _. split; [vm_compute; reflexivity|]. split; [vm_compute; discriminate|].
    vm_compute. reflexivity. }
  destruct Hrows as (r1 & r2 & Hrows & H1 & H2).
  split.
  - apply (process_fails_exactly_on_gappy_dates (H:=Sample.parsers) AppPy df TypeError).
    + intros k Hk. assert (k = "data_iniSE") as -> by (vm_compute in Hk; congruence).
      vm_compute. reflexivity.
    + split; [done|]. split; [vm_compute; reflexivity|].
      exists "data_iniSE". split; [vm_compute; reflexivity|]. split.
      * exists r1. split; [rewrite Hrows; left|done].
      * exists r2. split; [rewrite Hrows; right; left|done].
  - apply (process_fails_exactly_on_gappy_dates (H:=Sample.parsers) FetchDataPy df TypeError).
    + intros k Hk. assert (k = "data_iniSE") as -> by (vm_compute in Hk; congruence).
      vm_compute. reflexivity.
    + split; [done|]. split; [vm_compute; reflexivity|].
      exists "data_iniSE". split; [vm_compute; reflexivity|]. split.
      * exists r1. split; [rewrite Hrows; left|done].
      * exists r2. split; [rewrite Hrows; right; left|done].
Defined.

(** ** More on the fetches of app.py *)

Lemma extend_pages_run (srv : Z → reply envelope) (pages : list Z)
    (all_items : list (gmap string cell)) (tr : list event) :
  ∃ requested res,
    extend_pages srv all_items pages tr = (tr ++ (RequestedPage <$> requested), res) ∧
    requested `prefix_of` pages.
Proof.
  revert all_items tr. induction pages as [|p pages IH]; intros all_items tr.
  - exists [], (Ok all_items). cbn. rewrite app_nil_r. done.
  - cbn [extend_pages]. rewrite io_bind_run.
    destruct (srv p) as [f|body] eqn:Hp.
    + rewrite (http_get_failed srv p _ f tr Hp).
      exists [p], (Raise RequestException). split; [done|].
      by apply prefix_cons, prefix_nil.
    + rewrite (http_get_success srv p _ body tr Hp).
      destruct (IH (all_items ++ get_items body) (tr ++ [RequestedPage p]))
        as (requested & res & -> & Hpre).
      exists (p :: requested), res. split; [by rewrite <- app_assoc|].
      by apply prefix_cons.
Qed.

Lemma capped_range_prefix (total_pages : Z) :
  range 2 (Z.min (total_pages + 1) 6) `prefix_of` [2; 3; 4; 5].
Proof.
  unfold range.
  assert (Hk : Z.min (total_pages + 1) 6 - 2 ≤ 0 ∨ Z.min (total_pages + 1) 6 - 2 = 1 ∨
               Z.min (total_pages + 1) 6 - 2 = 2 ∨ Z.min (total_pages + 1) 6 - 2 = 3 ∨
               Z.min (total_pages + 1) 6 - 2 = 4) by lia.
  destruct Hk as [Hk|[Hk|[Hk|[Hk|Hk]]]].
  - rewrite seqZ_nil by done. apply prefix_nil.
  - rewrite Hk. by exists [3; 4; 5].
  - rewrite Hk. by exists [4; 5].
  - rewrite Hk. by exists [5].
  - rewrite Hk. by exists [].
Qed.

(** A call under [@st.cache_data]: a hit replays, a miss runs the body. *)
Lemma st_cache_data_hit (entry : cache_entry) (body : io DataFrame) (tr : list event) :
  st_cache_data (Some entry) body tr
  = (tr ++ (if warned entry then [Warned] else []), Ok (stored entry)).
Proof.
  unfold st_cache_data. rewrite io_bind_run.
  destruct (warned entry); [unfold emit|rewrite io_ret_run, app_nil_r]; by rewrite io_ret_run.
Qed.

Lemma st_cache_data_miss (body : io DataFrame) (tr : list event) :
  st_cache_data None body tr = body tr.
Proof. reflexivity. Qed.

(** The pages [app.py] requests: page 1, then a prefix of 2, ..., 5. *)
Lemma App_collect_first_page (srv : Z → reply envelope) (tr : list event) :
  ∃ requested res,
    App.collect_items srv tr = (tr ++ (RequestedPage <$> 1 :: requested), res) ∧
    1 :: requested `prefix_of` [1; 2; 3; 4; 5].
Proof.
  unfold App.collect_items. rewrite io_bind_run.
  destruct (srv 1) as [f|first] eqn:H1.
  - rewrite (http_get_failed srv 1 _ f tr H1).
    exists [], (Raise RequestException). split; [done|].
    by apply prefix_cons, prefix_nil.
  - rewrite (http_get_success srv 1 _ first tr H1). cbv zeta.
    destruct (extend_pages_run srv (range 2 (Z.min (get_total_pages first + 1) 6))
                (get_items first) (tr ++ [RequestedPage 1]))
      as (requested & res & -> & Hpre).
    exists requested, res. split; [by rewrite <- app_assoc|].
    apply prefix_cons. etrans; [exact Hpre|apply capped_range_prefix].
Qed.

Section app_fetch_runs.
Context `{Parsers}.

Lemma App_state_fetch_run (srv : Z → reply envelope) (tr : list event) :
  ∃ requested rest df,
    App.fetch_infodengue_state_data srv tr
      = (tr ++ (RequestedPage <$> 1 :: requested) ++ rest, Ok df) ∧
    1 :: requested `prefix_of` [1; 2; 3; 4; 5] ∧
    ((rest = [] ∧ ∀ r c, r ∈ rows df → c ∈ columns df → at_ r c ≠ NaN) ∨
     (rest = [LoggedError; Warned] ∧ df = empty_frame)).
Proof.
  unfold App.fetch_infodengue_state_data, try_except. rewrite io_bind_run.
  destruct (App_collect_first_page srv tr) as (requested & res & -> & Hpre).
  exists requested.
  destruct res as [all_items|e].
  - cbv zeta. destruct (empty (DataFrame_of_records all_items)) eqn:He; cbn [negb].
    + exists [], (DataFrame_of_records all_items). rewrite io_ret_run, app_nil_r.
      split; [done|]. split; [done|]. left. split; [done|].
      intros r c Hr Hc. rewrite (empty_true_columns _ c He Hc) in Hr.
      by apply elem_of_nil in Hr.
    + unfold lift.
      destruct (App.process_dengue_data (DataFrame_of_records all_items))
        as [out|e] eqn:Hp.
      * exists [], out. rewrite app_nil_r. split; [done|]. split; [done|]. left.
        split; [done|]. intros r c.
        exact (process_no_missing AppPy _ out r c Hp).
      * exists [LoggedError; Warned], empty_frame. split; [|by auto].
        cbv [mbind io_bind emit mret io_ret]. by rewrite <- !app_assoc.
  - exists [LoggedError; Warned], empty_frame. split; [|by auto].
    cbv [mbind io_bind emit mret io_ret]. by rewrite <- !app_assoc.
Qed.

Lemma App_municipality_fetch_run
    (srv : string → reply payload) (geocode : string) (tr : list event) :
  ∃ rest df,
    App.fetch_municipality_data srv geocode tr
      = (tr ++ RequestedCity geocode :: rest, Ok df) ∧
    ((rest = [] ∧ (∃ data, srv geocode = Success data) ∧
      ∀ r c, r ∈ rows df → c ∈ columns df → at_ r c ≠ NaN) ∨
     (rest = [LoggedError] ∧ df = empty_frame)) ∧
    ((∃ f, srv geocode = Failed f) → rest = [LoggedError] ∧ df = empty_frame).
Proof.
  unfold App.fetch_municipality_data, try_except. rewrite io_bind_run.
  destruct (srv geocode) as [f|data] eqn:Hsrv.
  - rewrite (http_get_failed srv geocode _ f tr Hsrv).
    exists [LoggedError], empty_frame.
    split; [cbv [mbind io_bind emit mret io_ret]; by rewrite <- !app_assoc|].
    split; [by right|done].
  - rewrite (http_get_success srv geocode _ data tr Hsrv). cbv zeta.
    destruct (empty (App.normalize data)) eqn:He; cbn [negb].
    + exists [], (App.normalize data). rewrite io_ret_run.
      split; [done|]. split; [|by intros [? [=]]]. left. split; [done|].
      split; [by eexists|]. intros r c Hr Hc.
      rewrite (empty_true_columns _ c He Hc) in Hr. by apply elem_of_nil in Hr.
    + unfold lift. destruct (App.process_dengue_data (App.normalize data))
        as [out|e] eqn:Hp.
      * exists [], out. split; [done|]. split; [|by intros [? [=]]]. left.
        split; [done|]. split; [by eexists|]. intros r c.
        exact (process_no_missing AppPy _ out r c Hp).
      * exists [LoggedError], empty_frame.
        split; [cbv [mbind io_bind emit mret io_ret]; by rewrite <- !app_assoc|].
        split; [by right|by intros [? [=]]].
Qed.

End app_fetch_runs.

(** X4: the decorated [fetch_infodengue_state_data] of app.py never lets an
    exception out.  On a cache hit it issues no request and returns the
    stored table, Streamlit showing again the warning stored with it.
    Otherwise it requests page 1, then the following pages in order, never
    more than five, and ends in one of two ways: it returns a table without
    a missing cell, no error logged and no warning shown, or it logs an
    error, warns the user and returns the empty table. *)
Theorem app_state_fetch_outcomes `{Parsers} (hit : option cache_entry)
    (srv : Z → reply envelope) (tr : list event) :
  ∃ shown df,
    CachedApp.fetch_infodengue_state_data hit srv tr = (tr ++ shown, Ok df) ∧
    match hit with
    | Some entry =>
        shown = (if warned entry then [Warned] else []) ∧ df = stored entry
    | None =>
        ∃ requested rest,
          shown = (RequestedPage <$> 1 :: requested) ++ rest ∧
          1 :: requested `prefix_of` [1; 2; 3; 4; 5] ∧
          ((rest = [] ∧ ∀ r c, r ∈ rows df → c ∈ columns df → at_ r c ≠ NaN) ∨
           (rest = [LoggedError; Warned] ∧ df = empty_frame))
    end.
Proof.
  unfold CachedApp.fetch_infodengue_state_data. destruct hit as [entry|].
  - rewrite st_cache_data_hit. by eexists _, _.
  - rewrite st_cache_data_miss.
    destruct (App_state_fetch_run srv tr) as (requested & rest & df & -> & Hpre & Hout).
    eexists _, df. split; [reflexivity|]. by exists requested, rest.
Qed.

(** X5: one date that does not parse blanks the state-wide table of
    app.py.  When every page is fetched and the sort column of the records
    holds a date that parses beside one that does not, the [TypeError] of
    [process_dengue_data] is caught by the fetch, which logs, warns and
    returns the empty table. *)
Theorem app_state_fetch_blanked_by_gappy_dates `{Parsers}
    (srv : Z → reply envelope) (tr tr' : list event)
    (all_items : list (gmap string cell)) (k : string) :
  App.collect_items srv tr = (tr', Ok all_items) →
  first_present ["data_iniSE"; "data_ini_SE"] (DataFrame_of_records all_items) = Some k →
  (∃ rec, rec ∈ all_items ∧ to_datetime (default NaN (rec !! k)) ≠ NaN) →
  (∃ rec, rec ∈ all_items ∧ to_datetime (default NaN (rec !! k)) = NaN) →
  App.fetch_infodengue_state_data srv tr
    = (tr' ++ [LoggedError; Warned], Ok empty_frame).
Proof.
  intros Hrun Hk (rec1 & Hin1 & Hp1) (rec2 & Hin2 & Hp2).
  assert (Hcol : ∀ rec, rec ∈ all_items →
            ∃ r, r ∈ rows (DataFrame_of_records all_items) ∧
                 at_ r k = default NaN (rec !! k)).
  { intros rec Hin. apply list_elem_of_lookup in Hin as [i Hi].
    eexists. split.
    - apply list_elem_of_lookup. exists i.
      rewrite DataFrame_of_records_lookup, Hi. done.
    - apply at_record_row. }
  assert (Hraise : process_of AppPy (DataFrame_of_records all_items) = Raise TypeError).
  { apply process_fails_on_gappy_dates with k; [|done|..].
    - apply not_true_iff_false. intros He.
      apply first_present_Some in Hk as [_ Hin].
      pose proof (empty_true_columns _ k He Hin) as Hnil.
      destruct (Hcol rec1 Hin1) as (r & Hr & _). rewrite Hnil in Hr.
      by apply elem_of_nil in Hr.
    - destruct (Hcol rec1 Hin1) as (r & Hr & Hat). exists r. by rewrite Hat.
    - destruct (Hcol rec2 Hin2) as (r & Hr & Hat). exists r. by rewrite Hat. }
  assert (He : empty (DataFrame_of_records all_items) = false).
  { destruct (empty _) eqn:He; [|done].
    rewrite process_empty in Hraise by done. discriminate. }
  unfold App.fetch_infodengue_state_data, try_except. rewrite io_bind_run, Hrun.
  cbv zeta. rewrite He. cbn [negb]. unfold lift.
  change (App.process_dengue_data (DataFrame_of_records all_items))
    with (process_of AppPy (DataFrame_of_records all_items)).
  rewrite Hraise. cbv [mbind io_bind emit mret io_ret]. by rewrite <- !app_assoc.
Qed.

(** One page of two records, the date of the second one a text that is no
    date. *)
Lemma app_state_fetch_blanked_by_gappy_dates_witness :
  let srv : Z → reply envelope := λ _,
    Success (mkEnvelope
               (Some [ Sample.record [("data_iniSE", Str "2024-01-01"); ("casos", Num 5)];
                       Sample.record [("data_iniSE", Str "sem data"); ("casos", Num 7)] ])
               None) in
  @App.fetch_infodengue_state_data Sample.parsers srv []
    = ([RequestedPage 1; LoggedError; Warned], Ok empty_frame).
Proof.
  intros srv.
  apply (app_state_fetch_blanked_by_gappy_dates (H:=Sample.parsers) srv []
           [RequestedPage 1]
           [ Sample.record [("data_iniSE", Str "2024-01-01"); ("casos", Num 5)];
             Sample.record [("data_iniSE", Str "sem data"); ("casos", Num 7)] ]
           "data_iniSE").
  - vm_compute. reflexivity.
  - vm_compute. reflexivity.
  - eexists. split; [left|]. vm_compute. discriminate.
  - eexists. split; [right; left|]. vm_compute. reflexivity.
Defined.

(** X6: the decorated [fetch_municipality_data] of app.py never lets an
    exception out.  On a cache hit it issues no request and returns the
    stored table.  Otherwise it issues exactly one request, and it either
    returns a table without a missing cell, no error logged, or logs one
    error (without a warning) and returns the empty table; a failed request
    always ends the second way. *)
Theorem app_municipality_fetch_outcomes `{Parsers} (hit : option cache_entry)
    (srv : string → reply payload) (geocode : string) (tr : list event) :
  ∃ shown df,
    CachedApp.fetch_municipality_data hit srv geocode tr = (tr ++ shown, Ok df) ∧
    match hit with
    | Some entry =>
        shown = (if warned entry then [Warned] else []) ∧ df = stored entry
    | None =>
        ∃ rest,
          shown = RequestedCity geocode :: rest ∧
          ((rest = [] ∧ (∃ data, srv geocode = Success data) ∧
            ∀ r c, r ∈ rows df → c ∈ columns df → at_ r c ≠ NaN) ∨
           (rest = [LoggedError] ∧ df = empty_frame)) ∧
          ((∃ f, srv geocode = Failed f) → rest = [LoggedError] ∧ df = empty_frame)
    end.
Proof.
  unfold CachedApp.fetch_municipality_data. destruct hit as [entry|].
  - rewrite st_cache_data_hit. by eexists _, _.
  - rewrite st_cache_data_miss.
    destruct (App_municipality_fetch_run srv geocode tr) as (rest & df & -> & Hout).
    eexists _, df. split; [reflexivity|]. by exists rest.
Qed.

(** X7: the record the single-municipality view of app.py shows, the last
    row of the fetched table, is a record of the latest date: no row of
    the table comes after it in the order of the date column the table was
    sorted by. *)
Theorem app_shows_the_latest_record `{Parsers}
    (srv : string → reply payload) (geocode : string) (tr tr' : list event) (o : Row) :
  AppMain.latest_record srv geocode tr = (tr', Ok (Some o)) →
  ∃ df_muni,
    App.fetch_municipality_data srv geocode tr = (tr', Ok df_muni) ∧
    last (rows df_muni) = Some o ∧
    ∀ k r, first_present ["data_iniSE"; "data_ini_SE"] df_muni = Some k →
           r ∈ rows df_muni →
           cell_le (at_ r k) (at_ o k) = true.
Proof.
  unfold AppMain.latest_record. rewrite io_bind_run.
  unfold App.fetch_municipality_data, try_except. rewrite io_bind_run.
  destruct (srv geocode) as [f|data] eqn:Hsrv.
  - rewrite (http_get_failed srv geocode _ f tr Hsrv).
    cbv [mbind io_bind emit mret io_ret]. cbn. intros [=].
  - rewrite (http_get_success srv geocode _ data tr Hsrv). cbv zeta.
    destruct (empty (App.normalize data)) eqn:He; cbn [negb].
    + rewrite io_ret_run, He, io_ret_run. intros [=].
    + unfold lift. destruct (App.process_dengue_data (App.normalize data))
        as [out|e] eqn:Hp.
      * destruct (empty out) eqn:He'; rewrite io_ret_run; [intros [=]|].
        intros [= <- Hlast]. exists out. split; [done|]. split; [done|].
        intros k r Hk Hr.
        destruct (process_rows AppPy _ out Hp He) as (Hcols & _).
        rewrite (first_present_columns _ (App.normalize data) out Hcols) in Hk.
        pose proof (process_output_sorted AppPy _ out k Hp Hk) as Hsorted.
        apply (StronglySorted_last _ _ o r (λ y, cell_le_refl _) Hsorted Hlast Hr).
      * cbv [mbind io_bind emit mret io_ret]. cbn. intros [=].
Qed.

(** Two weeks of one municipality, the later one first in the reply. *)
Lemma app_shows_the_latest_record_witness :
  let srv : string → reply payload := λ _,
    Success (PList [ Sample.record [("data_iniSE", Str "2024-01-08"); ("casos", Num 5)];
                     Sample.record [("data_iniSE", Str "2024-01-01"); ("casos", Num 7)] ]) in
  ∃ o df_muni,
    @App.fetch_municipality_data Sample.parsers srv "3301500" []
      = ([RequestedCity "3301500"], Ok df_muni) ∧
    last (rows df_muni) = Some o ∧
    at_ o "casos" = Num 5 ∧
    ∀ k r, first_present ["data_iniSE"; "data_ini_SE"] df_muni = Some k →
           r ∈ rows df_muni →
           cell_le (at_ r k) (at_ o k) = true.
Proof.
  intros srv.
  destruct (@AppMain.latest_record Sample.parsers srv "3301500" [])
    as [tr' [[o|]|e]] eqn:E; try (vm_compute in E; discriminate E).
  assert (Htr : tr' = [RequestedCity "3301500"]).
  { assert (E' : (@AppMain.latest_record Sample.parsers srv "3301500" []).1
                 = [RequestedCity "3301500"]) by (vm_compute; reflexivity).
    rewrite E in E'. exact E'. }
  assert (Hcasos : at_ o "casos" = Num 5).
  { assert (E' : fmap (M:=result) (fmap (M:=option) (λ r, at_ r "casos"))
                   (@AppMain.latest_record Sample.parsers srv "3301500" []).2
                 = Ok (Some (Num 5))) by (vm_compute; reflexivity).
    rewrite E in E'. by injection E'. }
  subst tr'.
  destruct (app_shows_the_latest_record (H:=Sample.parsers) srv "3301500" []
              [RequestedCity "3301500"] o E) as (df_muni & Hf & Hl & Hle).
  exists o, df_muni. split; [exact Hf|]. split; [exact Hl|]. split; [exact Hcasos|exact Hle].
Defined.

(** ** More on the fetches of app_simple.py *)

Section app_simple_fetch.
Context `{Parsers}.

Lemma try_to_datetime_spec (col : string) (df : DataFrame) :
  has_column col df = true →
  columns (AppSimple.try_to_datetime col df) = columns df ∧
  Forall2 (λ r r', label r' = label r ∧ ∀ c, c ≠ col → at_ r' c = at_ r c)
          (rows df) (rows (AppSimple.try_to_datetime col df)).
Proof.
  intros Hcol. unfold AppSimple.try_to_datetime.
  destruct (forallb _ _).
  - split.
    + unfold assign_map. cbn [columns]. apply bool_decide_eq_true in Hcol.
      apply subseteq_union_1_L, singleton_subseteq_l, Hcol.
    + unfold assign_map. cbn [rows].
      apply Forall2_fmap_r, Forall_Forall2_diag, Forall_forall. intros r Hr.
      split; [apply label_set_cell|]. intros c Hne. rewrite at_set_cell.
      by destruct (decide (col = c)).
  - split; [done|]. apply Forall_Forall2_diag, Forall_forall. by intros r _.
Qed.

Lemma try_dates_spec (cols : list string) (df : DataFrame) :
  let df' := foldl (λ d col, if has_column col d
                             then AppSimple.try_to_datetime col d else d) df cols in
  columns df' = columns df ∧
  Forall2 (λ r r', label r' = label r ∧ ∀ c, c ∉ cols → at_ r' c = at_ r c)
          (rows df) (rows df').
Proof.
  revert df. induction cols as [|col cols IH]; intros df.
  - cbn. split; [done|]. apply Forall_Forall2_diag, Forall_forall. by intros r _.
  - cbn [foldl]. cbv zeta.
    set (df1 := if has_column col df then AppSimple.try_to_datetime col df else df).
    assert (H1 : columns df1 = columns df ∧
      Forall2 (λ r r', label r' = label r ∧ ∀ c, c ≠ col → at_ r' c = at_ r c)
              (rows df) (rows df1)).
    { subst df1. destruct (has_column col df) eqn:Hc.
      - by apply try_to_datetime_spec.
      - split; [done|]. apply Forall_Forall2_diag, Forall_forall. by intros r _. }
    destruct H1 as [Hc1 Hr1]. destruct (IH df1) as [Hc2 Hr2].
    split; [by rewrite Hc2|].
    eapply Forall2_trans; [|exact Hr1|exact Hr2].
    intros r r1 r2 [Hl1 Hat1] [Hl2 Hat2]. split; [by rewrite Hl2|].
    intros c Hnot. apply not_elem_of_cons in Hnot as [Hne Hnot].
    rewrite (Hat2 c Hnot). by apply Hat1.
Qed.

Lemma AppSimple_fetch_run (srv : string → reply payload) (geocode : string)
    (tr : list event) :
  AppSimple.fetch_infodengue_data srv geocode tr
  = (tr ++ RequestedCity geocode
        :: match srv geocode with Failed _ => [LoggedError] | Success _ => [] end,
     Ok match srv geocode with
        | Failed _ => empty_frame
        | Success data =>
            match AppSimple.normalize data with
            | None => empty_frame
            | Some df =>
                foldl (λ d col, if has_column col d
                                then AppSimple.try_to_datetime col d else d)
                      df ["data_iniSE"; "data_ini_SE"; "data"]
            end
        end).
Proof.
  unfold AppSimple.fetch_infodengue_data, try_except. rewrite io_bind_run.
  destruct (srv geocode) as [f|data] eqn:Hs.
  - rewrite (http_get_failed _ _ _ _ _ Hs).
    cbv [mbind io_bind emit mret io_ret]. by rewrite <- !app_assoc.
  - rewrite (http_get_success _ _ _ _ _ Hs).
    destruct (AppSimple.normalize data); rewrite io_ret_run; done.
Qed.

Lemma fetched_run (srv : string → reply payload) (geocode : Z) (tr : list event) :
  AppSimple.fetch_infodengue_data srv (pretty geocode) tr
  = (tr ++ RequestedCity (pretty geocode)
        :: match srv (pretty geocode) with
           | Failed _ => [LoggedError] | Success _ => [] end,
     Ok (AppSimple.fetched srv geocode)).
Proof.
  unfold AppSimple.fetched. rewrite !AppSimple_fetch_run. done.
Qed.


(** The table [fetch_infodengue_data] of app_simple.py makes of the records
    of a reply: their columns and rows, with every cell outside the date
    columns as it came. *)
Lemma try_dates_keep (recs : list (gmap string cell)) :
  let df := foldl (λ d col, if has_column col d
                            then AppSimple.try_to_datetime col d else d)
                  (DataFrame_of_records recs) ["data_iniSE"; "data_ini_SE"; "data"] in
  columns df = ⋃ (dom <$> recs) ∧
  label <$> rows df = seq 0 (length recs) ∧
  ∀ r rec c,
    r ∈ rows df → recs !! label r = Some rec →
    c ∉ ["data_iniSE"; "data_ini_SE"; "data"] →
    at_ r c = default NaN (rec !! c).
Proof.
  intros df.
  destruct (try_dates_spec ["data_iniSE"; "data_ini_SE"; "data"]
              (DataFrame_of_records recs)) as [Hcols Hrows].
  fold df in Hcols, Hrows. split; [done|]. split.
  - rewrite <- DataFrame_of_records_labels. symmetry.
    clear -Hrows. induction Hrows as [|r r' l l' [Hl _] _ IH]; [done|].
    cbn. by rewrite Hl, IH.
  - intros r rec c Hr Hrec Hc.
    apply list_elem_of_lookup in Hr as [i Hi].
    destruct (Forall2_lookup_r _ _ _ _ _ Hrows Hi) as (r0 & Hr0 & Hl & Hat).
    apply list_elem_of_lookup_2, DataFrame_of_records_row in Hr0
      as (rec0 & Hrec0 & Hat0).
    rewrite (Hat c Hc), Hat0. rewrite Hl, Hrec0 in Hrec. congruence.
Qed.

Lemma CachedAppSimple_fetch_run (cache : string → option cache_entry)
    (srv : string → reply payload) (geocode : string) (tr : list event) :
  CachedAppSimple.fetch_infodengue_data cache srv geocode tr
  = match cache geocode with
    | Some entry => (tr ++ (if warned entry then [Warned] else []), Ok (stored entry))
    | None => AppSimple.fetch_infodengue_data srv geocode tr
    end.
Proof.
  unfold CachedAppSimple.fetch_infodengue_data.
  destruct (cache geocode) as [entry|]; [apply st_cache_data_hit|done].
Qed.

Lemma CachedAppSimple_collect_trace (cache : string → option cache_entry)
    (srv : string → reply payload)
    (table : list (Z * string)) (all_data : list DataFrame) (tr : list event) :
  ∃ frames,
    CachedAppSimple.collect_municipalities cache srv table all_data tr
    = (tr ++ (table ≫= λ entry,
                match cache (pretty entry.1) with
                | Some e => if warned e then [Warned] else []
                | None =>
                    RequestedCity (pretty entry.1)
                      :: match srv (pretty entry.1) with
                         | Failed _ => [LoggedError]
                         | Success _ => []
                         end
                end),
       Ok frames).
Proof.
  revert all_data tr. induction table as [|[geocode name] table IH];
    intros all_data tr.
  - exists all_data. cbn [CachedAppSimple.collect_municipalities].
    rewrite io_ret_run. cbn. by rewrite app_nil_r.
  - cbn [CachedAppSimple.collect_municipalities]. rewrite io_bind_run.
    rewrite CachedAppSimple_fetch_run, bind_cons. cbn [fst snd].
    destruct (cache (pretty geocode)) as [e|].
    + destruct (empty (stored e)); cbn [negb]; cbv zeta.
      * destruct (IH all_data (tr ++ (if warned e then [Warned] else [])))
          as [frames ->].
        exists frames. by rewrite <- app_assoc.
      * destruct (IH (all_data ++
           [assign_const "municipio_geocodigo" (Num geocode)
              (assign_const "municipio_nome" (Str name) (stored e))])
           (tr ++ (if warned e then [Warned] else []))) as [frames ->].
        exists frames. by rewrite <- app_assoc.
    + rewrite fetched_run.
      destruct (empty (AppSimple.fetched srv geocode)); cbn [negb]; cbv zeta.
      * edestruct IH as [frames ->]. exists frames. by rewrite <- !app_assoc.
      * edestruct IH as [frames ->]. exists frames. by rewrite <- !app_assoc.
Qed.

End app_simple_fetch.







(** X8: the decorated [fetch_infodengue_data] of app_simple.py never lets
    an exception out.  On a cache hit it issues no request and returns the
    stored table.  Otherwise it issues one request.  When the request fails
    it logs one error and returns the empty table.  When it is answered
    with a list of records, or with one record, the table has the columns
    of the records and one row per record under the labels 0, 1, ..., and
    outside the three date columns every cell is the record's field (of a
    number, within 2^53 in magnitude).  Any other answer gives the empty
    table. *)
Theorem app_simple_fetch_keeps_every_field `{Parsers}
    (cache : string → option cache_entry)
    (srv : string → reply payload) (geocode : string) (tr : list event) :
  let table_of (recs : list (gmap string cell)) (df : DataFrame) : Prop :=
    columns df = ⋃ (dom <$> recs) ∧
    label <$> rows df = seq 0 (length recs) ∧
    ∀ r rec c,
      r ∈ rows df → recs !! label r = Some rec →
      c ∉ ["data_iniSE"; "data_ini_SE"; "data"] →
      float_exact (default NaN (rec !! c)) = true →
      at_ r c = default NaN (rec !! c) in
  ∃ shown df,
    CachedAppSimple.fetch_infodengue_data cache srv geocode tr = (tr ++ shown, Ok df) ∧
    match cache geocode with
    | Some entry =>
        shown = (if warned entry then [Warned] else []) ∧ df = stored entry
    | None =>
        match srv geocode with
        | Failed _ => shown = [RequestedCity geocode; LoggedError] ∧ df = empty_frame
        | Success data =>
            shown = [RequestedCity geocode] ∧
            match data with
            | PList l => table_of l df
            | PDict rec => table_of [rec] df
            | POther _ => df = empty_frame
            end
        end
    end.
Proof.
  intros table_of. rewrite CachedAppSimple_fetch_run.
  destruct (cache geocode) as [entry|]; [by eexists _, _|].
  rewrite AppSimple_fetch_run. eexists _, _. split; [reflexivity|].
  destruct (srv geocode) as [f|[l|rec|v]]; [done|..]; (split; [done|]); cbn [AppSimple.normalize].
  - destruct (try_dates_keep l) as (Hc & Hl & Hat). split; [done|]. split; [done|].
    intros r rec c Hr Hrec Hd _. by apply Hat.
  - destruct (try_dates_keep [rec]) as (Hc & Hl & Hat). split; [done|]. split; [done|].
    intros r rec' c Hr Hrec Hd _. by apply Hat.
  - done.
Qed.


(** X10: the decorated [fetch_all_municipalities_data].  On a cache hit it
    issues no request.  Otherwise it goes through the municipalities of the
    static table in order: a municipality with a live cache entry is not
    requested, every other one is requested exactly once, and one error is
    logged after each request that fails; a failure stops nothing. *)
Theorem consolidated_fetch_requests_every_municipality `{Parsers}
    (hit : option cache_entry) (cache : string → option cache_entry)
    (srv : string → reply payload) (tr : list event) :
  (CachedAppSimple.fetch_all_municipalities_data hit cache srv tr).1
  = tr ++ match hit with
          | Some entry => if warned entry then [Warned] else []
          | None =>
              AppSimple.GOIAS_MUNICIPALITIES ≫= λ entry,
                match cache (pretty entry.1) with
                | Some e => if warned e then [Warned] else []
                | None =>
                    RequestedCity (pretty entry.1)
                      :: match srv (pretty entry.1) with
                         | Failed _ => [LoggedError]
                         | Success _ => []
                         end
                end
          end.
Proof.
  unfold CachedAppSimple.fetch_all_municipalities_data.
  destruct hit as [entry|]; [by rewrite st_cache_data_hit|].
  rewrite st_cache_data_miss, io_bind_run.
  remember AppSimple.GOIAS_MUNICIPALITIES as table eqn:Htable. clear Htable.
  destruct (CachedAppSimple_collect_trace cache srv table [] tr) as [frames ->].
  by case_bool_decide.
Qed.

(** ** More on the snapshot *)

Section groups_more.
Context (key : Row → cell).

Lemma last_of_each_group_keys (l : list Row) (v : cell) :
  v ∈ key <$> last_of_each_group key l ↔ v ≠ NaN ∧ v ∈ key <$> l.
Proof.
  induction l as [|r l IH]; cbn [last_of_each_group].
  - rewrite fmap_nil. split; [by intros ?%elem_of_nil|by intros [_ ?%elem_of_nil]].
  - rewrite fmap_cons, (elem_of_cons (key <$> l)).
    case_bool_decide as Hn.
    { rewrite IH. split; [tauto|]. intros [Hv [->|Hin]]; [done|tauto]. }
    case_bool_decide as Hin'.
    { rewrite IH. split; [tauto|]. intros [Hv [->|Hin]]; [|tauto]. tauto. }
    rewrite fmap_cons, elem_of_cons, IH. split.
    + intros [->|[? ?]]; tauto.
    + intros [Hv [->|Hin]]; tauto.
Qed.

Lemma last_of_each_group_NoDup (l : list Row) :
  NoDup (key <$> last_of_each_group key l).
Proof.
  induction l as [|r l IH]; cbn [last_of_each_group]; [constructor|].
  case_bool_decide as Hn; [done|]. case_bool_decide as Hin; [done|].
  rewrite fmap_cons. constructor; [|done].
  intros Hk. apply last_of_each_group_keys in Hk. tauto.
Qed.

Lemma last_of_each_group_fixed (l : list Row) :
  NoDup (key <$> l) → (∀ r, r ∈ l → key r ≠ NaN) → last_of_each_group key l = l.
Proof.
  induction l as [|r l IH]; [done|]. rewrite fmap_cons. intros Hnd Hpresent.
  apply NoDup_cons in Hnd as [Hnotin Hnd]. cbn [last_of_each_group].
  rewrite bool_decide_eq_false_2 by (apply Hpresent; left).
  rewrite bool_decide_eq_false_2 by done.
  f_equal. apply IH; [done|]. intros r' Hr'. apply Hpresent. by right.
Qed.

Lemma last_of_each_group_sorted (R : relation Row) (l : list Row) :
  StronglySorted R l → StronglySorted R (last_of_each_group key l).
Proof.
  induction 1 as [|r l Hl IH Hall]; cbn [last_of_each_group]; [constructor|].
  case_bool_decide; [done|]. case_bool_decide; [done|].
  constructor; [done|]. apply Forall_forall. intros x Hx.
  apply last_of_each_group_elem in Hx as [Hx _].
  rewrite Forall_forall in Hall. by apply Hall.
Qed.

Lemma last_of_each_group_length (l : list Row) :
  length (last_of_each_group key l)
  = length (remove_dups (filter (λ v, v ≠ NaN) (key <$> l))).
Proof.
  rewrite <- (length_fmap key). apply Permutation_length.
  apply NoDup_Permutation.
  - apply last_of_each_group_NoDup.
  - apply NoDup_remove_dups.
  - intros v. rewrite last_of_each_group_keys, elem_of_remove_dups, list_elem_of_filter.
    done.
Qed.

End groups_more.

Lemma homogeneous_subset (l k : list cell) :
  (∀ v, v ∈ k → v ∈ l) → homogeneous l = true → homogeneous k = true.
Proof.
  intros Hsub Hl. apply homogeneous_spec. intros a b Ha Hb.
  rewrite homogeneous_spec in Hl. apply Hl; by apply Hsub.
Qed.

Lemma remove_dups_length_perm (l k : list cell) :
  l ≡ₚ k → length (remove_dups l) = length (remove_dups k).
Proof.
  intros Hp. apply Permutation_length, NoDup_Permutation; try apply NoDup_remove_dups.
  intros v. rewrite !elem_of_remove_dups. by rewrite Hp.
Qed.

Lemma sort_values_Ok (c : string) (df sorted : DataFrame) :
  sort_values c df = Ok sorted →
  has_column c df = true ∧ homogeneous (column c df) = true ∧
  sorted = mkDF (columns df) (stable_sort (λ r, at_ r c) (rows df)).
Proof.
  unfold sort_values. destruct (has_column c df); [|done].
  destruct (homogeneous _); [|done]. by intros [= <-].
Qed.

Lemma AppSimple_latest_columns (df snap : DataFrame) :
  AppSimple.latest_per_municipality df = Ok snap → columns snap = columns df.
Proof.
  unfold AppSimple.latest_per_municipality. cbv zeta.
  destruct (has_column (AppSimple.geocode_col df) df) eqn:Hg.
  - destruct (sort_values _ df) as [sorted|] eqn:Hs; [|done].
    apply sort_values_Ok in Hs as (_ & _ & ->). cbn.
    unfold groupby_tail1. cbn [columns].
    change (has_column (AppSimple.geocode_col df) (mkDF (columns df) _))
      with (has_column (AppSimple.geocode_col df) df). rewrite Hg.
    by intros [= <-].
  - destruct (sort_values _ df) as [sorted|] eqn:Hs; [|done].
    apply sort_values_Ok in Hs as (_ & _ & ->). cbn.
    destruct (drop_duplicates _ df); [|done]. cbn. by intros [= <-].
Qed.

(** X11: when the table has an identifier column, the snapshot of latest
    records is in ascending order of the date, has pairwise distinct
    identifiers, and has as many rows as the table has distinct identifiers
    that are present; taking the latest records of the snapshot returns the
    rows of the snapshot again, possibly in another order. *)
Theorem snapshot_is_sorted_and_repeatable (df snap : DataFrame) :
  has_column (AppSimple.geocode_col df) df = true →
  AppSimple.latest_per_municipality df = Ok snap →
  StronglySorted (key_le (λ r, at_ r (AppSimple.date_col df))) (rows snap) ∧
  NoDup (column (AppSimple.geocode_col df) snap) ∧
  length (rows snap)
    = length (remove_dups (filter (λ v, v ≠ NaN) (column (AppSimple.geocode_col df) df))) ∧
  ∃ again,
    AppSimple.latest_per_municipality snap = Ok again ∧
    columns again = columns snap ∧
    rows again ≡ₚ rows snap.
Proof.
  intros Hg Hsnap.
  assert (Hshape : ∃ sorted, sort_values (AppSimple.date_col df) df = Ok sorted ∧
                     groupby_tail1 (AppSimple.geocode_col df) sorted = Ok snap).
  { revert Hsnap. unfold AppSimple.latest_per_municipality. cbv zeta. rewrite Hg.
    destruct (sort_values _ df) as [sorted|]; [|done]. cbn. by exists sorted. }
  destruct Hshape as (sorted & Hs & Hgt).
  apply sort_values_Ok in Hs as (Hd & Hh & ->).
  unfold groupby_tail1 in Hgt. cbn [columns rows] in Hgt.
  change (has_column (AppSimple.geocode_col df) (mkDF (columns df) _))
    with (has_column (AppSimple.geocode_col df) df) in Hgt.
  rewrite Hg in Hgt. injection Hgt as <-. cbn [rows].
  set (d := AppSimple.date_col df) in *. set (g := AppSimple.geocode_col df) in *.
  assert (Hsorted : StronglySorted (key_le (λ r, at_ r d))
            (last_of_each_group (λ r, at_ r g) (stable_sort (λ r, at_ r d) (rows df))))
    by apply last_of_each_group_sorted, stable_sort_sorted.
  split; [done|]. split; [apply last_of_each_group_NoDup|]. split.
  { rewrite last_of_each_group_length. apply remove_dups_length_perm.
    unfold column. by rewrite (stable_sort_perm _ (rows df)). }
  exists (mkDF (columns df)
            (last_of_each_group (λ r, at_ r g) (stable_sort (λ r, at_ r d) (rows df)))).
  split; [|done].
  unfold AppSimple.latest_per_municipality. cbv zeta.
  change (AppSimple.date_col (mkDF (columns df) _)) with d.
  change (AppSimple.geocode_col (mkDF (columns df) _)) with g.
  change (has_column g (mkDF (columns df) _)) with (has_column g df). rewrite Hg.
  unfold sort_values.
  change (has_column d (mkDF (columns df) _)) with (has_column d df). rewrite Hd.
  rewrite (homogeneous_subset (column d df)); [|
    intros v Hv; apply list_elem_of_fmap in Hv as (r & -> & Hr);
    apply last_of_each_group_elem in Hr as [Hr _];
    rewrite (stable_sort_perm _ (rows df)) in Hr;
    apply list_elem_of_fmap; by exists r | done].
  cbn [rows columns mbind result_bind]. unfold groupby_tail1.
  change (has_column g (mkDF (columns df) _)) with (has_column g df). rewrite Hg.
  cbn [rows columns]. do 2 f_equal.
  rewrite stable_sort_fixed by (by apply StronglySorted_Sorted).
  apply last_of_each_group_fixed; [apply last_of_each_group_NoDup|].
  intros r Hr. by apply last_of_each_group_elem in Hr as [_ ?].
Qed.

(** Two municipalities, the first one with two weeks out of order. *)
Lemma snapshot_is_sorted_and_repeatable_witness :
  let df := DataFrame_of_records
              [ Sample.record [("municipio_geocodigo", Num 5103403); ("data_iniSE", Date 19730)];
                Sample.record [("municipio_geocodigo", Num 5104402); ("data_iniSE", Date 19723)];
                Sample.record [("municipio_geocodigo", Num 5103403); ("data_iniSE", Date 19723)] ] in
  ∃ snap again,
    AppSimple.latest_per_municipality df = Ok snap ∧
    label <$> rows snap = [1%nat; 0%nat] ∧
    AppSimple.latest_per_municipality snap = Ok again ∧
    rows again ≡ₚ rows snap.
Proof.
  intros df.
  destruct (AppSimple.latest_per_municipality df) as [snap|e] eqn:E;
    [|vm_compute in E; discriminate E].
  destruct (snapshot_is_sorted_and_repeatable df snap) as (_ & _ & _ & again & Ha & _ & Hp);
    [vm_compute; reflexivity|exact E|].
  exists snap, again. split; [reflexivity|]. split; [|split; [exact Ha|exact Hp]].
  assert (E' : (λ d, label <$> rows d) <$> AppSimple.latest_per_municipality df
               = Ok [1%nat; 0%nat]) by (vm_compute; reflexivity).
  rewrite E in E'. by injection E'.
Defined.

(** ** More on the alert distribution *)

Lemma nivel_counts_Ok (snap : DataFrame) :
  homogeneous (column "nivel" snap) = true →
  ∃ counts, nivel_counts snap = Ok counts.
Proof.
  intros Hh. unfold nivel_counts, sort_index.
  rewrite (homogeneous_subset (column "nivel" snap)); [by eexists| |done].
  intros v Hv. apply value_counts_key in Hv. tauto.
Qed.

Lemma process_sorted_column `{Parsers} (v : variant) (df out : DataFrame) (k : string) :
  process_of v df = Ok out → empty df = false →
  first_present (date_cols_of v) df = Some k →
  homogeneous (column k out) = true.
Proof.
  intros Hp He Hk. rewrite process_of_shape, process_with_unfold, He in Hp.
  cbv zeta in Hp. rewrite Hk in Hp.
  destruct (homogeneous _) eqn:Hh; [|done]. injection Hp as <-.
  unfold column. cbn [rows].
  refine (homogeneous_subset _ _ _ Hh).
  intros x Hx. apply list_elem_of_fmap in Hx as (r & -> & Hr).
  rewrite (stable_sort_perm _ _) in Hr. apply list_elem_of_fmap. by exists r.
Qed.

(** X12: on a table that [process_dengue_data] of app.py returned, with
    its level, date and identifier columns and levels of one kind, the
    alert chart of app.py is drawn without an exception, its bars add up
    to the number of rows of the snapshot, and that is the number of
    distinct identifiers of the table: after processing no level and no
    identifier is missing, so no municipality is left out. *)
Theorem app_chart_counts_every_municipality `{Parsers} (raw df : DataFrame) :
  App.process_dengue_data raw = Ok df →
  empty df = false →
  has_column "nivel" df = true →
  has_column "data_iniSE" df = true →
  has_column "municipio_geocodigo" df = true →
  homogeneous (column "nivel" df) = true →
  ∃ snap chart,
    App.latest_per_municipality df = Ok snap ∧
    App.create_alert_level_distribution df = Ok (Some chart) ∧
    sum_list_with bar_value chart = length (rows snap) ∧
    length (rows snap) = length (remove_dups (column "municipio_geocodigo" df)).
Proof.
  intros Hp He Hn Hd Hg Hh.
  change (process_of AppPy raw = Ok df) in Hp.
  assert (Her : empty raw = false).
  { destruct (empty raw) eqn:Her; [|done].
    rewrite process_empty in Hp by done. injection Hp as <-. congruence. }
  destruct (process_rows AppPy raw df Hp Her) as (Hcols & _).
  assert (Hk : first_present (date_cols_of AppPy) raw = Some "data_iniSE").
  { rewrite <- (first_present_columns _ raw df Hcols).
    change (date_cols_of AppPy) with ["data_iniSE"; "data_ini_SE"].
    unfold first_present. cbn [find]. by rewrite Hd. }
  pose proof (process_sorted_column AppPy raw df _ Hp Her Hk) as Hhd.
  assert (Hdc : AppSimple.date_col df = "data_iniSE")
    by (unfold AppSimple.date_col; by rewrite Hd).
  assert (Hgc : AppSimple.geocode_col df = "municipio_geocodigo")
    by (unfold AppSimple.geocode_col; by rewrite Hg).
  destruct (latest_with_geocode df) as (snap & Hsnap & Happ & Hsc & Hrows);
    [by rewrite Hdc|by rewrite Hdc|by rewrite Hgc|].
  specialize (Happ Hd Hg). rewrite Hdc, Hgc in Hrows.
  assert (Hsub : ∀ r, r ∈ rows snap → r ∈ rows df).
  { intros r Hr. rewrite Hrows in Hr. apply last_of_each_group_elem in Hr as [Hr _].
    by rewrite (stable_sort_perm _ (rows df)) in Hr. }
  destruct (nivel_counts_Ok snap) as [counts Hcounts].
  { apply (homogeneous_subset (column "nivel" df)); [|done].
    intros x Hx. apply list_elem_of_fmap in Hx as (r & -> & Hr).
    apply list_elem_of_fmap. exists r. split; [done|]. by apply Hsub. }
  exists snap, (bars_of_counts counts). split; [done|]. split.
  { unfold App.create_alert_level_distribution. rewrite He, Hn. cbn [negb orb].
    rewrite Happ. cbn [mbind result_bind]. rewrite Hcounts. done. }
  destruct (nivel_counts_spec snap counts Hcounts)
    as (snap' & counts' & [= <-] & _ & _ & _ & _ & _ & _ & _ & Hall).
  split.
  - apply Hall. intros r Hr. apply (process_no_missing AppPy raw df r "nivel" Hp).
    + by apply Hsub.
    + by apply bool_decide_eq_true in Hn.
  - rewrite Hrows, last_of_each_group_length.
    rewrite (filter_all (λ v, v ≠ NaN)).
    + apply remove_dups_length_perm. unfold column.
      by rewrite (stable_sort_perm _ (rows df)).
    + intros x Hx. apply list_elem_of_fmap in Hx as (r & -> & Hr).
      rewrite (stable_sort_perm _ (rows df)) in Hr.
      apply (process_no_missing AppPy raw df r "municipio_geocodigo" Hp Hr).
      by apply bool_decide_eq_true in Hg.
Qed.

(** Two municipalities, the second one without a level: after processing its
    level is 0 and the chart counts both. *)
Lemma app_chart_counts_every_municipality_witness :
  let raw := DataFrame_of_records
              [ Sample.record [("municipio_geocodigo", Num 5103403);
                               ("data_iniSE", Str "2024-01-01"); ("nivel", Num 2)];
                Sample.record [("municipio_geocodigo", Num 5104402);
                               ("data_iniSE", Str "2024-01-01"); ("nivel", NaN)] ] in
  ∃ df snap chart,
    @App.process_dengue_data Sample.parsers raw = Ok df ∧
    App.latest_per_municipality df = Ok snap ∧
    @App.create_alert_level_distribution Sample.parsers df = Ok (Some chart) ∧
    sum_list_with bar_value chart = length (rows snap) ∧
    length (rows snap) = 2%nat.
Proof.
  intros raw.
  destruct (@App.process_dengue_data Sample.parsers raw) as [df|e] eqn:E;
    [|vm_compute in E; discriminate E].
  assert (Hfacts :
    (λ d, (empty d, has_column "nivel" d, has_column "data_iniSE" d,
           has_column "municipio_geocodigo" d, homogeneous (column "nivel" d),
           length (remove_dups (column "municipio_geocodigo" d))))
      <$> @App.process_dengue_data Sample.parsers raw
    = Ok (false, true, true, true, true, 2%nat)) by (vm_compute; reflexivity).
  rewrite E in Hfacts. injection Hfacts as He Hn Hd Hg Hh Hlen.
  destruct (app_chart_counts_every_municipality (H:=Sample.parsers) raw df E He Hn Hd Hg Hh)
    as (snap & chart & Hs & Hc & Hsum & Hsize).
  exists df, snap, chart. split; [reflexivity|]. split; [exact Hs|].
  split; [exact Hc|]. split; [exact Hsum|]. rewrite Hsize. exact Hlen.
Defined.

(** X13: [create_alert_level_distribution] of app.py raises [KeyError]
    on a non-empty table with a level column but no [data_iniSE] column,
    and on one whose dates sort but that has no [municipio_geocodigo]
    column; [create_alert_distribution] of app_simple.py returns [None]
    when neither date column is there. *)
Theorem app_distribution_raises_without_its_columns `{Parsers} (df : DataFrame) :
  empty df = false →
  has_column "nivel" df = true →
  (has_column "data_iniSE" df = false →
   App.create_alert_level_distribution df = Raise (KeyError "data_iniSE") ∧
   (has_column "data_ini_SE" df = false → AppSimple.create_alert_distribution df = None)) ∧
  (has_column "data_iniSE" df = true →
   homogeneous (column "data_iniSE" df) = true →
   has_column "municipio_geocodigo" df = false →
   App.create_alert_level_distribution df = Raise (KeyError "municipio_geocodigo")).
Proof.
  intros He Hn. split.
  - intros Hd. split.
    + unfold App.create_alert_level_distribution, App.latest_per_municipality, sort_values.
      rewrite He, Hn, Hd. done.
    + intros Hd'. unfold AppSimple.create_alert_distribution,
        AppSimple.latest_per_municipality, AppSimple.date_col, sort_values.
      rewrite He, Hn, Hd, Hd'. cbv zeta. cbn [orb negb].
      by destruct (has_column (AppSimple.geocode_col df) df).
  - intros Hd Hh Hg.
    unfold App.create_alert_level_distribution, App.latest_per_municipality, sort_values.
    rewrite He, Hn, Hd, Hh. cbn [orb negb mbind result_bind]. unfold groupby_tail1.
    change (has_column "municipio_geocodigo" (mkDF (columns df) _))
      with (has_column "municipio_geocodigo" df).
    by rewrite Hg.
Qed.

(** A table whose date column is [data_ini_SE], and one without an
    identifier column. *)
Lemma app_distribution_raises_without_its_columns_witness :
  let renamed := DataFrame_of_records
                   [ Sample.record [("municipio_geocodigo", Num 5103403);
                                    ("data_ini_SE", Date 19723); ("nivel", Num 2)] ] in
  let unnamed := DataFrame_of_records
                   [ Sample.record [("data_iniSE", Date 19723); ("nivel", Num 2)] ] in
  @App.create_alert_level_distribution Sample.parsers renamed
    = Raise (KeyError "data_iniSE") ∧
  @App.create_alert_level_distribution Sample.parsers unnamed
    = Raise (KeyError "municipio_geocodigo").
Proof.
  intros renamed unnamed. split.
  - apply (app_distribution_raises_without_its_columns (H:=Sample.parsers) renamed);
      vm_compute; reflexivity.
  - apply (app_distribution_raises_without_its_columns (H:=Sample.parsers) unnamed);
      vm_compute; reflexivity.
Defined.

Lemma count_levels_le (l : list cell) :
  (length (filter (λ v, v = Num 1) l) + length (filter (λ v, v = Num 2) l)
   + length (filter (λ v, v = Num 3) l) + length (filter (λ v, v = Num 4) l)
   ≤ length (filter (λ v, v ≠ NaN) l))%nat.
Proof.
  induction l as [|x l IH]; [done|].
  rewrite !filter_cons.
  repeat case_decide; subst; try discriminate; try done; cbn [length]; lia.
Qed.

(** X14: the per-level summary of app_simple.py agrees with its chart.
    When the chart is drawn, the summary is the four counts of snapshot
    rows of level 1 to 4; every such level that occurs has its bar, with
    the name and colour of the level and the summary's count as height;
    and the four counts add up to no more than the bars. *)
Theorem level_summary_agrees_with_chart `{Parsers}
    (df df_latest : DataFrame) (chart : list bar) :
  AppSimple.latest_per_municipality df = Ok df_latest →
  AppSimple.create_alert_distribution df = Some chart →
  AppSimpleMain.level_summary df_latest
    = (count_level 1 df_latest, count_level 2 df_latest,
       count_level 3 df_latest, count_level 4 df_latest) ∧
  (∀ level, 1 ≤ level ≤ 4 → (0 < count_level level df_latest)%nat →
     mkBar (App.get_alert_level_info level).1 (count_level level df_latest)
           (App.get_alert_level_info level).2 ∈ chart) ∧
  (count_level 1 df_latest + count_level 2 df_latest
   + count_level 3 df_latest + count_level 4 df_latest
   ≤ sum_list_with bar_value chart)%nat.
Proof.
  intros Hl Hc. unfold AppSimple.create_alert_distribution in Hc.
  destruct (empty df || negb (has_column "nivel" df)) eqn:Hguard; [done|].
  apply orb_false_iff in Hguard as [He Hn]. apply negb_false_iff in Hn.
  rewrite Hl in Hc. cbn [mbind result_bind] in Hc.
  destruct (nivel_counts df_latest) as [counts|] eqn:Hcounts; [|done].
  cbn in Hc. injection Hc as <-.
  destruct (nivel_counts_spec df_latest counts Hcounts)
    as (snap' & counts' & [= <-] & Hcounts' & _ & _ & _ & Hkeys & Hentry & Hsum & _).
  rewrite Hcounts in Hcounts'. injection Hcounts' as <-.
  split; [|split].
  - unfold AppSimpleMain.level_summary.
    change (has_column "nivel" df_latest) with (bool_decide ("nivel" ∈ columns df_latest)).
    rewrite (AppSimple_latest_columns df df_latest Hl).
    change (bool_decide ("nivel" ∈ columns df)) with (has_column "nivel" df).
    by rewrite Hn.
  - intros level Hrange Hpos.
    assert (Hin : Num level ∈ fst <$> counts).
    { apply Hkeys. split; [done|]. unfold count_level in Hpos.
      destruct (filter (λ v, v = Num level) (column "nivel" df_latest)) as [|x xs] eqn:Hf;
        [cbn in Hpos; lia|].
      assert (Hx : x ∈ filter (λ v, v = Num level) (column "nivel" df_latest))
        by (rewrite Hf; left).
      apply list_elem_of_filter in Hx as [-> Hx]. done. }
    apply list_elem_of_fmap in Hin as ([v n] & Hv & Hin). cbn in Hv. subst v.
    pose proof (Hentry _ _ Hin) as Hn'.
    assert (Hcount : n = count_level level df_latest).
    { rewrite Hn'. unfold count_level, column. symmetry. by apply length_filter_fmap. }
    subst n. rewrite <- Hcount.
    apply list_elem_of_fmap. exists (Num level, length (filter (λ r, at_ r "nivel" = Num level) (rows df_latest))).
    split; [|done]. cbn [fst snd].
    destruct (level_cases level) as [->|[->|[->|[->|Hout]]]]; try done; lia.
  - rewrite Hsum. unfold count_level.
    etrans; [apply count_levels_le|]. unfold column.
    apply Nat.eq_le_incl. by apply length_filter_fmap.
Qed.

(** Three municipalities, two on level 2 and one on level 4. *)
Lemma level_summary_agrees_with_chart_witness :
  let df := DataFrame_of_records
              [ Sample.record [("municipio_geocodigo", Num 5103403);
                               ("data_iniSE", Date 19723); ("nivel", Num 2)];
                Sample.record [("municipio_geocodigo", Num 5104402);
                               ("data_iniSE", Date 19723); ("nivel", Num 4)];
                Sample.record [("municipio_geocodigo", Num 5103809);
                               ("data_iniSE", Date 19723); ("nivel", Num 2)] ] in
  ∃ df_latest chart,
    AppSimple.latest_per_municipality df = Ok df_latest ∧
    @AppSimple.create_alert_distribution Sample.parsers df = Some chart ∧
    AppSimpleMain.level_summary df_latest = (0, 2, 0, 1)%nat ∧
    (count_level 1 df_latest + count_level 2 df_latest
     + count_level 3 df_latest + count_level 4 df_latest
     ≤ sum_list_with bar_value chart)%nat.
Proof.
  intros df.
  destruct (AppSimple.latest_per_municipality df) as [df_latest|e] eqn:E;
    [|vm_compute in E; discriminate E].
  destruct (@AppSimple.create_alert_distribution Sample.parsers df) as [chart|] eqn:Ec;
    [|vm_compute in Ec; discriminate Ec].
  assert (Hsum : AppSimpleMain.level_summary <$> AppSimple.latest_per_municipality df
                 = Ok (0, 2, 0, 1)%nat) by (vm_compute; reflexivity).
  rewrite E in Hsum. injection Hsum as Hsum.
  destruct (level_summary_agrees_with_chart (H:=Sample.parsers) df df_latest chart E Ec)
    as (_ & _ & Hle).
  exists df_latest, chart. split; [reflexivity|]. split; [reflexivity|].
  split; [exact Hsum|exact Hle].
Defined.

(** ** The table of municipalities of app_simple.py *)

Lemma at_list_to_map_fn (f : string → cell) (cs : list string) (i : nat) (c : string) :
  at_ (mkRow i (list_to_map ((λ c, (c, f c)) <$> cs))) c
  = if bool_decide (c ∈ cs) then f c else NaN.
Proof.
  unfold at_. cbn [cells]. induction cs as [|x cs IH].
  - rewrite fmap_nil, list_to_map_nil, lookup_empty.
    rewrite bool_decide_eq_false_2; [done|]. by intros ?%elem_of_nil.
  - rewrite fmap_cons, list_to_map_cons. cbn [fst snd].
    destruct (decide (x = c)) as [->|Hne].
    + rewrite lookup_insert_eq. rewrite bool_decide_eq_true_2; [done|left].
    + rewrite lookup_insert_ne by done. rewrite IH.
      destruct (decide (c ∈ cs)) as [Hin|Hnin].
      * rewrite !bool_decide_eq_true_2; [done|by right|done].
      * rewrite !bool_decide_eq_false_2; [done| |done].
        intros [->|?]%elem_of_cons; done.
Qed.

Lemma at_zip_row (names : list string) (vals : list cell) (i k : nat)
    (n : string) (v : cell) :
  NoDup names → names !! k = Some n → vals !! k = Some v →
  at_ (mkRow i (list_to_map (zip names vals))) n = v.
Proof.
  intros Hnd Hn Hv. unfold at_. cbn [cells].
  rewrite (elem_of_list_to_map_1 (M:=gmap string) (zip names vals) n v); [done| |].
  - clear k n v Hn Hv. revert vals. induction Hnd as [|x names Hx Hnd IH];
      intros [|y vals]; cbn; try constructor; [|by apply IH].
    intros Hin. apply Hx. apply list_elem_of_fmap in Hin as ([a b] & -> & Hin).
    apply list_elem_of_lookup in Hin as [j Hj].
    apply lookup_zip_Some in Hj as [Hj _]. cbn. by apply list_elem_of_lookup_2 in Hj.
  - apply list_elem_of_lookup. exists k. by apply lookup_zip_Some.
Qed.

Lemma length_filter_missing {A} (P : A → Prop) `{∀ x, Decision (P x)}
    (l : list A) (x : A) :
  x ∈ l → ¬ P x → (length (filter P l) < length l)%nat.
Proof.
  intros Hin Hx. induction l as [|y l IH]; [by apply elem_of_nil in Hin|].
  rewrite filter_cons. pose proof (length_filter P l) as Hle.
  apply elem_of_cons in Hin as [<-|Hin].
  - rewrite decide_False by done. cbn [length]. lia.
  - specialize (IH Hin). destruct (decide (P y)); cbn [length]; lia.
Qed.

(** X15: [create_municipalities_table] returns [None] whenever the
    table lacks one of the six columns it displays: the selection keeps the
    columns that are there, and assigning six names to fewer columns
    raises. *)
Theorem municipalities_table_needs_all_six_columns
    (df : DataFrame) (c : string) :
  c ∈ AppSimpleMain.cols_to_show →
  has_column c df = false →
  AppSimpleMain.create_municipalities_table df = None.
Proof.
  intros Hin Hc. unfold AppSimpleMain.create_municipalities_table.
  destruct (empty df); [done|].
  destruct (AppSimple.latest_per_municipality df) as [df_latest|] eqn:Hl; [|done].
  cbv zeta. unfold set_columns.
  rewrite bool_decide_eq_false_2; [done|].
  pose proof (length_filter_missing (λ col, has_column col df_latest)
                AppSimpleMain.cols_to_show c Hin) as Hlt.
  change (length AppSimpleMain.display_names) with 6%nat.
  change (length AppSimpleMain.cols_to_show) with 6%nat in Hlt.
  intros Heq. rewrite <- Heq in Hlt. apply (Nat.lt_irrefl 6), Hlt.
  unfold has_column. rewrite (AppSimple_latest_columns df df_latest Hl).
  change (bool_decide (c ∈ columns df)) with (has_column c df). rewrite Hc.
  intros [].
Qed.

(** A table without the incidence column [p_inc100k]. *)
Lemma municipalities_table_needs_all_six_columns_witness :
  let df := DataFrame_of_records
              [ Sample.record [("municipio_geocodigo", Num 5103403);
                               ("municipio_nome", Str "Goiânia");
                               ("data_iniSE", Date 19723); ("casos_est", Num 12);
                               ("casos", Num 10); ("Rt", Num 1); ("nivel", Num 2)] ] in
  AppSimpleMain.create_municipalities_table df = None.
Proof.
  intros df.
  apply (municipalities_table_needs_all_six_columns df "p_inc100k").
  - apply (bool_decide_unpack _). vm_compute. exact I.
  - vm_compute. reflexivity.
Defined.

(** X16: on a non-empty table with the six displayed columns whose
    snapshot can be taken, [create_municipalities_table] returns a table
    with exactly the six display names as columns and one row per snapshot
    row, in the order and under the labels of the snapshot, the i-th
    display name holding the cell of the i-th source column. *)
Theorem municipalities_table_rows (df df_latest : DataFrame) :
  empty df = false →
  (∀ c, c ∈ AppSimpleMain.cols_to_show → has_column c df = true) →
  AppSimple.latest_per_municipality df = Ok df_latest →
  ∃ table,
    AppSimpleMain.create_municipalities_table df = Some table ∧
    columns table = list_to_set AppSimpleMain.display_names ∧
    Forall2 (λ r r',
               label r' = label r ∧
               ∀ i old new,
                 AppSimpleMain.cols_to_show !! i = Some old →
                 AppSimpleMain.display_names !! i = Some new →
                 at_ r' new = at_ r old)
            (rows df_latest) (rows table).
Proof.
  intros He Hall Hl. unfold AppSimpleMain.create_municipalities_table.
  rewrite He, Hl. cbv zeta.
  rewrite (filter_all (λ col, has_column col df_latest)).
  2:{ intros c Hc. unfold has_column. rewrite (AppSimple_latest_columns df df_latest Hl).
      change (bool_decide (c ∈ columns df)) with (has_column c df).
      by rewrite (Hall c Hc). }
  unfold set_columns. rewrite bool_decide_eq_true_2 by done.
  eexists. split; [reflexivity|]. cbn [columns rows]. split; [done|].
  unfold select_columns. cbn [rows]. rewrite <- list_fmap_compose.
  apply Forall2_fmap_r, Forall_Forall2_diag, Forall_forall. intros r _.
  unfold compose. cbn [label]. split; [done|]. intros i old new Hold Hnew.
  apply (at_zip_row _ _ _ i); [|done|].
  - apply (bool_decide_unpack _). vm_compute. exact I.
  - rewrite list_lookup_fmap, Hold. cbn [fmap option_fmap option_map]. f_equal.
    etrans; [apply (at_list_to_map_fn (λ c, at_ r c))|].
    rewrite bool_decide_eq_true_2; [done|].
    by apply list_elem_of_lookup_2 in Hold.
Qed.

(** Two weeks of one municipality with the six columns: the table shows the
    later week. *)
Lemma municipalities_table_rows_witness :
  let df := DataFrame_of_records
              [ Sample.record [("municipio_geocodigo", Num 5103403);
                               ("municipio_nome", Str "Goiânia");
                               ("data_iniSE", Date 19723); ("casos_est", Num 12);
                               ("casos", Num 10); ("p_inc100k", Num 3);
                               ("Rt", Num 1); ("nivel", Num 2)];
                Sample.record [("municipio_geocodigo", Num 5103403);
                               ("municipio_nome", Str "Goiânia");
                               ("data_iniSE", Date 19730); ("casos_est", Num 20);
                               ("casos", Num 15); ("p_inc100k", Num 4);
                               ("Rt", Num 2); ("nivel", Num 3)] ] in
  ∃ table,
    AppSimpleMain.create_municipalities_table df = Some table ∧
    (λ r, (at_ r "Município", at_ r "Casos Estimados", at_ r "Nível")) <$> rows table
      = [(Str "Goiânia", Num 20, Num 3)].
Proof.
  intros df.
  destruct (AppSimple.latest_per_municipality df) as [df_latest|e] eqn:E;
    [|vm_compute in E; discriminate E].
  destruct (municipalities_table_rows df df_latest) as (table & Ht & _).
  - vm_compute. reflexivity.
  - intros c Hc. apply list_elem_of_In in Hc. cbn in Hc.
    destruct Hc as [<-|[<-|[<-|[<-|[<-|[<-|[]]]]]]]; vm_compute; reflexivity.
  - exact E.
  - exists table. split; [exact Ht|].
    assert (E' : fmap (M:=option)
                   (λ t, (λ r, (at_ r "Município", at_ r "Casos Estimados", at_ r "Nível"))
                           <$> rows t)
                   (AppSimpleMain.create_municipalities_table df)
                 = Some [(Str "Goiânia", Num 20, Num 3)]) by (vm_compute; reflexivity).
    rewrite Ht in E'. by injection E'.
Defined.

(** ** The municipality selectors *)

Lemma inverted_snoc {K V} `{Countable V} (items : list (K * V)) (p : K * V) :
  inverted (items ++ [p]) = <[ p.2 := p.1 ]> (inverted items).
Proof.
  unfold inverted, dict_of_pairs. rewrite fmap_app, foldl_app. done.
Qed.

Lemma inverted_lookup {K V} `{Countable V} (items : list (K * V)) (v : V) :
  inverted items !! v = fst <$> last (filter (λ p, p.2 = v) items).
Proof.
  induction items as [|p items IH] using rev_ind.
  - unfold inverted, dict_of_pairs. cbn. apply lookup_empty.
  - rewrite inverted_snoc, filter_app, filter_cons, filter_nil.
    destruct (decide (p.2 = v)) as [<-|Hne].
    + rewrite lookup_insert_eq, last_snoc. done.
    + rewrite lookup_insert_ne by done. rewrite app_nil_r. done.
Qed.

(** X17: the municipality selector inverts the static table.  When the
    names of the table are pairwise distinct, a name is mapped to a geocode
    exactly when the table maps the geocode to that name, so every
    municipality can be selected. *)
Theorem selector_inverts_the_table {K V} `{Countable V}
    (items : list (K * V)) (k : K) (v : V) :
  NoDup items.*2 →
  inverted items !! v = Some k ↔ (k, v) ∈ items.
Proof.
  intros Hnd. rewrite inverted_lookup.
  induction items as [|[k' v'] items IH].
  - cbn. split; [done|by intros ?%elem_of_nil].
  - rewrite fmap_cons in Hnd. apply NoDup_cons in Hnd as [Hnotin Hnd].
    specialize (IH Hnd). rewrite filter_cons, elem_of_cons. cbn [fst snd] in *.
    destruct (decide (v' = v)) as [->|Hne].
    + rewrite (filter_none (λ p : K * V, p.2 = v) items).
      * cbn. split; [intros [= ->]; by left|].
        intros [[= ->]|Hin]; [done|]. exfalso. apply Hnotin.
        apply list_elem_of_fmap. by exists (k, v).
      * intros [a b] Hin Hb. cbn in Hb. subst b. apply Hnotin.
        apply list_elem_of_fmap. by exists (a, v).
    + rewrite IH. split; [by right|]. intros [[= _ ->]|Hin]; done.
Qed.

(** Anápolis in the selectors of [app.py] and [app_simple.py]. *)
Lemma selector_inverts_the_table_witness :
  AppMain.municipality_options !! "Anápolis" = Some "3302155" ∧
  AppSimpleMain.municipality_options !! "Anápolis" = Some 5104402.
Proof.
  split.
  - apply (selector_inverts_the_table AppMain.GOIAS_MUNICIPALITIES "3302155" "Anápolis").
    + apply (bool_decide_unpack _). vm_compute. exact I.
    + apply (bool_decide_unpack _). vm_compute. exact I.
  - apply (selector_inverts_the_table AppSimple.GOIAS_MUNICIPALITIES 5104402 "Anápolis").
    + apply (bool_decide_unpack _). vm_compute. exact I.
    + apply (bool_decide_unpack _). vm_compute. exact I.
Defined.

(** ** The record shown for one municipality by app_simple.py *)

(** X18: the record the single-municipality view of app_simple.py shows
    is a row of the fetched table, and no row of the table comes after it
    in the order of the date column (a missing date coming last). *)
Theorem app_simple_shows_the_latest_record (df_muni : DataFrame) (o : Row) :
  AppSimpleMain.latest_record df_muni = Ok (Some o) →
  o ∈ rows df_muni ∧
  ∀ r, r ∈ rows df_muni →
       cell_le (at_ r (AppSimple.date_col df_muni)) (at_ o (AppSimple.date_col df_muni))
       = true.
Proof.
  unfold AppSimpleMain.latest_record.
  destruct (empty df_muni); cbn [negb]; [done|].
  destruct (sort_values _ df_muni) as [sorted|] eqn:Hs; [|done].
  apply sort_values_Ok in Hs as (_ & _ & ->). cbn. unfold iloc_last. cbn [rows].
  intros [= Hlast]. split.
  - apply last_Some_elem_of in Hlast. by rewrite (stable_sort_perm _ (rows df_muni)) in Hlast.
  - intros r Hr.
    apply (StronglySorted_last (key_le (λ r, at_ r (AppSimple.date_col df_muni)))
             _ o r (λ y, cell_le_refl _) (stable_sort_sorted _ (rows df_muni)) Hlast).
    by rewrite (stable_sort_perm _ (rows df_muni)).
Qed.

(** Two weeks of one municipality, the later one first. *)
Lemma app_simple_shows_the_latest_record_witness :
  let df_muni := DataFrame_of_records
                   [ Sample.record [("data_iniSE", Date 19730); ("casos", Num 9)];
                     Sample.record [("data_iniSE", Date 19723); ("casos", Num 4)] ] in
  ∃ o, AppSimpleMain.latest_record df_muni = Ok (Some o) ∧
       at_ o "casos" = Num 9 ∧ o ∈ rows df_muni.
Proof.
  intros df_muni.
  destruct (AppSimpleMain.latest_record df_muni) as [[o|]|e] eqn:E;
    try (vm_compute in E; discriminate E).
  exists o. split; [reflexivity|]. split.
  - assert (E' : fmap (M:=result) (fmap (M:=option) (λ r, at_ r "casos"))
                   (AppSimpleMain.latest_record df_muni) = Ok (Some (Num 9)))
      by (vm_compute; reflexivity).
    rewrite E in E'. by injection E'.
  - apply (app_simple_shows_the_latest_record df_muni o E).
Defined.

(** ** The two [process_dengue_data] side by side *)

Lemma coerce_columns_absent (f : cell → cell) (cs : list string) (df : DataFrame) :
  (∀ c, c ∈ cs → has_column c df = false) → coerce_columns f cs df = df.
Proof.
  intros Habs. unfold coerce_columns. induction cs as [|c cs IH]; [done|].
  cbn [foldl]. rewrite (Habs c) by left. apply IH. intros c' Hc'. apply Habs. by right.
Qed.

Lemma has_column_fillna0 (c : string) (df : DataFrame) :
  has_column c (fillna0 df) = has_column c df.
Proof. reflexivity. Qed.

Lemma coerce_columns_app (f : cell → cell) (cs cs' : list string) (df : DataFrame) :
  coerce_columns f (cs ++ cs') df = coerce_columns f cs' (coerce_columns f cs df).
Proof. unfold coerce_columns. apply foldl_app. Qed.

Lemma has_column_coerce_columns (f : cell → cell) (cs : list string) (df : DataFrame)
    (c : string) :
  has_column c (coerce_columns f cs df) = has_column c df.
Proof. by rewrite coerce_columns_spec. Qed.

(** X19: the two [process_dengue_data] agree.  On a table without the
    five numeric columns only app.py knows and without a [data_ini_SE]
    column, app.py and fetch_data.py return the same table or raise the
    same exception. *)
Theorem process_variants_agree `{Parsers} (df : DataFrame) :
  (∀ c, c ∈ ["casprov"; "casprov_est"; "casprov_est_min"; "casprov_est_max";
             "casconf"; "data_ini_SE"] →
        has_column c df = false) →
  App.process_dengue_data df = FetchData.process_dengue_data df.
Proof.
  intros Habs.
  change (process_of AppPy df = process_of FetchDataPy df).
  rewrite !process_of_shape. unfold process_with.
  destruct (empty df); [done|].
  change (numeric_cols_of AppPy)
    with (numeric_cols_of FetchDataPy
          ++ ["casprov"; "casprov_est"; "casprov_est_min"; "casprov_est_max"; "casconf"]).
  change (date_cols_of AppPy) with (date_cols_of FetchDataPy ++ ["data_ini_SE"]).
  rewrite (coerce_columns_app to_numeric (numeric_cols_of FetchDataPy) _ df).
  set (X := coerce_columns to_numeric (numeric_cols_of FetchDataPy) df).
  rewrite (coerce_columns_absent to_numeric _ X).
  2:{ intros c Hc. unfold X. rewrite has_column_coerce_columns. apply Habs.
      change (c ∈ ["casprov"; "casprov_est"; "casprov_est_min"; "casprov_est_max";
                    "casconf"] ++ ["data_ini_SE"]).
      apply elem_of_app. by left. }
  rewrite (coerce_columns_app to_datetime (date_cols_of FetchDataPy) _ X).
  set (Y := coerce_columns to_datetime (date_cols_of FetchDataPy) X).
  assert (Hy : has_column "data_ini_SE" Y = false).
  { unfold Y, X. rewrite !has_column_coerce_columns. apply Habs.
    change ("data_ini_SE" ∈ ["casprov"; "casprov_est"; "casprov_est_min";
                              "casprov_est_max"; "casconf"] ++ ["data_ini_SE"]).
    apply elem_of_app. right. left. }
  rewrite (coerce_columns_absent to_datetime _ Y).
  2:{ intros c Hc. apply list_elem_of_singleton in Hc as ->. done. }
  change (date_cols_of FetchDataPy ++ ["data_ini_SE"]) with ["data_iniSE"; "data_ini_SE"].
  rewrite sort_by_first_two.
  change (sort_by_first (date_cols_of FetchDataPy) (fillna0 Y))
    with (sort_by_first ["data_iniSE"] (fillna0 Y)).
  rewrite sort_by_first_one.
  rewrite (has_column_fillna0 "data_ini_SE" Y), Hy.
  destruct (has_column "data_iniSE" (fillna0 Y)); reflexivity.
Qed.

(** Two records with a date and a count. *)
Lemma process_variants_agree_witness :
  let df := DataFrame_of_records
              [ Sample.record [("data_iniSE", Str "2024-01-08"); ("casos", Str "12")];
                Sample.record [("data_iniSE", Str "2024-01-01"); ("casos", NaN)] ] in
  @App.process_dengue_data Sample.parsers df
  = @FetchData.process_dengue_data Sample.parsers df.
Proof.
  intros df. apply (process_variants_agree (H:=Sample.parsers) df).
  intros c Hc. apply list_elem_of_In in Hc. cbn in Hc.
  destruct Hc as [<-|[<-|[<-|[<-|[<-|[<-|[]]]]]]]; vm_compute; reflexivity.
Defined.
